(** * Game-Server-Launcher: the process supervision engine

    A shallow embedding of [server_manager.py] (classes [ServerProcess]
    and [ServerManager]) and the properties of its specification, with
    the configuration store of [config_manager.py], the page functions
    of [main.py] that call the two managers, and [logger.py].

    Layout:
    - [PyStr]     the Python string operations the module uses;
    - [PathLib]   [pathlib.Path] as far as [_resolve_script] needs it;
    - [Runtime]   the world the supervisor runs in (clock, operating-system
                  processes, files, Python heap, logger, threads) and a
                  state-and-exception monad over it;
    - [ServerProcess], [ServerManager]  the two classes, method by method;
    - [Json], [Config]  JSON values and [ConfigManager] over the file it
                  keeps, with its own state-and-exception monad;
    - [Main]      the functions [main.py] exposes to the page;
    - [Logger]    [get_logger];
    - the theorems, one block per property. *)

From Stdlib Require Import ZArith Lia Ascii String List.
From stdpp Require Import base tactics option list strings gmap pretty.

Local Open Scope string_scope.
Local Open Scope Z_scope.

(* ===================================================================== *)
(** ** Python strings *)
(* ===================================================================== *)

Module PyStr.

(** [s[n:]] for [0 <= n]. *)
Fixpoint drop (n : nat) (s : string) : string :=
  match n, s with
  | O, _ => s
  | S _, EmptyString => EmptyString
  | S k, String _ r => drop k r
  end.

(** [s[:n]] for [0 <= n]. *)
Fixpoint take (n : nat) (s : string) : string :=
  match n, s with
  | O, _ => EmptyString
  | S _, EmptyString => EmptyString
  | S k, String c r => String c (take k r)
  end.

(** [s.rfind(c)]; [None] stands for Python's [-1]. *)
Fixpoint rfind (c : ascii) (s : string) : option nat :=
  match s with
  | EmptyString => None
  | String a r =>
      match rfind c r with
      | Some i => Some (S i)
      | None => if Ascii.eqb a c then Some O else None
      end
  end.

(** [s.replace(a, b)] for one-character [a] and [b]. *)
Fixpoint replace (a b : ascii) (s : string) : string :=
  match s with
  | EmptyString => EmptyString
  | String c r => String (if Ascii.eqb c a then b else c) (replace a b r)
  end.

(** [sep.join(l)]. *)
Fixpoint join (sep : string) (l : list string) : string :=
  match l with
  | [] => ""
  | [x] => x
  | x :: r => x ++ sep ++ join sep r
  end.

Definition newline : ascii := Ascii.ascii_of_nat 10.
Definition nl : string := String newline EmptyString.

(** [s.rstrip("\n")]: every trailing line feed is removed. *)
Fixpoint rstrip_nl (s : string) : string :=
  match s with
  | EmptyString => EmptyString
  | String c r =>
      match rstrip_nl r with
      | EmptyString => if Ascii.eqb c newline then EmptyString else String c EmptyString
      | r' => String c r'
      end
  end.

(** [s.lower()] on ASCII text. *)
Definition lower_ascii (c : ascii) : ascii :=
  let n := Ascii.nat_of_ascii c in
  if (Nat.leb 65 n && Nat.leb n 90)%bool then Ascii.ascii_of_nat (n + 32) else c.

Fixpoint lower (s : string) : string :=
  match s with
  | EmptyString => EmptyString
  | String c r => String (lower_ascii c) (lower r)
  end.

(** [s.startswith(p)]. *)
Definition startswith (s p : string) : bool := String.prefix p s.

(** [c in s]. *)
Fixpoint mem (c : ascii) (s : string) : bool :=
  match s with
  | EmptyString => false
  | String a r => Ascii.eqb a c || mem c r
  end.

(** [sub in s]: [sub] occurs in [s] as a contiguous block. *)
Definition contains (s sub : string) : Prop :=
  exists pre post, s = pre ++ sub ++ post.

End PyStr.

(* ===================================================================== *)
(** ** pathlib *)
(* ===================================================================== *)

Module PathLib.

(** A parsed path: the components before the last one (drive and root
    included), and the final component, [Path.name]. *)
Record Path : Type := mkPath { dirs : list string; name : string }.

(** [PurePath.suffix]:
    [i = name.rfind('.'); name[i:] if 0 < i < len(name) - 1 else ''] *)
Definition suffix (p : Path) : string :=
  match PyStr.rfind "." (name p) with
  | Some i =>
      if (Nat.ltb 0 i && Nat.ltb i (String.length (name p) - 1))%bool
      then PyStr.drop i (name p) else ""
  | None => ""
  end.

(** [PurePath.with_suffix(ext)] for a well-formed [ext]; the old suffix,
    when there is one, is cut off the name and [ext] is appended. *)
Definition with_suffix (p : Path) (ext : string) : Path :=
  let old := suffix p in
  mkPath (dirs p)
         (PyStr.take (String.length (name p) - String.length old) (name p) ++ ext).

(** [Path.parent] and [str(path)]. *)
Definition parent (p : Path) : string := PyStr.join "/" (dirs p).
Definition str (p : Path) : string := PyStr.join "/" (dirs p ++ [name p]).

Definition eqb (p q : Path) : bool :=
  bool_decide (dirs p = dirs q) && bool_decide (name p = name q).

End PathLib.

(* ===================================================================== *)
(** ** The runtime: operating system, Python heap, logger, threads *)
(* ===================================================================== *)

Module Runtime.

(** Exceptions.  [FileNotFoundError] is the module's ScriptNotFound; every
    other failure (broken pipe, permission, a failing callback) is an
    ordinary [Exception]. *)
Inductive exn : Type :=
| FileNotFoundError (msg : string)
| Exception (msg : string).

Inductive level : Type := DEBUG | INFO | WARNING | ERROR.

(** The two captured streams of a child. *)
Inductive stream : Type := OUT | ERR.

(** One [readline()] of a pipe: a chunk of text, or a failing read.  A
    pipe with nothing left answers the empty string (end of stream). *)
Inductive chunk : Type := Line (s : string) | ReadFails.

(** [subprocess.Popen]: the child as the supervisor can observe and
    influence it.  Times are clock values in milliseconds.
    - [exit_at = Some (t, rc)]: the child is gone from time [t] on, with
      return code [rc]; [None]: no termination is scheduled;
    - [react text = Some (d, rc)]: reading [text] on its standard input
      makes the child exit [d] ms later with code [rc];
    - [kill_after = Some (d, rc)]: a kill signal takes effect after [d] ms;
      [None]: [kill()] raises;
    - [write_faults], [flush_faults]: the fate of the coming writes and
      flushes of the stdin pipe, [true] for one that raises;
    - [stdout], [stderr]: what the coming [readline()] calls return. *)
Record Popen : Type := mkPopen {
  exit_at : option (Z * Z);
  react : string -> option (Z * Z);
  kill_after : option (Z * Z);
  stdin : bool;
  write_faults : list bool;
  flush_faults : list bool;
  stdin_data : list string;
  stdout : list chunk;
  stderr : list chunk
}.

(** [class ServerProcess], the process handle. *)
Record ServerProcess : Type := mkServerProcess {
  server_id : string;
  name : string;
  process : Popen;
  stdout_lines : list string;
  _stop_requested : bool;
  _reader_threads : list stream
}.

(** Object identity of handles. *)
Definition loc : Type := positive.

(** [on_output]: given the calls made so far, does the call with
    [(server_id, line)] raise? *)
Definition Callback : Type := list (string * string) -> string -> string -> bool.

(** Daemon threads. *)
Inductive task : Type :=
| Reader (h : loc) (s : stream) (on_output : Callback)
| Watcher (sid : string) (on_output : option Callback).

(** Observable effects, in the order they happen. *)
Inductive event : Type :=
| Log (l : level) (msg : string)
| SetStop (h : loc)
| Poll (h : loc) (r : option Z)
| Write (h : loc) (text : string) (ok : bool)
| Flush (h : loc) (ok : bool)
| Kill (h : loc) (ok : bool)
| Wait (h : loc) (rc : Z)
| Sleep (ms : Z)
| Spawn (cmd : list string) (cwd : string) (environment : gmap string string) (shell : bool)
| ReadLine (h : loc) (s : stream) (r : chunk)
| Append (h : loc) (text : string)
| Output (sid line : string) (ok : bool)
| Close (h : loc) (s : stream)
| FileWrite (path content : string) (ok : bool)
| Start (t : task).

Inductive fs_fault : Type := NoFault | OpenFails | WriteFails.

(** What the supervisor does not control. *)
Record Env : Type := mkEnv {
  system : string;                                   (* platform.system() *)
  environ : gmap string string;                      (* os.environ *)
  path_exists : PathLib.Path -> bool;                (* Path.exists() *)
  image : PathLib.Path -> Z -> option Popen;         (* the child a script becomes *)
  file_fault : string -> fs_fault                    (* open(.., "w") and write *)
}.

Record World : Type := mkWorld {
  env : Env;
  now : Z;                                           (* time.time(), in ms *)
  files : gmap string string;
  heap : gmap loc ServerProcess;
  _processes : gmap string loc;                      (* ServerManager._processes *)
  threads : list task;
  trace : list event
}.

Definition set_now (t : Z) (w : World) : World :=
  mkWorld (env w) t (files w) (heap w) (_processes w) (threads w) (trace w).
Definition set_files (f : gmap string string) (w : World) : World :=
  mkWorld (env w) (now w) f (heap w) (_processes w) (threads w) (trace w).
Definition set_heap (hp : gmap loc ServerProcess) (w : World) : World :=
  mkWorld (env w) (now w) (files w) hp (_processes w) (threads w) (trace w).
Definition set_processes (r : gmap string loc) (w : World) : World :=
  mkWorld (env w) (now w) (files w) (heap w) r (threads w) (trace w).
Definition set_threads (ts : list task) (w : World) : World :=
  mkWorld (env w) (now w) (files w) (heap w) (_processes w) ts (trace w).
Definition emit (e : event) (w : World) : World :=
  mkWorld (env w) (now w) (files w) (heap w) (_processes w) (threads w) (trace w ++ [e]).

Definition set_process (p : Popen) (sp : ServerProcess) : ServerProcess :=
  mkServerProcess (server_id sp) (name sp) p (stdout_lines sp)
                  (_stop_requested sp) (_reader_threads sp).
Definition set_stdout_lines (l : list string) (sp : ServerProcess) : ServerProcess :=
  mkServerProcess (server_id sp) (name sp) (process sp) l
                  (_stop_requested sp) (_reader_threads sp).
Definition set_stop_requested (b : bool) (sp : ServerProcess) : ServerProcess :=
  mkServerProcess (server_id sp) (name sp) (process sp) (stdout_lines sp)
                  b (_reader_threads sp).
Definition set_reader_threads (l : list stream) (sp : ServerProcess) : ServerProcess :=
  mkServerProcess (server_id sp) (name sp) (process sp) (stdout_lines sp)
                  (_stop_requested sp) l.

(** *** The monad: state, exceptions, and computations without a result *)

Inductive halt : Type :=
| Blocked        (* a blocking call that never returns *)
| OutOfFuel      (* the loop bound of the model was too small *)
| Dangling.      (* a reference to no object: excluded by [wf] below *)

Inductive outcome (A : Type) : Type :=
| Returns (a : A)
| Raises (e : exn)
| Halts (why : halt).
Arguments Returns {A} a.
Arguments Raises {A} e.
Arguments Halts {A} why.

Definition M (A : Type) : Type := World -> outcome A * World.

Definition ret {A} (a : A) : M A := fun w => (Returns a, w).
Definition raise {A} (e : exn) : M A := fun w => (Raises e, w).
Definition halts {A} (why : halt) : M A := fun w => (Halts why, w).

Definition bind {A B} (m : M A) (k : A -> M B) : M B :=
  fun w =>
    match m w with
    | (Returns a, w') => k a w'
    | (Raises e, w') => (Raises e, w')
    | (Halts why, w') => (Halts why, w')
    end.

(** [try: m  except Exception as e: handler e] *)
Definition try_except {A} (m : M A) (handler : exn -> M A) : M A :=
  fun w =>
    match m w with
    | (Raises e, w') => handler e w'
    | r => r
    end.

Definition get : M World := fun w => (Returns w, w).
Definition modify (f : World -> World) : M unit := fun w => (Returns tt, f w).
Definition tell (e : event) : M unit := modify (emit e).
Definition log (l : level) (msg : string) : M unit := tell (Log l msg).

Declare Scope py_scope.
Delimit Scope py_scope with py.
Notation "x <- m ;; k" := (bind m (fun x => k))
  (at level 100, m at next level, right associativity) : py_scope.
Notation "m ;; k" := (bind m (fun _ => k))
  (at level 100, right associativity) : py_scope.
Local Open Scope py_scope.

(** *** Heap and registry *)

Definition deref (h : loc) : M ServerProcess :=
  fun w => match heap w !! h with
           | Some sp => (Returns sp, w)
           | None => (Halts Dangling, w)
           end.

Definition update (h : loc) (f : ServerProcess -> ServerProcess) : M unit :=
  sp <- deref h ;; modify (fun w => set_heap (<[h := f sp]> (heap w)) w).

(** [ServerProcess(server_id, name, popen)] *)
Definition new_ServerProcess (sid nm : string) (popen : Popen) : M loc :=
  fun w =>
    let h := fresh (dom (heap w)) in
    (Returns h,
     set_heap (<[h := mkServerProcess sid nm popen [] false []]> (heap w)) w).

(** [self._processes.get(server_id)] *)
Definition processes_get (sid : string) : M (option loc) :=
  fun w => (Returns (_processes w !! sid), w).

(** *** The child process *)

Definition status (p : Popen) (t : Z) : option Z :=
  match exit_at p with
  | Some (te, rc) => if te <=? t then Some rc else None
  | None => None
  end.

(** A new cause of death counts when it comes before the scheduled one. *)
Definition schedule (t rc : Z) (p : Popen) : Popen :=
  let e := match exit_at p with
           | Some (te, r) => if te <=? t then Some (te, r) else Some (t, rc)
           | None => Some (t, rc)
           end in
  mkPopen e (react p) (kill_after p) (stdin p) (write_faults p)
          (flush_faults p) (stdin_data p) (stdout p) (stderr p).

Definition set_stdin (b : bool) (p : Popen) : Popen :=
  mkPopen (exit_at p) (react p) (kill_after p) b (write_faults p)
          (flush_faults p) (stdin_data p) (stdout p) (stderr p).
Definition set_write_faults (l : list bool) (p : Popen) : Popen :=
  mkPopen (exit_at p) (react p) (kill_after p) (stdin p) l
          (flush_faults p) (stdin_data p) (stdout p) (stderr p).
Definition set_flush_faults (l : list bool) (p : Popen) : Popen :=
  mkPopen (exit_at p) (react p) (kill_after p) (stdin p) (write_faults p)
          l (stdin_data p) (stdout p) (stderr p).
Definition set_stdin_data (l : list string) (p : Popen) : Popen :=
  mkPopen (exit_at p) (react p) (kill_after p) (stdin p) (write_faults p)
          (flush_faults p) l (stdout p) (stderr p).
Definition pipe (s : stream) (p : Popen) : list chunk :=
  match s with OUT => stdout p | ERR => stderr p end.
Definition set_pipe (s : stream) (l : list chunk) (p : Popen) : Popen :=
  match s with
  | OUT => mkPopen (exit_at p) (react p) (kill_after p) (stdin p) (write_faults p)
                   (flush_faults p) (stdin_data p) l (stderr p)
  | ERR => mkPopen (exit_at p) (react p) (kill_after p) (stdin p) (write_faults p)
                   (flush_faults p) (stdin_data p) (stdout p) l
  end.

(** [x is None] *)
Definition is_none {A} (x : option A) : bool :=
  match x with None => true | Some _ => false end.

(** [process.poll()] *)
Definition poll (h : loc) : M (option Z) :=
  sp <- deref h ;;
  w <- get ;;
  let r := status (process sp) (now w) in
  tell (Poll h r) ;; ret r.

(** [process.wait()] *)
Definition wait (h : loc) : M Z :=
  sp <- deref h ;;
  match exit_at (process sp) with
  | Some (te, rc) =>
      modify (fun w => set_now (Z.max (now w) te) w) ;;
      tell (Wait h rc) ;; ret rc
  | None => halts Blocked
  end.

(** A call on the child of handle [h]: [f], given the time and the child,
    answers the child after the call and what the call returns. *)
Definition on_process {A} (h : loc) (f : Z -> Popen -> Popen * A) : M A :=
  fun w =>
    match heap w !! h with
    | Some sp =>
        let '(p', a) := f (now w) (process sp) in
        (Returns a, set_heap (<[h := set_process p' sp]> (heap w)) w)
    | None => (Halts Dangling, w)
    end.

(** [process.kill()]: nothing to do for a child that is gone; otherwise
    the signal is sent, unless the system refuses. *)
Definition killed (t : Z) (p : Popen) : Popen * bool :=
  match status p t with
  | Some _ => (p, true)
  | None =>
      match kill_after p with
      | Some (d, rc) => (schedule (t + d) rc p, true)
      | None => (p, false)
      end
  end.

Definition kill (h : loc) : M unit :=
  ok <- on_process h killed ;;
  tell (Kill h ok) ;;
  if ok then ret tt else raise (Exception "kill failed").

(** What a child does with [text] arriving on its standard input at
    time [t]. *)
Definition receive (t : Z) (text : string) (p : Popen) : Popen :=
  let p' := set_stdin_data (stdin_data p ++ [text]) p in
  match react p text with
  | Some (d, rc) => schedule (t + d) rc p'
  | None => p'
  end.

(** [process.stdin.write(text)] *)
Definition written (text : string) (t : Z) (p : Popen) : Popen * bool :=
  let p1 := set_write_faults (tail (write_faults p)) p in
  match write_faults p with
  | true :: _ => (p1, false)
  | _ => (receive t text p1, true)
  end.

Definition stdin_write (h : loc) (text : string) : M unit :=
  ok <- on_process h (written text) ;;
  tell (Write h text ok) ;;
  if ok then ret tt else raise (Exception "write failed").

(** [process.stdin.flush()] *)
Definition flushed (t : Z) (p : Popen) : Popen * bool :=
  (set_flush_faults (tail (flush_faults p)) p,
   match flush_faults p with true :: _ => false | _ => true end).

Definition stdin_flush (h : loc) : M unit :=
  ok <- on_process h flushed ;;
  tell (Flush h ok) ;;
  if ok then ret tt else raise (Exception "flush failed").

(** [stream.readline()]: the next chunk of the pipe, the empty string at
    end of stream. *)
Definition read (s : stream) (t : Z) (p : Popen) : Popen * chunk :=
  (set_pipe s (tail (pipe s p)) p,
   match pipe s p with [] => Line "" | c :: _ => c end).

Definition readline (h : loc) (s : stream) : M string :=
  c <- on_process h (read s) ;;
  tell (ReadLine h s c) ;;
  match c with
  | Line text => ret text
  | ReadFails => raise (Exception "read failed")
  end.

(** [time.time()] and [time.sleep(ms)] *)
Definition time : M Z := fun w => (Returns (now w), w).
Definition sleep (ms : Z) : M unit :=
  modify (fun w => set_now (now w + ms) w) ;; tell (Sleep ms).

(** The calls [on_output] has received, oldest first. *)
Definition delivered (tr : list event) : list (string * string) :=
  omap (fun e => match e with Output sid line _ => Some (sid, line) | _ => None end) tr.

(** [on_output(server_id, line)] *)
Definition call (on_output : Callback) (sid line : string) : M unit :=
  w <- get ;;
  if on_output (delivered (trace w)) sid line
  then tell (Output sid line false) ;; raise (Exception "callback failed")
  else tell (Output sid line true).

(** [with open(path, "w", encoding="utf-8") as fh: fh.write(content)] *)
Definition write_file (path content : string) : M unit :=
  w <- get ;;
  match file_fault (env w) path with
  | NoFault =>
      modify (fun w => set_files (<[path := content]> (files w)) w) ;;
      tell (FileWrite path content true)
  | OpenFails =>
      tell (FileWrite path content false) ;; raise (Exception "open failed")
  | WriteFails =>
      modify (fun w => set_files (<[path := ""]> (files w)) w) ;;
      tell (FileWrite path content false) ;; raise (Exception "write failed")
  end.

(** [threading.Thread(target=..., daemon=True).start()] *)
Definition start_thread (t : task) : M unit :=
  modify (fun w => set_threads (threads w ++ [t]) w) ;; tell (Start t).

End Runtime.

Import Runtime.
Local Open Scope py_scope.

(* ===================================================================== *)
(** ** class ServerProcess *)
(* ===================================================================== *)

Module ServerProcess.

(** The body of [_reader(stream, label)] inside [start_readers]:
    [for line in iter(stream.readline, "")], one round per unit of fuel. *)
Fixpoint _reader_loop (fuel : nat) (self : loc) (s : stream)
         (on_output : Callback) : M unit :=
  match fuel with
  | O => halts OutOfFuel
  | S k =>
      line <- readline self s ;;
      if String.eqb line "" then ret tt
      else
        let text := PyStr.rstrip_nl line in
        update self (fun sp => set_stdout_lines (stdout_lines sp ++ [text]) sp) ;;
        tell (Append self text) ;;
        sp <- deref self ;;
        call on_output (server_id sp) text ;;
        _reader_loop k self s on_output
  end.

Definition _reader (fuel : nat) (self : loc) (s : stream)
           (on_output : Callback) : M unit :=
  try_except
    (_reader_loop fuel self s on_output ;; tell (Close self s))
    (fun _ =>
       sp <- deref self ;;
       log ERROR ("Reader thread error for " ++ server_id sp)).

Definition start_readers (self : loc) (on_output : Callback) : M unit :=
  start_thread (Reader self OUT on_output) ;;
  start_thread (Reader self ERR on_output) ;;
  update self (fun sp => set_reader_threads (_reader_threads sp ++ [OUT; ERR]) sp).

(** The pipe is a text stream, never a [Popen], so line 63 writes
    [cmd + "\n"] as text; the fallback writes the same text again. *)
Definition send_command (self : loc) (cmd : string) : M bool :=
  sp <- deref self ;;
  running <- (if stdin (process sp)
              then st <- poll self ;; ret (is_none st)
              else ret false) ;;
  if running then
    written <- try_except
                 (stdin_write self (cmd ++ PyStr.nl) ;; ret true)
                 (fun _ =>
                    try_except
                      (stdin_write self (cmd ++ PyStr.nl) ;; ret true)
                      (fun _ =>
                         log ERROR ("Failed to send command to " ++ server_id sp) ;;
                         ret false)) ;;
    if written then
      try_except (stdin_flush self) (fun _ => ret tt) ;;
      log DEBUG ("Sent command to " ++ server_id sp ++ ": " ++ cmd) ;;
      ret true
    else ret false
  else
    log WARNING ("Cannot send command; process not running for " ++ server_id sp) ;;
    ret false.

Definition collect_console (self : loc) : M string :=
  sp <- deref self ;;
  ret (PyStr.join PyStr.nl (stdout_lines sp)).

End ServerProcess.

(* ===================================================================== *)
(** ** class ServerManager *)
(* ===================================================================== *)

Module ServerManager.

Import PathLib.

Definition is_win (w : World) : bool :=
  PyStr.startswith (PyStr.lower (system (env w))) "win".

Definition _resolve_script (path : Path) : M Path :=
  w <- get ;;
  let p := path in
  if path_exists (env w) p then ret p
  else
    found <- (if is_win w && String.eqb (suffix p) ".sh"
              then let alt := with_suffix p ".bat" in
                   if path_exists (env w) alt then ret (Some alt) else ret None
              else ret None) ;;
    match found with
    | Some alt => ret alt
    | None =>
        found <- (if negb (is_win w) && String.eqb (suffix p) ".bat"
                  then let alt := with_suffix p ".sh" in
                       if path_exists (env w) alt then ret (Some alt) else ret None
                  else ret None) ;;
        match found with
        | Some alt => ret alt
        | None => raise (FileNotFoundError ("Script not found: " ++ str path))
        end
    end.

(** [subprocess.Popen(cmd, cwd=.., env=.., stdin=PIPE, stdout=PIPE,
    stderr=PIPE, bufsize=1, universal_newlines=True, shell=..)]: the child
    the environment makes of the script, with a pipe as standard input. *)
Definition Popen_ (script_path : Path) (cmd : list string) (cwd : string)
           (environment : gmap string string) (shell : bool) : M Popen :=
  w <- get ;;
  match image (env w) script_path (now w) with
  | Some p => tell (Spawn cmd cwd environment shell) ;; ret (set_stdin true p)
  | None => raise (Exception "Popen failed")
  end.

Definition start_server (sid nm : string) (start_script : Path)
           (cwd : option string) (env_ : option (gmap string string))
           (on_output : option Callback) : M unit :=
  known <- processes_get sid ;;
  running <- match known with
             | Some h => st <- poll h ;; ret (is_none st)
             | None => ret false
             end ;;
  if running then log WARNING ("Server " ++ sid ++ " is already running")
  else
    script_path <- try_except (_resolve_script start_script)
                     (fun e =>
                        match e with
                        | FileNotFoundError msg =>
                            log ERROR ("Start failed: " ++ msg) ;; raise e
                        | _ => raise e
                        end) ;;
    w <- get ;;
    let '(cmd, shell) := if is_win w then ([str script_path], true)
                         else (["/bin/sh"; str script_path], false) in
    let cwd' := match cwd with
                | Some c => if String.eqb c "" then parent script_path else c
                | None => parent script_path
                end in
    let env' := default ∅ env_ ∪ environ (env w) in
    popen <- Popen_ script_path cmd cwd' env' shell ;;
    sp <- new_ServerProcess sid nm popen ;;
    match on_output with
    | Some cb => ServerProcess.start_readers sp cb
    | None => ret tt
    end ;;
    modify (fun w => set_processes (<[sid := sp]> (_processes w)) w) ;;
    start_thread (Watcher sid on_output) ;;
    log INFO ("Started server " ++ nm ++ " (" ++ sid ++ ")").

Definition marker (return_code : Z) : string :=
  "[PROCESS EXITED] Return code " ++ pretty return_code.

Definition logname (sp : ServerProcess) : string :=
  PyStr.replace " " "_" (Runtime.name sp ++ "-latest.log").

(** [_watch_process] from the return of [proc.wait()] on: [h] is the
    handle the watcher took from the registry when it started, and it reads
    the stop flag of that object now. *)
Definition _watch_process_on_exit (sid : string) (on_output : option Callback)
           (h : loc) (return_code : Z) : M unit :=
  log INFO ("Process " ++ sid ++ " exited with code " ++ pretty return_code) ;;
  sp <- deref h ;;
  if negb (_stop_requested sp) then
    log WARNING ("Server " ++ sid ++ " exited unexpectedly") ;;
    match on_output with
    | Some cb => call cb sid (marker return_code)
    | None => ret tt
    end ;;
    try_except
      (text <- ServerProcess.collect_console h ;;
       write_file (logname sp) text ;;
       log INFO ("Wrote latest console to " ++ logname sp))
      (fun _ => log ERROR ("Failed to write latest log for " ++ sid))
  else ret tt.

Definition _watch_process (sid : string) (on_output : option Callback) : M unit :=
  found <- processes_get sid ;;
  match found with
  | None => ret tt
  | Some h =>
      return_code <- wait h ;;
      _watch_process_on_exit sid on_output h return_code
  end.

(** [sp._stop_requested = True] *)
Definition request_stop (h : loc) : M unit :=
  update h (set_stop_requested true) ;; tell (SetStop h).

(** [while sp.process.poll() is None and (time.time() - start) < timeout:
       time.sleep(0.2)]
    with [timeout] in seconds and the clock in milliseconds. *)
Fixpoint wait_loop (fuel : nat) (h : loc) (start timeout : Z) : M unit :=
  match fuel with
  | O => halts OutOfFuel
  | S k =>
      st <- poll h ;;
      match st with
      | Some _ => ret tt
      | None =>
          t <- time ;;
          if t - start <? 1000 * timeout
          then sleep 200 ;; wait_loop k h start timeout
          else ret tt
      end
  end.

Definition stop_server (fuel : nat) (sid graceful_cmd : string) (timeout : Z) : M bool :=
  found <- processes_get sid ;;
  match found with
  | None =>
      log WARNING ("Stop called for unknown server " ++ sid) ;;
      ret true
  | Some sp =>
      request_stop sp ;;
      try_except
        (ServerProcess.send_command sp graceful_cmd ;; ret tt)
        (fun _ => log ERROR ("Failed to send graceful command to " ++ sid)) ;;
      start <- time ;;
      wait_loop fuel sp start timeout ;;
      st <- poll sp ;;
      match st with
      | None =>
          try_except
            (kill sp ;; log INFO ("Force killed process for " ++ sid))
            (fun _ => log ERROR ("Failed to kill process for " ++ sid)) ;;
          st' <- poll sp ;;
          ret (negb (is_none st'))
      | Some _ =>
          log INFO ("Server " ++ sid ++ " stopped cleanly") ;;
          ret true
      end
  end.

Definition restart_server (fuel : nat) (sid nm : string) (start_script : Path)
           (cwd : option string) (env_ : option (gmap string string))
           (on_output : option Callback) (config_force_kill : bool) : M unit :=
  stopped <- stop_server fuel sid "stop" 15 ;;
  (if negb stopped then
     log WARNING ("Graceful stop failed for " ++ sid ++ "; will force restart") ;;
     try_except
       (found <- processes_get sid ;;
        match found with
        | Some sp =>
            st <- poll sp ;;
            if is_none st then kill sp else ret tt
        | None => ret tt
        end)
       (fun _ => log ERROR ("Failed to kill during restart for " ++ sid))
   else ret tt) ;;
  modify (fun w => set_processes (delete sid (_processes w)) w) ;;
  start_server sid nm start_script cwd env_ on_output.

Definition send_command (sid cmd : string) : M bool :=
  found <- processes_get sid ;;
  match found with
  | None =>
      log WARNING ("Send command to unknown server " ++ sid) ;;
      ret false
  | Some sp => ServerProcess.send_command sp cmd
  end.

Definition is_running (sid : string) : M bool :=
  found <- processes_get sid ;;
  match found with
  | Some sp => st <- poll sp ;; ret (is_none st)
  | None => ret false
  end.

Definition get_console (sid : string) : M (option string) :=
  found <- processes_get sid ;;
  match found with
  | None => ret None
  | Some sp => text <- ServerProcess.collect_console sp ;; ret (Some text)
  end.

End ServerManager.

(* ===================================================================== *)
(** ** Vocabulary of the properties *)
(* ===================================================================== *)

Module Spec.

(** The extension a platform does not run, and the one it falls back to. *)
Definition foreign_ext (w : World) : string := if ServerManager.is_win w then ".sh" else ".bat".
Definition native_ext (w : World) : string := if ServerManager.is_win w then ".bat" else ".sh".

(** What a computation answers, and the world it leaves. *)
Definition result {A} (m : M A) (w : World) : outcome A := fst (m w).
Definition after {A} (m : M A) (w : World) : World := snd (m w).

(** Every registered handle is an object of the heap, and its child was
    given a pipe as standard input; [start_server] registers no other. *)
Definition wf (w : World) : Prop :=
  forall sid h, _processes w !! sid = Some h ->
    exists sp, heap w !! h = Some sp /\ stdin (process sp) = true.

Definition handle_of (w : World) (sid : string) : option ServerProcess :=
  h ← _processes w !! sid; heap w !! h.

(** [n] rounds of the grace period: a poll that finds the child alive,
    then a sleep of 200 ms. *)
Fixpoint rounds (h : loc) (n : nat) : list event :=
  match n with
  | O => []
  | S k => Poll h None :: Sleep 200 :: rounds h k
  end.

(** A termination signal sent to the child of handle [h]: a line written
    to its standard input, or a kill. *)
Definition is_signal (h : loc) (e : event) : bool :=
  match e with
  | Write h' _ _ => bool_decide (h' = h)
  | Kill h' _ => bool_decide (h' = h)
  | _ => false
  end.

Definition is_file_write (e : event) : bool :=
  match e with FileWrite _ _ _ => true | _ => false end.

(** The events of one captured line that reaches the callback. *)
Definition line_events (h : loc) (s : stream) (sid line : string) (ok : bool)
  : list event :=
  [ReadLine h s (Line line); Append h (PyStr.rstrip_nl line);
   Output sid (PyStr.rstrip_nl line) ok].

(** The stop flag of a heap object, [None] when there is no such object. *)
Definition flag (w : World) (h : loc) : option bool :=
  _stop_requested <$> heap w !! h.

(** From [w] to [w']: the environment is the same, no handle disappears
    or changes identity, and no stop flag goes back to false. *)
Definition evolves (w w' : World) : Prop :=
  env w' = env w /\
  forall h sp, heap w !! h = Some sp ->
    exists sp', heap w' !! h = Some sp' /\
      server_id sp' = server_id sp /\ name sp' = name sp /\
      stdin (process sp') = stdin (process sp) /\
      (_stop_requested sp = true -> _stop_requested sp' = true).

(** The world reached from [w0] by work on the one handle [h]: the handle
    is now [sp], the clock shows [t], the files are [fs], and [evs] has
    happened since. *)
Definition at_ (w0 : World) (h : loc) (sp : ServerProcess) (t : Z)
           (fs : gmap string string) (evs : list event) : World :=
  mkWorld (env w0) t fs (<[h := sp]> (heap w0)) (_processes w0) (threads w0)
          (trace w0 ++ evs).

(** Every run of [m] relates the world before to the world after. *)
Definition respects (R : World -> World -> Prop) {A} (m : M A) : Prop :=
  forall w, R w (after m w).

(** An update of a handle that [evolves] allows. *)
Definition keeps (f : ServerProcess -> ServerProcess) : Prop :=
  forall sp, server_id (f sp) = server_id sp /\ name (f sp) = name sp /\
             stdin (process (f sp)) = stdin (process sp) /\
             (_stop_requested sp = true -> _stop_requested (f sp) = true).

(** From [w] to [w'] only events that satisfy [P] happen. *)
Definition emits (P : event -> Prop) (w w' : World) : Prop :=
  exists evs, trace w' = (trace w ++ evs)%list /\ Forall P evs.

(** The registry is the same. *)
Definition same_registry (w w' : World) : Prop := _processes w' = _processes w.

(** [collect_console]: the buffer, one line per captured line. *)
Definition console (sp : ServerProcess) : string := PyStr.join PyStr.nl (stdout_lines sp).

(** The crash log, once the marker is out. *)
Definition persisted (w : World) (h : loc) (sp : ServerProcess) (sid : string)
           (t : Z) (evs : list event) : World :=
  match file_fault (env w) (ServerManager.logname sp) with
  | NoFault =>
      at_ w h sp t (<[ServerManager.logname sp := console sp]> (files w))
          (evs ++ [FileWrite (ServerManager.logname sp) (console sp) true;
                   Log INFO ("Wrote latest console to " +:+ ServerManager.logname sp)])
  | OpenFails =>
      at_ w h sp t (files w)
          (evs ++ [FileWrite (ServerManager.logname sp) (console sp) false;
                   Log ERROR ("Failed to write latest log for " +:+ sid)])
  | WriteFails =>
      at_ w h sp t (<[ServerManager.logname sp := ""]> (files w))
          (evs ++ [FileWrite (ServerManager.logname sp) (console sp) false;
                   Log ERROR ("Failed to write latest log for " +:+ sid)])
  end.

(** What the watcher logs for every exit, and for an unexpected one. *)
Definition exit_events (h : loc) (sid : string) (rc : Z) : list event :=
  [Wait h rc; Log INFO ("Process " +:+ sid +:+ " exited with code " +:+ pretty rc)].
Definition crash_events (h : loc) (sid : string) (rc : Z) : list event :=
  exit_events h sid rc ++ [Log WARNING ("Server " +:+ sid +:+ " exited unexpectedly")].

(** What one capture task does with the chunks of its stream: the events,
    the texts that reach buffer and callback, and whether it ends at the
    end of the stream ([true]) or on a failure ([false]). *)
Fixpoint drain (h : loc) (s : stream) (cb : Callback) (sid : string)
         (hist : list (string * string)) (chunks : list chunk)
  : list event * list string * bool :=
  match chunks with
  | [] => ([ReadLine h s (Line "")], [], true)
  | ReadFails :: _ => ([ReadLine h s ReadFails], [], false)
  | Line l :: rest =>
      if String.eqb l "" then ([ReadLine h s (Line "")], [], true)
      else
        let text := PyStr.rstrip_nl l in
        let raises := cb hist sid text in
        let pre := [ReadLine h s (Line l); Append h text;
                    Output sid text (negb raises)] in
        if raises then (pre, [text], false)
        else
          let '(evs, texts, ok) := drain h s cb sid (hist ++ [(sid, text)])%list rest in
          ((pre ++ evs)%list, text :: texts, ok)
  end.


(** The world after a successful launch from [w]. *)
Definition launched (w : World) (sid nm : string) (path : PathLib.Path)
           (cwd : option string) (env_ : option (gmap string string))
           (on_output : option Callback) (p : Popen) (evs : list event) : World :=
  let h := fresh (dom (heap w)) in
  let readers := match on_output with
                 | Some cb => [Reader h OUT cb; Reader h ERR cb]
                 | None => []
                 end in
  let cmd := if ServerManager.is_win w then [PathLib.str path] else ["/bin/sh"; PathLib.str path] in
  let cwd' := match cwd with
              | Some c => if String.eqb c "" then PathLib.parent path else c
              | None => PathLib.parent path
              end in
  mkWorld (env w) (now w) (files w)
          (<[h := mkServerProcess sid nm (set_stdin true p) [] false
                    (match on_output with Some _ => [OUT; ERR] | None => [] end)]>
             (heap w))
          (<[sid := h]> (_processes w))
          (threads w ++ readers ++ [Watcher sid on_output])
          (trace w ++ evs
             ++ [Spawn cmd cwd' (default ∅ env_ ∪ environ (env w)) (ServerManager.is_win w)]
             ++ map Start readers
             ++ [Start (Watcher sid on_output);
                 Log INFO ("Started server " +:+ nm +:+ " (" +:+ sid +:+ ")")]).

(** Events that are neither a signal to a child nor a stop request. *)
Definition quiet (e : event) : Prop :=
  match e with
  | Write _ _ _ | Kill _ _ | SetStop _ => False
  | _ => True
  end.

(** Every signal to a child comes after the stop request on its handle. *)
Definition guarded (evs : list event) : Prop :=
  forall pre e post h,
    evs = (pre ++ e :: post)%list -> is_signal h e = true -> SetStop h ∈ pre.

(** The registry is the same at every id but [sid]. *)
Definition others_same (sid : string) (w w' : World) : Prop :=
  forall sid', sid' <> sid -> _processes w' !! sid' = _processes w !! sid'.

(** The events of a command sent to the child of [h]. *)
Definition command_event (h : loc) (e : event) : Prop :=
  match e with
  | Poll h' _ | Write h' _ _ | Flush h' _ => h' = h
  | Log _ _ => True
  | _ => False
  end.

(** The events of stopping the child of [h], once the flag is set. *)
Definition stop_event (h : loc) (e : event) : Prop :=
  match e with
  | Poll h' _ | Write h' _ _ | Flush h' _ | Kill h' _ => h' = h
  | Log _ _ | Sleep _ => True
  | _ => False
  end.

(** The calls on the supervisor and the runs of its threads. *)
Inductive action : Type :=
| StartServer (sid nm : string) (script : PathLib.Path) (cwd : option string)
              (env_ : option (gmap string string)) (on_output : option Callback)
| StopServer (fuel : nat) (sid cmd : string) (timeout : Z)
| RestartServer (fuel : nat) (sid nm : string) (script : PathLib.Path)
                (cwd : option string) (env_ : option (gmap string string))
                (on_output : option Callback) (config_force_kill : bool)
| SendCommand (sid cmd : string)
| IsRunning (sid : string)
| GetConsole (sid : string)
| RunWatcher (sid : string) (on_output : option Callback)
| RunReader (fuel : nat) (h : loc) (s : stream) (on_output : Callback).

Definition perform (a : action) (w : World) : World :=
  match a with
  | StartServer sid nm script cwd env_ cb =>
      after (ServerManager.start_server sid nm script cwd env_ cb) w
  | StopServer fuel sid cmd timeout => after (ServerManager.stop_server fuel sid cmd timeout) w
  | RestartServer fuel sid nm script cwd env_ cb cfk =>
      after (ServerManager.restart_server fuel sid nm script cwd env_ cb cfk) w
  | SendCommand sid cmd => after (ServerManager.send_command sid cmd) w
  | IsRunning sid => after (ServerManager.is_running sid) w
  | GetConsole sid => after (ServerManager.get_console sid) w
  | RunWatcher sid cb => after (ServerManager._watch_process sid cb) w
  | RunReader fuel h s cb => after (ServerProcess._reader fuel h s cb) w
  end.

(** A run of [m] from a well-formed world ends in a well-formed world. *)
Definition keeps_wf {A} (m : M A) : Prop := forall w, wf w -> wf (after m w).

(** A child that no input reaches and no kill stops. *)
Definition stubborn (p : Popen) : Prop :=
  exit_at p = None /\ kill_after p = None /\ forall text, react p text = None.

(** From [w] to [w'] no stubborn child is lost or tamed. *)
Definition outlives (w w' : World) : Prop :=
  forall h sp, heap w !! h = Some sp -> stubborn (process sp) ->
    exists sp', heap w' !! h = Some sp' /\ stubborn (process sp').

End Spec.

Import Spec.

(* ===================================================================== *)
(** ** Sample worlds *)
(* ===================================================================== *)

Module Example.

(** A server that leaves one second after it reads [stop], prints three
    lines, and dies at once when killed. *)
Definition polite : Popen :=
  mkPopen None
          (fun text => if String.eqb text ("stop" ++ PyStr.nl) then Some (1000, 0) else None)
          (Some (0, -9)) true [] [] []
          [Line ("a" ++ PyStr.nl); Line ("b" ++ PyStr.nl); Line ("c" ++ PyStr.nl)] [].

(** A server that ignores its input and takes half a second to die. *)
Definition hung : Popen :=
  mkPopen None (fun _ => None) (Some (500, -9)) true [] [] [] [] [].

(** A server that crashes with code 3 after two seconds. *)
Definition crashing : Popen :=
  mkPopen (Some (2000, 3)) (fun _ => None) (Some (0, -9)) true [] [] []
          [Line ("boot" ++ PyStr.nl); Line ("panic" ++ PyStr.nl)] [].

(** A server whose stdin pipe fails once. *)
Definition flaky : Popen :=
  mkPopen None (fun _ => None) (Some (0, -9)) true [true] [] [] [] [].

Definition run_sh : PathLib.Path := PathLib.mkPath ["srv"] "run.sh".
Definition run_bat : PathLib.Path := PathLib.mkPath ["srv"] "run.bat".

(** A Linux machine where only [srv/run.sh] exists. *)
Definition linux : Env :=
  mkEnv "Linux" ∅
        (fun p => PathLib.eqb p run_sh)
        (fun _ _ => Some polite)
        (fun _ => NoFault).

(** A Windows machine where only [srv/run.bat] exists. *)
Definition windows : Env :=
  mkEnv "Windows" ∅
        (fun p => PathLib.eqb p run_bat)
        (fun _ _ => Some polite)
        (fun _ => NoFault).

Definition patient : Callback := fun _ _ _ => false.
Definition broken : Callback := fun _ _ _ => true.

(** A fresh supervisor. *)
Definition fresh_world (e : Env) : World := mkWorld e 0 ∅ ∅ ∅ [] [].

(** A supervisor with the one server [id1], handle [7], child [p]. *)
Definition handle (p : Popen) (lines : list string) (stop : bool) : ServerProcess :=
  mkServerProcess "id1" "My Server" p lines stop [].

Definition one_server (sp : ServerProcess) : World :=
  mkWorld linux 0 ∅ {[ 7%positive := sp ]} {[ "id1" := 7%positive ]} [] [].

End Example.

(* ===================================================================== *)
(** ** JSON values *)
(* ===================================================================== *)

Module Json.

(** A Python [float]. *)
Inductive float64 : Type :=
| NaN
| Inf (negative : bool)
| Fin (negative : bool) (mantissa : N) (exponent : Z).

(** What [json.load] returns and [json.dump] accepts: [None], [bool],
    [int], [float], [str], [list], and [dict] with string keys.  A [dict]
    is the list of its items, in insertion order; its keys are distinct. *)
#[warnings="-register-all"]
Inductive json : Type :=
| JNull
| JBool (b : bool)
| JInt (n : Z)
| JFloat (x : float64)
| JStr (s : string)
| JList (items : list json)
| JObj (members : list (string * json)).

(** [d.get(k)]; [None] when the key is missing. *)
Fixpoint dict_get (k : string) (d : list (string * json)) : option json :=
  match d with
  | [] => None
  | (k', v) :: rest => if String.eqb k' k then Some v else dict_get k rest
  end.

(** [k in d] *)
Definition dict_has (k : string) (d : list (string * json)) : bool :=
  match dict_get k d with Some _ => true | None => false end.

(** [bool(v)] *)
Definition truthy (v : json) : bool :=
  match v with
  | JNull => false
  | JBool b => b
  | JInt n => negb (n =? 0)
  | JFloat (Fin _ m _) => negb (m =? 0)%N
  | JFloat _ => true
  | JStr s => negb (String.eqb s "")
  | JList l => match l with [] => false | _ => true end
  | JObj o => match o with [] => false | _ => true end
  end.

(** [v == s] for a string [s]. *)
Definition eq_str (v : json) (s : string) : bool :=
  match v with JStr x => String.eqb x s | _ => false end.

End Json.

(* ===================================================================== *)
(** ** config_manager.py *)
(* ===================================================================== *)

Module Config.

Import Json.
Import Runtime (level, DEBUG, INFO, WARNING, ERROR, fs_fault, NoFault, OpenFails, WriteFails).

(** [@dataclass class ServerConfig].  The annotations are not enforced:
    whatever JSON value the file or the caller supplies is stored. *)
Record ServerConfig : Type := mkServerConfig {
  id : json;
  name : json;
  start_script : json;
  cwd : json;
  env : json;
  force_kill_on_stop : json
}.

Definition fields : list string :=
  ["id"; "name"; "start_script"; "cwd"; "env"; "force_kill_on_stop"].

Definition is_field (k : string) : bool := bool_decide (k ∈ fields).

(** [ServerConfig.to_dict], that is [dataclasses.asdict(self)]. *)
Definition to_dict (s : ServerConfig) : json :=
  JObj [("id", id s); ("name", name s); ("start_script", start_script s);
        ("cwd", cwd s); ("env", env s);
        ("force_kill_on_stop", force_kill_on_stop s)].

(** [setattr(s, k, v)] for a field [k]. *)
Definition setattr (s : ServerConfig) (k : string) (v : json) : ServerConfig :=
  if String.eqb k "id" then
    mkServerConfig v (name s) (start_script s) (cwd s) (env s) (force_kill_on_stop s)
  else if String.eqb k "name" then
    mkServerConfig (id s) v (start_script s) (cwd s) (env s) (force_kill_on_stop s)
  else if String.eqb k "start_script" then
    mkServerConfig (id s) (name s) v (cwd s) (env s) (force_kill_on_stop s)
  else if String.eqb k "cwd" then
    mkServerConfig (id s) (name s) (start_script s) v (env s) (force_kill_on_stop s)
  else if String.eqb k "env" then
    mkServerConfig (id s) (name s) (start_script s) (cwd s) v (force_kill_on_stop s)
  else if String.eqb k "force_kill_on_stop" then
    mkServerConfig (id s) (name s) (start_script s) (cwd s) (env s) v
  else s.

(** *** The machine the manager runs on *)

(** A file as [json.load] sees it: a document, or text that it rejects. *)
Inductive content : Type := Doc (v : json) | Junk.

(** One call of the logger: its level and its format string. *)
Record entry : Type := mkEntry { lvl : level; fmt : string }.

(** - [disk]: the files, by path;
    - [unreadable]: the files that [open(.., "r")] refuses;
    - [write_fault]: the fate of [open(.., "w")] and of the dump that follows;
    - [other_attribute]: the names, other than the six fields, that
      [hasattr] finds on a [ServerConfig] (methods and special names);
    - [uuid4 n]: the text of the [n]-th UUID to be drawn; [drawn] counts them;
    - [logged]: the calls of the logger, oldest first. *)
Record Store : Type := mkStore {
  disk : gmap string content;
  unreadable : string -> bool;
  write_fault : string -> fs_fault;
  other_attribute : string -> bool;
  uuid4 : nat -> string;
  drawn : nat;
  logged : list entry
}.

Definition set_disk (d : gmap string content) (st : Store) : Store :=
  mkStore d (unreadable st) (write_fault st) (other_attribute st)
          (uuid4 st) (drawn st) (logged st).
Definition set_drawn (n : nat) (st : Store) : Store :=
  mkStore (disk st) (unreadable st) (write_fault st) (other_attribute st)
          (uuid4 st) n (logged st).
Definition set_logged (l : list entry) (st : Store) : Store :=
  mkStore (disk st) (unreadable st) (write_fault st) (other_attribute st)
          (uuid4 st) (drawn st) l.

(** *** The monad: state and exceptions *)

Inductive error : Type :=
| OSError
| JSONDecodeError
| TypeError
| KeyError (key : string)
| ValueError (msg : string).

(** [Beyond]: the run leaves what is modelled ([setattr] on an attribute
    that is not a field). *)
Inductive answer (A : Type) : Type :=
| Ok (a : A)
| Err (e : error)
| Beyond.
Arguments Ok {A} a.
Arguments Err {A} e.
Arguments Beyond {A}.

Definition C (A : Type) : Type := Store -> answer A * Store.

Definition ret {A} (a : A) : C A := fun st => (Ok a, st).
Definition raise {A} (e : error) : C A := fun st => (Err e, st).
Definition beyond {A} : C A := fun st => (Beyond, st).

Definition bind {A B} (m : C A) (k : A -> C B) : C B :=
  fun st =>
    match m st with
    | (Ok a, st') => k a st'
    | (Err e, st') => (Err e, st')
    | (Beyond, st') => (Beyond, st')
    end.

(** [try: m  except Exception as e: handler e] *)
Definition try_except {A} (m : C A) (handler : error -> C A) : C A :=
  fun st =>
    match m st with
    | (Err e, st') => handler e st'
    | r => r
    end.

Definition state : C Store := fun st => (Ok st, st).
Definition modify (f : Store -> Store) : C unit := fun st => (Ok tt, f st).
Definition log (l : level) (format : string) : C unit :=
  modify (fun st => set_logged (logged st ++ [mkEntry l format]) st).

Declare Scope cfg_scope.
Delimit Scope cfg_scope with cfg.
Notation "x <- m ;; k" := (bind m (fun x => k))
  (at level 100, m at next level, right associativity) : cfg_scope.
Notation "m ;; k" := (bind m (fun _ => k))
  (at level 100, right associativity) : cfg_scope.
Local Open Scope cfg_scope.

(** [for x in l: out.append(f(x))] *)
Fixpoint for_each {A B} (f : A -> C B) (l : list A) : C (list B) :=
  match l with
  | [] => ret []
  | x :: rest => y <- f x ;; ys <- for_each f rest ;; ret (y :: ys)
  end.

(** *** Files, JSON, UUIDs *)


(** [with path.open("r", encoding="utf-8") as fh: json.load(fh)] *)
Definition load (path : string) : C json :=
  st <- state ;;
  match disk st !! path with
  | None => raise OSError
  | Some c =>
      if unreadable st path then raise OSError
      else match c with
           | Doc v => ret v
           | Junk => raise JSONDecodeError
           end
  end.

(** [with path.open("w", encoding="utf-8") as fh: json.dump(v, fh, indent=2)]:
    opening truncates the file; a dump that fails leaves it unfinished. *)
Definition dump (path : string) (v : json) : C unit :=
  st <- state ;;
  match write_fault st path with
  | NoFault => modify (fun st => set_disk (<[path := Doc v]> (disk st)) st)
  | OpenFails => raise OSError
  | WriteFails =>
      modify (fun st => set_disk (<[path := Junk]> (disk st)) st) ;; raise OSError
  end.

(** [str(uuid.uuid4())] *)
Definition new_uuid : C string :=
  st <- state ;;
  modify (set_drawn (S (drawn st))) ;;
  ret (uuid4 st (drawn st)).

(** *** [class ServerConfig], the constructor *)

(** [ServerConfig( **item)]: [item] must be a mapping whose keys are
    fields and include the three that have no default; [None] stands for
    the [TypeError] of every other call. *)
Definition parse (item : json) : option ServerConfig :=
  match item with
  | JObj d =>
      if forallb (fun kv => is_field kv.1) d then
        match dict_get "id" d, dict_get "name" d, dict_get "start_script" d with
        | Some i, Some n, Some s =>
            Some (mkServerConfig i n s
                    (default JNull (dict_get "cwd" d))
                    (default JNull (dict_get "env" d))
                    (default (JBool false) (dict_get "force_kill_on_stop" d)))
        | _, _, _ => None
        end
      else None
  | _ => None
  end.

Definition new_ServerConfig (item : json) : C ServerConfig :=
  match parse item with
  | Some s => ret s
  | None => raise TypeError
  end.

(** What [for item in data] goes through: the elements of a list, the
    keys of a dict, the characters of a string; [None] stands for the
    [TypeError] of a value that is not iterable. *)
Definition items_of (data : json) : option (list json) :=
  match data with
  | JList l => Some l
  | JObj d => Some (map (fun kv => JStr kv.1) d)
  | JStr s => Some (map (fun c => JStr (String c "")) (list_ascii_of_string s))
  | _ => None
  end.

Definition iterate (data : json) : C (list json) :=
  match items_of data with
  | Some l => ret l
  | None => raise TypeError
  end.

(** *** [class ConfigManager] *)

Record ConfigManager : Type := mkConfigManager { path : string }.

Definition load_all (self : ConfigManager) : C (list ServerConfig) :=
  data <- try_except
            (v <- load (path self) ;; ret (Some v))
            (fun e =>
               log ERROR "Failed to load config: %s" ;;
               ret None) ;;
  match data with
  | None => ret []
  | Some data =>
      items <- iterate data ;;
      for_each new_ServerConfig items
  end.

Definition save_all (self : ConfigManager) (servers : list ServerConfig) : C unit :=
  try_except
    (dump (path self) (JList (map to_dict servers)) ;;
     log DEBUG "Saved %d server configs")
    (fun _ => log ERROR "Failed to save configs").



(** [partial[k]] *)
Definition getitem (d : list (string * json)) (k : string) : C json :=
  match dict_get k d with
  | Some v => ret v
  | None => raise (KeyError k)
  end.

Definition add (self : ConfigManager) (partial : list (string * json))
  : C ServerConfig :=
  servers <- load_all self ;;
  sid <- new_uuid ;;
  nm <- getitem partial "name" ;;
  script <- getitem partial "start_script" ;;
  let sc := mkServerConfig (JStr sid) nm script
              (default JNull (dict_get "cwd" partial))
              (default JNull (dict_get "env" partial))
              (JBool (truthy (default (JBool false)
                                (dict_get "force_kill_on_stop" partial)))) in
  save_all self (servers ++ [sc]) ;;
  log INFO "Added server %s (%s)" ;;
  ret sc.

(** [for k, v in update.items(): if hasattr(s, k): setattr(s, k, v)] *)
Fixpoint set_fields (s : ServerConfig) (items : list (string * json))
  : C ServerConfig :=
  match items with
  | [] => ret s
  | (k, v) :: rest =>
      st <- state ;;
      if is_field k then set_fields (setattr s k v) rest
      else if other_attribute st k then beyond
      else set_fields s rest
  end.

(** [for idx, s in enumerate(servers)] of [update], with the servers
    before [idx] in [seen]. *)
Fixpoint update_from (self : ConfigManager) (server_id : string)
         (update : list (string * json)) (seen rest : list ServerConfig)
  : C (option ServerConfig) :=
  match rest with
  | [] =>
      log WARNING "Attempted update for unknown server id %s" ;;
      ret None
  | s :: rest' =>
      if eq_str (id s) server_id then
        s' <- set_fields s update ;;
        save_all self (seen ++ s' :: rest') ;;
        log INFO "Updated server %s" ;;
        ret (Some s')
      else update_from self server_id update (seen ++ [s]) rest'
  end.

Definition update (self : ConfigManager) (server_id : string)
           (update : list (string * json)) : C (option ServerConfig) :=
  servers <- load_all self ;;
  update_from self server_id update [] servers.

Definition remove (self : ConfigManager) (server_id : string) : C bool :=
  servers <- load_all self ;;
  let new := List.filter (fun s => negb (eq_str (id s) server_id)) servers in
  if (length new =? length servers)%nat then
    log WARNING "Attempted to remove unknown server id %s" ;;
    ret false
  else
    save_all self new ;;
    log INFO "Removed server %s" ;;
    ret true.

(** [for s in self.load_all(): if s.id == server_id: return s] *)
Definition get (self : ConfigManager) (server_id : string)
  : C (option ServerConfig) :=
  servers <- load_all self ;;
  ret (List.find (fun s => eq_str (id s) server_id) servers).

End Config.

(* ===================================================================== *)
(** ** main.py: the configuration API of the page *)
(* ===================================================================== *)

Module Main.

Import Json Config.
Local Open Scope cfg_scope.

(** [CONFIG_PATH] and [cfg = ConfigManager()], once its file is ensured. *)
Definition CONFIG_PATH : string := "servers.json".
Definition cfg : ConfigManager := mkConfigManager CONFIG_PATH.

Definition list_servers : C (list json) :=
  items <- load_all cfg ;;
  ret (map to_dict items).

Definition add_server (data : list (string * json)) : C json :=
  if negb (dict_has "name" data) || negb (dict_has "start_script" data)
  then raise (ValueError "name and start_script are required")
  else
    server <- add cfg data ;;
    ret (to_dict server).

Definition edit_server (server_id : string) (data : list (string * json)) : C json :=
  server <- update cfg server_id data ;;
  match server with
  | None => raise (ValueError "server not found")
  | Some s => ret (to_dict s)
  end.

(** *** The page and the two managers together *)

(** The functions of the page that [main.py] calls through [eel]. *)
Inductive js : Type :=
| receive_console_line (server_id line : string)
| show_error (msg : string)
| notify_server_stopped (server_id : string) (success : bool).

(** What the functions of [main.py] work on: the machine of [cfg], the
    world of [mgr], the calls made into the page so far, and which call
    into the page raises, given the calls before it. *)
Record App : Type := mkApp {
  store : Store;
  world : Runtime.World;
  page : list js;
  js_raises : list js -> js -> bool
}.

Definition set_store (st : Store) (a : App) : App :=
  mkApp st (world a) (page a) (js_raises a).
Definition set_world (w : Runtime.World) (a : App) : App :=
  mkApp (store a) w (page a) (js_raises a).
Definition set_page (l : list js) (a : App) : App :=
  mkApp (store a) (world a) l (js_raises a).

Inductive fault : Type :=
| ConfigError (e : error)
| ManagerError (e : Runtime.exn)
| PageError (call : js).

Inductive ending (A : Type) : Type :=
| Done (a : A)
| Failed (f : fault)
| Halted (why : Runtime.halt)
| Unmodelled.
Arguments Done {A} a.
Arguments Failed {A} f.
Arguments Halted {A} why.
Arguments Unmodelled {A}.

Definition P (A : Type) : Type := App -> ending A * App.

Definition done {A} (x : A) : P A := fun a => (Done x, a).

Definition then_ {A B} (m : P A) (k : A -> P B) : P B :=
  fun a =>
    match m a with
    | (Done x, a') => k x a'
    | (Failed f, a') => (Failed f, a')
    | (Halted why, a') => (Halted why, a')
    | (Unmodelled, a') => (Unmodelled, a')
    end.

(** A call on [cfg]. *)
Definition on_cfg {A} (m : C A) : P A :=
  fun a =>
    match m (store a) with
    | (Ok x, st) => (Done x, set_store st a)
    | (Err e, st) => (Failed (ConfigError e), set_store st a)
    | (Beyond, st) => (Unmodelled, set_store st a)
    end.

(** A call on [mgr]. *)
Definition on_mgr {A} (m : Runtime.M A) : P A :=
  fun a =>
    match m (world a) with
    | (Runtime.Returns x, w) => (Done x, set_world w a)
    | (Runtime.Raises e, w) => (Failed (ManagerError e), set_world w a)
    | (Runtime.Halts why, w) => (Halted why, set_world w a)
    end.

(** [eel.f(args)] *)
Definition eel (call : js) : P unit :=
  fun a =>
    (if js_raises a (page a) call then Failed (PageError call) else Done tt,
     set_page (page a ++ [call]) a).

(** [stop_server] of [main.py]; [fuel] bounds the polling loop of the
    manager. *)
Definition stop_server (fuel : nat) (server_id : string) : P unit :=
  then_ (on_cfg (Config.get cfg server_id)) (fun server =>
  match server with
  | None => eel (show_error "Server not found")
  | Some server =>
      then_ (if truthy (force_kill_on_stop server)
             then on_mgr (ServerManager.stop_server fuel server_id "stop" 0)
             else on_mgr (ServerManager.stop_server fuel server_id "stop" 15))
            (fun success => eel (notify_server_stopped server_id success))
  end).

(** [send_command] of [main.py]. *)
Definition send_command (server_id command : string) : P unit :=
  then_ (on_mgr (ServerManager.send_command server_id command)) (fun ok =>
  if negb ok then eel (show_error "Failed to send command (server not running?)")
  else done tt).

End Main.

(* ===================================================================== *)
(** ** logger.py *)
(* ===================================================================== *)

Module Logger.

Import Runtime (level, DEBUG, INFO, WARNING, ERROR).

(** The handlers [get_logger] makes. *)
Inductive Handler : Type :=
| StreamHandler (lvl : level) (format : string)
| RotatingFileHandler (file : string) (maxBytes backupCount : Z)
                      (lvl : level) (format : string).

(** A [logging.Logger]: its level ([None] for [NOTSET]) and its handlers. *)
Record Logger : Type := mkLogger {
  threshold : option level;
  handlers : list Handler
}.

(** The [logging] module: the loggers made so far, by name, and the log
    files that can be opened. *)
Record Logging : Type := mkLogging {
  loggers : gmap string Logger;
  openable : string -> bool
}.

Definition LOG_FILE : string := "game_server_launcher.log".

(** [logging.getLogger(name)]: the logger of that name, made on first use. *)
Definition getLogger (name : string) (lg : Logging) : Logger :=
  default (mkLogger None []) (loggers lg !! name).

Definition put (name : string) (l : Logger) (lg : Logging) : Logging :=
  mkLogging (<[name := l]> (loggers lg)) (openable lg).

(** [get_logger(name)]: the logger, or [None] for the [OSError] of a log
    file that cannot be opened; and the loggers afterwards. *)
Definition get_logger (name : string) (lg : Logging) : option Logger * Logging :=
  let logger := getLogger name lg in
  let lg := put name logger lg in
  match handlers logger with
  | _ :: _ => (Some logger, lg)
  | [] =>
      let logger := mkLogger (Some DEBUG) (handlers logger) in
      let ch := StreamHandler INFO "%(asctime)s - %(levelname)s - %(message)s" in
      let logger := mkLogger (threshold logger) (handlers logger ++ [ch]) in
      let lg := put name logger lg in
      if openable lg LOG_FILE then
        let fh := RotatingFileHandler LOG_FILE (5 * 1024 * 1024) 3 DEBUG
                    "%(asctime)s - %(levelname)s - %(name)s - %(message)s" in
        let logger := mkLogger (threshold logger) (handlers logger ++ [fh]) in
        (Some logger, put name logger lg)
      else (None, lg)
  end.

End Logger.

(* ===================================================================== *)
(** ** Vocabulary of the configuration properties *)
(* ===================================================================== *)

Module ConfigSpec.

Import Json Config.

(** The configurations a document holds; [None] when reading it raises. *)
Definition decode (data : json) : option (list ServerConfig) :=
  items ← items_of data; mapM parse items.

(** The document [json.load] finds at [path], if it finds one. *)
Definition document (st : Store) (path : string) : option json :=
  match disk st !! path with
  | Some (Doc v) => if unreadable st path then None else Some v
  | _ => None
  end.

(** What [load_all] answers in [st]: the configurations of the document,
    the empty list when there is no document to load, [None] when the
    document is not a sequence of configurations. *)
Definition listing (st : Store) (self : ConfigManager) : option (list ServerConfig) :=
  match document st (path self) with
  | Some v => decode v
  | None => Some []
  end.

(** The entry has the id [sid]. *)
Definition has_id (sid : string) (s : ServerConfig) : bool := eq_str (id s) sid.

(** The store with one more line in the log. *)
Definition noted (l : Runtime.level) (format : string) (st : Store) : Store :=
  set_logged (logged st ++ [mkEntry l format]) st.

(** The store after [load_all]: a file that cannot be loaded costs a line
    in the log. *)
Definition loaded (st : Store) (self : ConfigManager) : Store :=
  match document st (path self) with
  | Some _ => st
  | None => noted Runtime.ERROR "Failed to load config: %s" st
  end.

(** The fields an update may name: for every key that is not a field,
    [hasattr] answers [False]. *)
Definition plain (st : Store) (update : list (string * json)) : Prop :=
  Forall (fun kv => is_field kv.1 = false -> other_attribute st kv.1 = false) update.

(** [s] after the assignments of [update], in order. *)
Definition assigned (s : ServerConfig) (update : list (string * json)) : ServerConfig :=
  foldl (fun s kv => setattr s kv.1 kv.2) s update.

(** [getattr(s, k)] for a field [k]. *)
Definition getattr (s : ServerConfig) (k : string) : option json :=
  dict_get k (match to_dict s with JObj d => d | _ => [] end).

(** The configuration [add] makes of [partial] with the id [sid]. *)
Definition made (sid : string) (nm script : json) (partial : list (string * json))
  : ServerConfig :=
  mkServerConfig (JStr sid) nm script
    (default JNull (dict_get "cwd" partial))
    (default JNull (dict_get "env" partial))
    (JBool (truthy (default (JBool false) (dict_get "force_kill_on_stop" partial)))).

(** The store after [save_all servers]. *)
Definition saved (st : Store) (self : ConfigManager) (servers : list ServerConfig)
  : Store :=
  match write_fault st (path self) with
  | Runtime.NoFault =>
      noted Runtime.DEBUG "Saved %d server configs"
            (set_disk (<[path self := Doc (JList (map to_dict servers))]> (disk st)) st)
  | Runtime.OpenFails => noted Runtime.ERROR "Failed to save configs" st
  | Runtime.WriteFails =>
      noted Runtime.ERROR "Failed to save configs"
            (set_disk (<[path self := Junk]> (disk st)) st)
  end.

End ConfigSpec.

(* ===================================================================== *)
(** ** More sample data *)
(* ===================================================================== *)

Module Sample.

Import Runtime Json Config.

(** A child that ignores its input and cannot be killed. *)
Definition immortal : Popen :=
  mkPopen None (fun _ => None) None true [] [] [] [] [].

(** A machine with an empty disk on which every file can be read and
    written; [to_dict] is the one attribute of a configuration that is
    not a field. *)
Definition host : Store :=
  mkStore ∅ (fun _ => false) (fun _ => NoFault)
          (fun k => String.eqb k "to_dict")
          (fun n => "uuid-" ++ pretty n) 0 [].

Definition alpha : ServerConfig :=
  mkServerConfig (JStr "a") (JStr "Alpha") (JStr "alpha/run.sh") JNull JNull (JBool false).
Definition beta : ServerConfig :=
  mkServerConfig (JStr "b") (JStr "Beta") (JStr "beta/run.sh") (JStr "beta") JNull (JBool true).

(** The machine with [servers] saved in [servers.json]. *)
Definition holding (servers : list ServerConfig) : Store :=
  set_disk {[ Main.CONFIG_PATH := Doc (JList (map to_dict servers)) ]} host.

(** The same machine when its disk has become read-only. *)
Definition read_only (st : Store) : Store :=
  mkStore (disk st) (unreadable st) (fun _ => OpenFails) (other_attribute st)
          (uuid4 st) (drawn st) (logged st).

(** The application on machine [st] with the manager in world [w]; the
    page accepts every call. *)
Definition app (st : Store) (w : World) : Main.App :=
  Main.mkApp st w [] (fun _ _ => false).

End Sample.

(* ===================================================================== *)
(** ** Strings and paths *)
(* ===================================================================== *)

Section StringFacts.

Lemma append_cons c a b : String c a ++ b = String c (a ++ b).
Proof. reflexivity. Qed.

Lemma append_nil_l s : "" ++ s = s.
Proof. reflexivity. Qed.

Lemma append_nil_r s : s ++ "" = s.
Proof. induction s as [|c s IH]; [done|]. by rewrite append_cons, IH. Qed.

Lemma append_assoc (a b c : string) : (a ++ b) ++ c = a ++ b ++ c.
Proof. induction a as [|x a IH]; [done|]. by rewrite !append_cons, IH. Qed.




Lemma replace_app a b s t :
  PyStr.replace a b (s ++ t) = PyStr.replace a b s ++ PyStr.replace a b t.
Proof.
  induction s as [|c s IH]; [done|].
  rewrite append_cons. simpl. by rewrite IH, append_cons.
Qed.

Lemma replace_absent a b s : PyStr.mem a s = false -> PyStr.replace a b s = s.
Proof.
  induction s as [|c s IH]; simpl; [done|].
  destruct (Ascii.eqb c a); simpl; [done|].
  intros H. by rewrite IH.
Qed.

Lemma replace_mem a b s : a <> b -> PyStr.mem a (PyStr.replace a b s) = false.
Proof.
  intros Hab. induction s as [|c s IH]; simpl; [done|].
  rewrite IH, orb_false_r.
  destruct (Ascii.eqb c a) eqn:E; [|done].
  apply Ascii.eqb_neq. congruence.
Qed.




End StringFacts.

(* ===================================================================== *)
(** ** Script resolution *)
(* ===================================================================== *)

Section ScriptResolver.

Import PathLib ServerManager.

Lemma resolve_script_run w p :
  _resolve_script p w =
    (if path_exists (env w) p then Returns p
     else if String.eqb (suffix p) (foreign_ext w)
             && path_exists (env w) (with_suffix p (native_ext w))
          then Returns (with_suffix p (native_ext w))
          else Raises (FileNotFoundError ("Script not found: " ++ str p)),
     w).
Proof.
  unfold _resolve_script, foreign_ext, native_ext, bind, get, ret, raise.
  destruct (path_exists (env w) p); [done|].
  destruct (is_win w); cbn [andb negb].
  - destruct (String.eqb (suffix p) ".sh"); [|done].
    by destruct (path_exists (env w) (with_suffix p ".bat")).
  - destruct (String.eqb (suffix p) ".bat"); [|done].
    by destruct (path_exists (env w) (with_suffix p ".sh")).
Qed.

(** The resolver answers a path or raises [FileNotFoundError], and leaves
    the world as it was. *)
Lemma resolve_script_outcome w p :
  exists r, _resolve_script p w = (r, w) /\
    match r with
    | Returns _ => True
    | Raises e => e = FileNotFoundError ("Script not found: " ++ str p)
    | Halts _ => False
    end.
Proof.
  rewrite resolve_script_run. eexists. split; [reflexivity|].
  destruct (path_exists (env w) p); [done|].
  by destruct (String.eqb _ _ && _).
Qed.


End ScriptResolver.

(* ===================================================================== *)
(** ** Running computations *)
(* ===================================================================== *)

Section Monad.

Context {A B : Type}.

Lemma bind_eq (m : M A) (k : A -> M B) w :
  bind m k w = match m w with
               | (Returns a, w') => k a w'
               | (Raises e, w') => (Raises e, w')
               | (Halts y, w') => (Halts y, w')
               end.
Proof. reflexivity. Qed.

Lemma try_eq (m : M A) handler w :
  try_except m handler w = match m w with
                           | (Raises e, w') => handler e w'
                           | r => r
                           end.
Proof. reflexivity. Qed.

Lemma bind_returns (m : M A) (k : A -> M B) w a w' :
  m w = (Returns a, w') -> bind m k w = k a w'.
Proof. intros H. unfold bind. by rewrite H. Qed.

Lemma bind_raises (m : M A) (k : A -> M B) w e w' :
  m w = (Raises e, w') -> bind m k w = (Raises e, w').
Proof. intros H. unfold bind. by rewrite H. Qed.

Lemma bind_halts (m : M A) (k : A -> M B) w y w' :
  m w = (Halts y, w') -> bind m k w = (Halts y, w').
Proof. intros H. unfold bind. by rewrite H. Qed.

Lemma try_returns (m : M A) handler w a w' :
  m w = (Returns a, w') -> try_except m handler w = (Returns a, w').
Proof. intros H. unfold try_except. by rewrite H. Qed.

Lemma try_raises (m : M A) handler w e w' :
  m w = (Raises e, w') -> try_except m handler w = handler e w'.
Proof. intros H. unfold try_except. by rewrite H. Qed.

End Monad.



(** Work on one handle keeps the world in the form [at_ w0 h ..]. *)
Section Run.

Context (w0 : World) (h : loc).
Implicit Types (sp : ServerProcess) (t : Z) (fs : gmap string string).
Implicit Types (evs : list event).

Lemma at_start sp :
  heap w0 !! h = Some sp -> w0 = at_ w0 h sp (now w0) (files w0) [].
Proof.
  intros H. unfold at_. rewrite (insert_id _ _ _ H), app_nil_r. by destruct w0.
Qed.

Lemma deref_at sp t fs evs :
  deref h (at_ w0 h sp t fs evs) = (Returns sp, at_ w0 h sp t fs evs).
Proof. unfold deref, at_; cbn [heap]. by rewrite lookup_insert_eq. Qed.

Lemma update_at f sp t fs evs :
  update h f (at_ w0 h sp t fs evs) = (Returns tt, at_ w0 h (f sp) t fs evs).
Proof.
  unfold update, bind. rewrite deref_at. unfold modify, at_, set_heap; cbn.
  by rewrite insert_insert_eq.
Qed.

Lemma on_process_at {A} (f : Z -> Popen -> Popen * A) sp t fs evs :
  on_process h f (at_ w0 h sp t fs evs)
  = (Returns (snd (f t (process sp))),
     at_ w0 h (set_process (fst (f t (process sp))) sp) t fs evs).
Proof.
  unfold on_process, at_; cbn [heap now]. rewrite lookup_insert_eq.
  destruct (f t (process sp)) as [p' a]. unfold set_heap; cbn.
  by rewrite insert_insert_eq.
Qed.

Lemma tell_at e sp t fs evs :
  tell e (at_ w0 h sp t fs evs) = (Returns tt, at_ w0 h sp t fs (evs ++ [e])).
Proof. unfold tell, modify, emit, at_; cbn. by rewrite app_assoc. Qed.

Lemma log_at l m sp t fs evs :
  log l m (at_ w0 h sp t fs evs)
  = (Returns tt, at_ w0 h sp t fs (evs ++ [Log l m])).
Proof. apply tell_at. Qed.

Lemma poll_at sp t fs evs :
  poll h (at_ w0 h sp t fs evs)
  = (Returns (status (process sp) t),
     at_ w0 h sp t fs (evs ++ [Poll h (status (process sp) t)])).
Proof.
  unfold poll, bind. rewrite deref_at. unfold get. cbn [now at_].
  fold (at_ w0 h sp t fs evs). by rewrite tell_at.
Qed.

Lemma time_at sp t fs evs :
  time (at_ w0 h sp t fs evs) = (Returns t, at_ w0 h sp t fs evs).
Proof. reflexivity. Qed.

Lemma sleep_at ms sp t fs evs :
  sleep ms (at_ w0 h sp t fs evs)
  = (Returns tt, at_ w0 h sp (t + ms) fs (evs ++ [Sleep ms])).
Proof.
  unfold sleep, bind, modify, tell, emit, set_now, at_; cbn.
  by rewrite app_assoc.
Qed.

Lemma processes_get_at sid sp t fs evs :
  processes_get sid (at_ w0 h sp t fs evs)
  = (Returns (_processes w0 !! sid), at_ w0 h sp t fs evs).
Proof. reflexivity. Qed.

Lemma kill_at sp t fs evs :
  kill h (at_ w0 h sp t fs evs)
  = (if snd (killed t (process sp)) then Returns tt
     else Raises (Exception "kill failed"),
     at_ w0 h (set_process (fst (killed t (process sp))) sp) t fs
         (evs ++ [Kill h (snd (killed t (process sp)))])).
Proof.
  unfold kill, bind. rewrite on_process_at, tell_at.
  by destruct (snd (killed t (process sp))).
Qed.

Lemma stdin_write_at text sp t fs evs :
  stdin_write h text (at_ w0 h sp t fs evs)
  = (if snd (written text t (process sp)) then Returns tt
     else Raises (Exception "write failed"),
     at_ w0 h (set_process (fst (written text t (process sp))) sp) t fs
         (evs ++ [Write h text (snd (written text t (process sp)))])).
Proof.
  unfold stdin_write, bind. rewrite on_process_at, tell_at.
  by destruct (snd (written text t (process sp))).
Qed.

Lemma stdin_flush_at sp t fs evs :
  stdin_flush h (at_ w0 h sp t fs evs)
  = (if snd (flushed t (process sp)) then Returns tt
     else Raises (Exception "flush failed"),
     at_ w0 h (set_process (fst (flushed t (process sp))) sp) t fs
         (evs ++ [Flush h (snd (flushed t (process sp)))])).
Proof.
  unfold stdin_flush, bind. rewrite on_process_at, tell_at.
  by destruct (snd (flushed t (process sp))).
Qed.

Lemma readline_at s sp t fs evs :
  readline h s (at_ w0 h sp t fs evs)
  = (match snd (read s t (process sp)) with
     | Line text => Returns text
     | ReadFails => Raises (Exception "read failed")
     end,
     at_ w0 h (set_process (fst (read s t (process sp))) sp) t fs
         (evs ++ [ReadLine h s (snd (read s t (process sp)))])).
Proof.
  unfold readline, bind. rewrite on_process_at, tell_at.
  by destruct (snd (read s t (process sp))).
Qed.

Lemma wait_at sp t fs evs :
  wait h (at_ w0 h sp t fs evs)
  = match exit_at (process sp) with
    | Some (te, rc) =>
        (Returns rc, at_ w0 h sp (Z.max t te) fs (evs ++ [Wait h rc]))
    | None => (Halts Blocked, at_ w0 h sp t fs evs)
    end.
Proof.
  unfold wait, bind. rewrite deref_at.
  destruct (exit_at (process sp)) as [[te rc]|]; [|done].
  unfold modify, tell, emit, set_now, at_; cbn. by rewrite app_assoc.
Qed.

Lemma call_at cb sid line sp t fs evs :
  call cb sid line (at_ w0 h sp t fs evs)
  = (if cb (delivered (trace w0 ++ evs)) sid line
     then Raises (Exception "callback failed") else Returns tt,
     at_ w0 h sp t fs
         (evs ++ [Output sid line (negb (cb (delivered (trace w0 ++ evs)) sid line))])).
Proof.
  unfold call, bind, get. cbn [trace at_]. fold (at_ w0 h sp t fs evs).
  destruct (cb _ sid line); unfold bind; by rewrite tell_at.
Qed.

Lemma write_file_at path content sp t fs evs :
  write_file path content (at_ w0 h sp t fs evs)
  = match file_fault (env w0) path with
    | NoFault =>
        (Returns tt,
         at_ w0 h sp t (<[path := content]> fs)
             (evs ++ [FileWrite path content true]))
    | OpenFails =>
        (Raises (Exception "open failed"),
         at_ w0 h sp t fs (evs ++ [FileWrite path content false]))
    | WriteFails =>
        (Raises (Exception "write failed"),
         at_ w0 h sp t (<[path := ""]> fs)
             (evs ++ [FileWrite path content false]))
    end.
Proof.
  unfold write_file, bind, get. cbn [env at_]. fold (at_ w0 h sp t fs evs).
  destruct (file_fault (env w0) path);
    unfold bind, modify, tell, emit, set_files, raise, at_; cbn;
    by rewrite app_assoc.
Qed.

End Run.

(** *** Handles and children *)

Lemma set_process_id sp : set_process (process sp) sp = sp.
Proof. by destruct sp. Qed.

Lemma set_process_twice a b sp : set_process a (set_process b sp) = set_process a sp.
Proof. reflexivity. Qed.

Lemma process_set_process p sp : process (set_process p sp) = p.
Proof. reflexivity. Qed.
Lemma server_id_set_process p sp : server_id (set_process p sp) = server_id sp.
Proof. reflexivity. Qed.
Lemma name_set_process p sp : name (set_process p sp) = name sp.
Proof. reflexivity. Qed.
Lemma stop_requested_set_process p sp : _stop_requested (set_process p sp) = _stop_requested sp.
Proof. reflexivity. Qed.
Lemma stdout_lines_set_process p sp : stdout_lines (set_process p sp) = stdout_lines sp.
Proof. reflexivity. Qed.
Lemma process_set_stop b sp : process (set_stop_requested b sp) = process sp.
Proof. reflexivity. Qed.
Lemma server_id_set_stop b sp : server_id (set_stop_requested b sp) = server_id sp.
Proof. reflexivity. Qed.
Lemma name_set_stop b sp : name (set_stop_requested b sp) = name sp.
Proof. reflexivity. Qed.
Lemma stop_requested_set_stop b sp : _stop_requested (set_stop_requested b sp) = b.
Proof. reflexivity. Qed.
Lemma stdout_lines_set_stop b sp : stdout_lines (set_stop_requested b sp) = stdout_lines sp.
Proof. reflexivity. Qed.
Lemma process_set_lines l sp : process (set_stdout_lines l sp) = process sp.
Proof. reflexivity. Qed.
Lemma server_id_set_lines l sp : server_id (set_stdout_lines l sp) = server_id sp.
Proof. reflexivity. Qed.
Lemma name_set_lines l sp : name (set_stdout_lines l sp) = name sp.
Proof. reflexivity. Qed.
Lemma stop_requested_set_lines l sp : _stop_requested (set_stdout_lines l sp) = _stop_requested sp.
Proof. reflexivity. Qed.
Lemma stdout_lines_set_lines l sp : stdout_lines (set_stdout_lines l sp) = l.
Proof. reflexivity. Qed.
Lemma set_process_set_stop p b sp :
  set_process p (set_stop_requested b sp) = set_stop_requested b (set_process p sp).
Proof. reflexivity. Qed.
Lemma set_process_set_lines p l sp :
  set_process p (set_stdout_lines l sp) = set_stdout_lines l (set_process p sp).
Proof. reflexivity. Qed.

Create Rewrite HintDb handle.
Hint Rewrite process_set_process server_id_set_process name_set_process
  stop_requested_set_process stdout_lines_set_process
  process_set_stop server_id_set_stop name_set_stop stop_requested_set_stop
  stdout_lines_set_stop process_set_lines server_id_set_lines name_set_lines
  stop_requested_set_lines stdout_lines_set_lines set_process_twice : handle.


(** Symbolic execution of work on one handle. *)
Ltac run1 :=
  first [ rewrite deref_at | rewrite poll_at | rewrite update_at
        | rewrite log_at | rewrite tell_at
        | rewrite stdin_write_at | rewrite stdin_flush_at | rewrite kill_at
        | rewrite time_at | rewrite sleep_at | rewrite processes_get_at
        | rewrite readline_at | rewrite wait_at | rewrite call_at
        | rewrite write_file_at ].

Ltac run :=
  repeat first
    [ rewrite bind_eq | rewrite try_eq | run1
    | progress unfold ret, raise, halts
    | progress autorewrite with handle
    | progress cbn beta iota zeta delta [fst snd is_none negb] ].

Ltac land := rewrite <- ?app_assoc; cbn [app].

Ltac lnorm :=
  repeat first [ rewrite <- app_assoc | rewrite <- app_comm_cons
               | rewrite app_nil_l | rewrite app_nil_r ].

Section Child.
Context (text : string) (t : Z) (p : Popen).

Lemma written_ok :
  (written text t p).2 = match write_faults p with true :: _ => false | _ => true end.
Proof. unfold written. by destruct (write_faults p) as [|[] ?]. Qed.

Lemma written_faults : write_faults (written text t p).1 = tail (write_faults p).
Proof.
  unfold written, receive, schedule.
  destruct (write_faults p) as [|[] ?]; cbn; repeat case_match; done.
Qed.

Lemma written_stdin : stdin (written text t p).1 = stdin p.
Proof.
  unfold written, receive, schedule.
  destruct (write_faults p) as [|[] ?]; cbn; repeat case_match; done.
Qed.

Lemma written_data :
  stdin_data (written text t p).1
  = if (written text t p).2 then (stdin_data p ++ [text])%list else stdin_data p.
Proof.
  unfold written, receive, schedule.
  destruct (write_faults p) as [|[] ?]; cbn; repeat case_match; done.
Qed.

Lemma written_exit : (written text t p).2 = false -> exit_at (written text t p).1 = exit_at p.
Proof. unfold written. by destruct (write_faults p) as [|[] ?]. Qed.

Lemma flushed_stdin : stdin (flushed t p).1 = stdin p.
Proof. reflexivity. Qed.
Lemma flushed_data : stdin_data (flushed t p).1 = stdin_data p.
Proof. reflexivity. Qed.
Lemma flushed_exit : exit_at (flushed t p).1 = exit_at p.
Proof. reflexivity. Qed.
Lemma killed_stdin : stdin (killed t p).1 = stdin p.
Proof. unfold killed, schedule. repeat case_match; done. Qed.
End Child.

Lemma send_command_at w0 h cmd sp t fs evs :
  exists b p' evs',
    ServerProcess.send_command h cmd (at_ w0 h sp t fs evs)
    = (Returns b, at_ w0 h (set_process p' sp) t fs (evs ++ evs')) /\
    stdin p' = stdin (process sp) /\
    Forall (command_event h) evs' /\
    (b = false <->
       stdin (process sp) = false \/ status (process sp) t <> None \/
       exists l, write_faults (process sp) = true :: true :: l) /\
    (b = true ->
       stdin_data p' = (stdin_data (process sp) ++ [cmd +:+ PyStr.nl])%list /\
       exists pre ok post,
         evs' = (pre ++ [Write h (cmd +:+ PyStr.nl) true; Flush h ok] ++ post)%list) /\
    (b = false ->
       stdin_data p' = stdin_data (process sp) /\ exit_at p' = exit_at (process sp)).
Proof.
  unfold ServerProcess.send_command. run.
  destruct (stdin (process sp)) eqn:Hin; run.
  2:{ exists false, (process sp); eexists. rewrite set_process_id. land.
      split; [reflexivity|]. repeat split; try done; eauto.
      repeat constructor. }
  destruct (status (process sp) t) eqn:Hst; run.
  { exists false, (process sp); eexists. rewrite set_process_id. land.
    split; [reflexivity|]. repeat split; try done; eauto.
    repeat constructor. }
  set (text := cmd +:+ PyStr.nl).
  pose proof (written_ok text t (process sp)) as Hok1.
  pose proof (written_data text t (process sp)) as Hd1.
  pose proof (written_faults text t (process sp)) as Hf1.
  pose proof (written_stdin text t (process sp)) as Hs1.
  pose proof (written_exit text t (process sp)) as He1.
  destruct (written text t (process sp)) as [p1 ok1]; cbn [fst snd] in *.
  destruct ok1; run.
  - (* the write succeeds *)
    assert (Hnot : ~ exists l, write_faults (process sp) = true :: true :: l).
    { intros [l Hl]. by rewrite Hl in Hok1. }
    destruct (flushed t p1).2; run; land; do 3 eexists; (split; [reflexivity|]).
    all: rewrite ?flushed_stdin, ?flushed_data.
    all: split; [congruence|]; split; [by repeat constructor|].
    all: split; [split; [done|intros [?|[?|?]]; done]|].
    all: split; [|done].
    all: intros _; split; [done|]; by exists [Poll h None]; eexists; eexists.
  - (* the write fails: the fallback *)
    pose proof (written_ok text t p1) as Hok2.
    pose proof (written_data text t p1) as Hd2.
    pose proof (written_stdin text t p1) as Hs2.
    pose proof (written_exit text t p1) as He2.
    destruct (written text t p1) as [p2 ok2]; cbn [fst snd] in *.
    assert (Hl : exists l, write_faults (process sp) = true :: l).
    { destruct (write_faults (process sp)) as [|[] l]; try done. eauto. }
    destruct Hl as [l Hl]. rewrite Hl in Hf1. cbn [tail] in Hf1. rewrite Hf1 in Hok2.
    destruct ok2; run.
    + assert (Hnot : ~ exists l, write_faults (process sp) = true :: true :: l).
      { intros [l' Hl']. rewrite Hl in Hl'. injection Hl' as ->. done. }
      destruct (flushed t p2).2; run; land; do 3 eexists; (split; [reflexivity|]).
      all: rewrite ?flushed_stdin, ?flushed_data.
      all: split; [congruence|]; split; [by repeat constructor|].
      all: split; [split; [done|intros [?|[?|?]]; done]|].
      all: split; [|done].
      all: intros _; split; [congruence|].
      all: by exists [Poll h None; Write h text false]; eexists; eexists.
    + land. do 3 eexists. split; [reflexivity|].
      split; [congruence|]. split; [by repeat constructor|].
      split; [|split; [done|]].
      * split; [|done]. intros _. right; right.
        destruct l as [|[] l']; try done. eauto.
      * intros _. split; [congruence|]. rewrite He2, He1; done.
Qed.

(* ===================================================================== *)
(** ** Stopping a server *)
(* ===================================================================== *)

Section Stop.

Import ServerManager.

Lemma wait_loop_at w0 h sp fs start timeout :
  forall fuel t evs,
    Z.max 0 (1000 * timeout - (t - start)) + 200 <= 200 * Z.of_nat fuel ->
    exists n : nat,
      wait_loop fuel h start timeout (at_ w0 h sp t fs evs)
      = (Returns tt,
         at_ w0 h sp (t + 200 * Z.of_nat n) fs
             (evs ++ rounds h n
                  ++ [Poll h (status (process sp) (t + 200 * Z.of_nat n))])) /\
      (forall k : nat, (k < n)%nat ->
         status (process sp) (t + 200 * Z.of_nat k) = None /\
         t + 200 * Z.of_nat k - start < 1000 * timeout) /\
      (status (process sp) (t + 200 * Z.of_nat n) <> None \/
       1000 * timeout <= t + 200 * Z.of_nat n - start).
Proof.
  induction fuel as [|fuel IH]; intros t evs Hf; [exfalso; lia|].
  cbn [wait_loop]. run.
  destruct (status (process sp) t) as [rc|] eqn:Hst; run.
  - exists O. rewrite Z.mul_0_r, Z.add_0_r, Hst. split; [done|].
    split; [intros; lia | by left].
  - destruct (t - start <? 1000 * timeout) eqn:Hlt; run.
    + apply Z.ltb_lt in Hlt.
      destruct (IH (t + 200) ((evs ++ [Poll h None]) ++ [Sleep 200])%list)
        as (n & Hrun & Hbefore & Hend); [lia|].
      exists (S n).
      replace (t + 200 * Z.of_nat (S n)) with (t + 200 + 200 * Z.of_nat n) by lia.
      split; [|split].
      * rewrite Hrun. cbn [rounds]. by rewrite <- !app_assoc.
      * intros [|k] Hk.
        { rewrite Z.mul_0_r, Z.add_0_r. split; [done|lia]. }
        { replace (t + 200 * Z.of_nat (S k)) with (t + 200 + 200 * Z.of_nat k) by lia.
          apply Hbefore. lia. }
      * exact Hend.
    + apply Z.ltb_ge in Hlt. exists O. rewrite Z.mul_0_r, Z.add_0_r, Hst.
      split; [done|]. split; [intros; lia | by right].
Qed.

Lemma request_stop_at w0 h sp t fs evs :
  request_stop h (at_ w0 h sp t fs evs)
  = (Returns tt, at_ w0 h (set_stop_requested true sp) t fs (evs ++ [SetStop h])).
Proof. unfold request_stop. by run. Qed.

Lemma stop_server_known w sid h sp fuel cmd timeout :
  _processes w !! sid = Some h ->
  heap w !! h = Some sp ->
  Z.max 0 (1000 * timeout) + 200 <= 200 * Z.of_nat fuel ->
  exists sent p1 evs1 (n : nat),
    let t := now w + 200 * Z.of_nat n in
    let st := status p1 t in
    ServerProcess.send_command h cmd
      (at_ w h (set_stop_requested true sp) (now w) (files w) [SetStop h])
    = (Returns sent,
       at_ w h (set_process p1 (set_stop_requested true sp)) (now w) (files w)
           ([SetStop h] ++ evs1)) /\
    stdin p1 = stdin (process sp) /\
    Forall (command_event h) evs1 /\
    (forall k : nat, (k < n)%nat ->
       status p1 (now w + 200 * Z.of_nat k) = None /\
       200 * Z.of_nat k < 1000 * timeout) /\
    (st <> None \/ 1000 * timeout <= 200 * Z.of_nat n) /\
    stop_server fuel sid cmd timeout w
    = match st with
      | Some rc =>
          (Returns true,
           at_ w h (set_process p1 (set_stop_requested true sp)) t (files w)
               (SetStop h :: evs1 ++ rounds h n
                  ++ [Poll h st; Poll h st;
                      Log INFO ("Server " +:+ sid +:+ " stopped cleanly")]))
      | None =>
          (Returns (negb (is_none (status (killed t p1).1 t))),
           at_ w h (set_process (killed t p1).1 (set_stop_requested true sp)) t (files w)
               (SetStop h :: evs1 ++ rounds h n
                  ++ [Poll h None; Poll h None; Kill h (killed t p1).2;
                      if (killed t p1).2
                      then Log INFO ("Force killed process for " +:+ sid)
                      else Log ERROR ("Failed to kill process for " +:+ sid);
                      Poll h (status (killed t p1).1 t)]))
      end.
Proof.
  intros Hreg Hh Hfuel.
  destruct (send_command_at w h cmd (set_stop_requested true sp) (now w) (files w)
              [SetStop h]) as (sent & p1 & evs1 & Hsend & Hin & Hev & _).
  destruct (wait_loop_at w h (set_process p1 (set_stop_requested true sp)) (files w)
              (now w) timeout fuel (now w) ([SetStop h] ++ evs1)%list)
    as (n & Hwait & Hbefore & Hend); [lia|].
  exists sent, p1, evs1, n. cbn zeta.
  split; [exact Hsend|]. split; [exact Hin|]. split; [exact Hev|].
  autorewrite with handle in Hbefore, Hend.
  split; [intros k Hk; destruct (Hbefore k Hk); split; [done|lia]|].
  split; [destruct Hend; [by left | right; lia]|].
  unfold stop_server. rewrite bind_eq. unfold processes_get at 1. rewrite Hreg.
  cbn beta iota. rewrite (at_start w h sp Hh) at 1.
  rewrite bind_eq, request_stop_at. cbn beta iota.
  rewrite bind_eq, try_eq, bind_eq. cbn [app]. rewrite Hsend. run.
  rewrite Hwait. run.
  destruct (status p1 (now w + 200 * Z.of_nat n)) as [rc|] eqn:Hst; run.
  - by rewrite <- !app_assoc.
  - destruct (killed _ p1).2 eqn:Hk; run; by rewrite <- !app_assoc.
Qed.

Lemma stop_server_unknown w sid cmd timeout fuel :
  _processes w !! sid = None ->
  stop_server fuel sid cmd timeout w
  = (Returns true, emit (Log WARNING ("Stop called for unknown server " +:+ sid)) w).
Proof.
  intros Hreg. unfold stop_server. rewrite bind_eq. unfold processes_get at 1.
  by rewrite Hreg.
Qed.

(** C8.  Stopping an id that has no registered handle answers [True] at
    once, whatever the loop bound, and raises nothing; the registry, the
    heap with every handle, the files, the clock and the threads are as
    before, and the only effect is the warning in the log. *)
Theorem stop_server_without_handle (w : World) (sid cmd : string)
        (timeout : Z) (fuel : nat) :
  _processes w !! sid = None ->
  exists w',
    stop_server fuel sid cmd timeout w = (Returns true, w') /\
    _processes w' = _processes w /\
    heap w' = heap w /\
    files w' = files w /\
    threads w' = threads w /\
    now w' = now w /\
    env w' = env w /\
    trace w'
    = (trace w ++ [Log WARNING ("Stop called for unknown server " +:+ sid)])%list.
Proof.
  intros Hreg. eexists. split.
  - unfold stop_server. rewrite bind_eq. unfold processes_get at 1.
    rewrite Hreg. cbn beta iota. reflexivity.
  - by repeat split.
Qed.

End Stop.

Section StopEscalation.

Import ServerManager.



End StopEscalation.

(* ===================================================================== *)
(** ** Starting and restarting *)
(* ===================================================================== *)

Section StartRestart.

Import ServerManager.

Lemma start_server_running w sid nm h sp script cwd env_ on_output :
  _processes w !! sid = Some h ->
  heap w !! h = Some sp ->
  status (process sp) (now w) = None ->
  start_server sid nm script cwd env_ on_output w
  = (Returns tt,
     at_ w h sp (now w) (files w)
         [Poll h None; Log WARNING ("Server " +:+ sid +:+ " is already running")]).
Proof.
  intros Hreg Hh Hst. unfold start_server. rewrite bind_eq. unfold processes_get at 1.
  rewrite Hreg. cbn beta iota. rewrite (at_start w h sp Hh) at 1.
  run. rewrite Hst. run. reflexivity.
Qed.

(** C9.  Starting an id whose registered handle has a live child returns
    at once and raises nothing: no process is spawned and no thread is
    started; registry, heap (so the handle with its buffer, flag and
    child), files and clock are as before, and the only effects are the
    poll of the child and the warning in the log. *)
Theorem start_server_duplicate (w : World) (sid nm : string) (h : loc)
        (sp : ServerProcess) (script : PathLib.Path) (cwd : option string)
        (env_ : option (gmap string string)) (on_output : option Callback) :
  _processes w !! sid = Some h ->
  heap w !! h = Some sp ->
  status (process sp) (now w) = None ->
  exists w',
    start_server sid nm script cwd env_ on_output w = (Returns tt, w') /\
    _processes w' = _processes w /\
    heap w' = heap w /\
    threads w' = threads w /\
    files w' = files w /\
    now w' = now w /\
    env w' = env w /\
    trace w'
    = (trace w ++ [Poll h None;
                   Log WARNING ("Server " +:+ sid +:+ " is already running")])%list.
Proof.
  intros Hreg Hh Hst. eexists. split.
  - unfold start_server. rewrite bind_eq. unfold processes_get at 1.
    rewrite Hreg. cbn beta iota. rewrite (at_start w h sp Hh) at 1.
    run. rewrite Hst. run. reflexivity.
  - cbn [at_ _processes heap threads files now env trace].
    rewrite (insert_id _ _ _ Hh), <- app_assoc. by repeat split.
Qed.

Lemma start_server_duplicate_witness :
  let w := Example.one_server (Example.handle Example.polite ["a"] false) in
  _processes w !! "id1" = Some 7%positive /\
  heap w !! 7%positive = Some (Example.handle Example.polite ["a"] false) /\
  status Example.polite (now w) = None /\
  exists w',
    start_server "id1" "My Server" Example.run_sh None None (Some Example.patient) w
    = (Returns tt, w') /\
    heap w' = heap w /\ _processes w' = _processes w.
Proof.
  cbn zeta. split; [reflexivity|]. split; [reflexivity|]. split; [reflexivity|].
  destruct (start_server_duplicate
              (Example.one_server (Example.handle Example.polite ["a"] false))
              "id1" "My Server" 7%positive
              (Example.handle Example.polite ["a"] false)
              Example.run_sh None None (Some Example.patient))
    as (w' & Hrun & Hreg & Hheap & _); try reflexivity.
  by exists w'.
Defined.

Lemma start_server_unresolved w sid nm script cwd env_ on_output e :
  _processes w !! sid = None ->
  result (_resolve_script script) w = Raises e ->
  exists msg,
    e = FileNotFoundError msg /\
    start_server sid nm script cwd env_ on_output w
    = (Raises e, emit (Log ERROR ("Start failed: " +:+ msg)) w).
Proof.
  intros Hreg Hres. unfold result in Hres.
  destruct (resolve_script_outcome w script) as (r & Hrun & Hcase).
  rewrite Hrun in Hres. cbn [fst] in Hres. subst r.
  cbn in Hcase. subst e. eexists. split; [reflexivity|].
  unfold start_server. rewrite bind_eq. unfold processes_get at 1.
  rewrite Hreg. cbn beta iota. unfold ret at 1. rewrite bind_eq. cbn beta iota.
  rewrite bind_eq, try_eq, Hrun. reflexivity.
Qed.

Lemma resolve_script_env w1 w2 p :
  env w1 = env w2 ->
  result (_resolve_script p) w1 = result (_resolve_script p) w2.
Proof.
  intros He. unfold result. rewrite !resolve_script_run. cbn [fst].
  unfold foreign_ext, native_ext, is_win. by rewrite He.
Qed.






End StartRestart.

(* ===================================================================== *)
(** ** The watcher *)
(* ===================================================================== *)

Section Watcher.

Import ServerManager.

Lemma collect_console_at w0 h sp t fs evs :
  ServerProcess.collect_console h (at_ w0 h sp t fs evs)
  = (Returns (console sp), at_ w0 h sp t fs evs).
Proof. unfold ServerProcess.collect_console. by run. Qed.

Lemma watch_process_known w sid on_output h sp te rc :
  _processes w !! sid = Some h ->
  heap w !! h = Some sp ->
  exit_at (process sp) = Some (te, rc) ->
  _watch_process sid on_output w
  = let t := Z.max (now w) te in
    if _stop_requested sp
    then (Returns tt, at_ w h sp t (files w) (exit_events h sid rc))
    else
      match on_output with
      | Some cb =>
          if cb (delivered (trace w ++ crash_events h sid rc)) sid (marker rc)
          then (Raises (Exception "callback failed"),
                at_ w h sp t (files w)
                    (crash_events h sid rc ++ [Output sid (marker rc) false]))
          else (Returns tt,
                persisted w h sp sid t
                          (crash_events h sid rc ++ [Output sid (marker rc) true]))
      | None => (Returns tt, persisted w h sp sid t (crash_events h sid rc))
      end.
Proof.
  intros Hreg Hh Hexit. unfold _watch_process, _watch_process_on_exit.
  rewrite bind_eq.
  unfold processes_get at 1. rewrite Hreg. cbn beta iota zeta.
  rewrite (at_start w h sp Hh) at 1. run. rewrite Hexit. run.
  destruct (_stop_requested sp); run; [done|].
  unfold persisted, crash_events, exit_events.
  destruct on_output as [cb|]; run.
  - cbn [app]. destruct (cb _ sid (marker rc)); run; [by lnorm|].
    rewrite collect_console_at. run.
    destruct (file_fault (env w) (logname sp)); run; by lnorm.
  - rewrite collect_console_at. run.
    destruct (file_fault (env w) (logname sp)); run; by lnorm.
Qed.

Lemma delivered_app l1 l2 : delivered (l1 ++ l2) = (delivered l1 ++ delivered l2)%list.
Proof. unfold delivered. apply omap_app. Qed.

Lemma logname_shape sp :
  logname sp = PyStr.replace " " "_" (Runtime.name sp) +:+ "-latest.log" /\
  PyStr.mem " " (logname sp) = false.
Proof.
  unfold logname. split; [by rewrite replace_app|]. by apply replace_mem.
Qed.

Lemma marker_contains rc : PyStr.contains (marker rc) (pretty rc).
Proof. exists "[PROCESS EXITED] Return code ", "". by rewrite append_nil_r. Qed.

(** An unexpected exit with a callback that returns (or with none): one
    marker line with the exit code, then the crash log, named after the
    display name with spaces turned into underscores, holding the buffer;
    a failing write is logged and the watcher returns all the same. *)
Lemma watch_process_unexpected_exit w sid on_output h sp te rc :
  _processes w !! sid = Some h ->
  heap w !! h = Some sp ->
  exit_at (process sp) = Some (te, rc) ->
  _stop_requested sp = false ->
  (forall cb, on_output = Some cb -> cb (delivered (trace w)) sid (marker rc) = false) ->
  exists w' (ok : bool),
    _watch_process sid on_output w = (Returns tt, w') /\
    trace w'
    = (trace w ++ crash_events h sid rc
         ++ match on_output with
            | Some _ => [Output sid (marker rc) true]
            | None => []
            end
         ++ [FileWrite (logname sp) (console sp) ok;
             if ok then Log INFO ("Wrote latest console to " +:+ logname sp)
             else Log ERROR ("Failed to write latest log for " +:+ sid)])%list /\
    (ok = true <-> file_fault (env w) (logname sp) = NoFault) /\
    (ok = true -> files w' = <[logname sp := console sp]> (files w)) /\
    PyStr.contains (marker rc) (pretty rc) /\
    logname sp = PyStr.replace " " "_" (Runtime.name sp) +:+ "-latest.log".
Proof.
  intros Hreg Hh Hexit Hflag Hcb.
  rewrite (watch_process_known w sid on_output h sp te rc Hreg Hh Hexit).
  cbn zeta. rewrite Hflag.
  assert (Hp : forall evs,
    exists ok,
      trace (persisted w h sp sid (Z.max (now w) te) evs)
      = (trace w ++ evs ++ [FileWrite (logname sp) (console sp) ok;
             if ok then Log INFO ("Wrote latest console to " +:+ logname sp)
             else Log ERROR ("Failed to write latest log for " +:+ sid)])%list /\
      (ok = true <-> file_fault (env w) (logname sp) = NoFault) /\
      (ok = true -> files (persisted w h sp sid (Z.max (now w) te) evs)
                    = <[logname sp := console sp]> (files w))).
  { intros evs. unfold persisted.
    destruct (file_fault (env w) (logname sp)); [exists true | exists false..];
      cbn [trace files at_]; repeat split; try done. }
  destruct on_output as [cb|].
  - rewrite delivered_app, app_nil_r, (Hcb cb eq_refl).
    destruct (Hp (crash_events h sid rc ++ [Output sid (marker rc) true])%list)
      as (ok & Htr & Hok & Hf).
    do 2 eexists. split; [reflexivity|]. rewrite Htr.
    split; [by lnorm|]. split; [done|]. split; [done|].
    split; [apply marker_contains | apply logname_shape].
  - destruct (Hp (crash_events h sid rc)) as (ok & Htr & Hok & Hf).
    do 2 eexists. split; [reflexivity|]. rewrite Htr.
    split; [by lnorm|]. split; [done|]. split; [done|].
    split; [apply marker_contains | apply logname_shape].
Qed.

(** An exit after a stop request: neither marker nor crash log. *)
Lemma watch_process_intentional_stop w sid on_output h sp te rc :
  _processes w !! sid = Some h ->
  heap w !! h = Some sp ->
  exit_at (process sp) = Some (te, rc) ->
  _stop_requested sp = true ->
  exists w',
    _watch_process sid on_output w = (Returns tt, w') /\
    trace w' = (trace w ++ exit_events h sid rc)%list /\
    files w' = files w.
Proof.
  intros Hreg Hh Hexit Hflag.
  rewrite (watch_process_known w sid on_output h sp te rc Hreg Hh Hexit).
  cbn zeta. rewrite Hflag. by eexists.
Qed.

(** An unexpected exit with a callback that raises on the marker: the
    exception leaves the watcher before the crash log is written. *)
Lemma watch_process_callback_raises w sid cb h sp te rc :
  _processes w !! sid = Some h ->
  heap w !! h = Some sp ->
  exit_at (process sp) = Some (te, rc) ->
  _stop_requested sp = false ->
  cb (delivered (trace w)) sid (marker rc) = true ->
  exists w',
    _watch_process sid (Some cb) w = (Raises (Exception "callback failed"), w') /\
    trace w' = (trace w ++ crash_events h sid rc ++ [Output sid (marker rc) false])%list /\
    files w' = files w.
Proof.
  intros Hreg Hh Hexit Hflag Hcb.
  rewrite (watch_process_known w sid (Some cb) h sp te rc Hreg Hh Hexit).
  cbn zeta. rewrite Hflag, delivered_app, app_nil_r, Hcb.
  eexists. split; [reflexivity|]. by split.
Qed.

(** C1, at a failing input.  The server [My Server] crashes with code 3
    while its stop flag is false.  With a callback that raises, the watcher
    hands it the marker and the exception leaves [_watch_process]: no
    crash log is opened or written.  With a callback that returns, the
    same crash leaves [My_Server-latest.log] with the buffered console. *)
Theorem watch_process_marker_failure_loses_crash_log :
  let w := Example.one_server (Example.handle Example.crashing ["boot"; "panic"] false) in
  exists w',
    _watch_process "id1" (Some Example.broken) w
    = (Raises (Exception "callback failed"), w') /\
    filter (fun e => is_file_write e = true) (trace w') = [] /\
    files w' = ∅ /\
    result (_watch_process "id1" (Some Example.patient)) w = Returns tt /\
    files (after (_watch_process "id1" (Some Example.patient)) w)
    = {[ "My_Server-latest.log" := "boot" +:+ PyStr.nl +:+ "panic" ]}.
Proof.
  cbn zeta. eexists. split; [|split; [|split; [|split]]].
  - vm_compute. reflexivity.
  - vm_compute. reflexivity.
  - vm_compute. reflexivity.
  - vm_compute. reflexivity.
  - vm_compute. reflexivity.
Qed.

End Watcher.

(* ===================================================================== *)
(** ** Sending commands *)
(* ===================================================================== *)

Section SendCommand.

(** C7.  In a well-formed world [send_command] always returns a boolean and
    never raises.  It answers [False] exactly when the id has no handle,
    or the child of the handle is no longer running, or the write fails
    (the write and its one fallback both raise); nothing reaches the child
    then.  When it answers [True] the text with its line feed has been
    written to the child's standard input and the flush follows the write
    at once (a failing flush is ignored).  The registry is unchanged. *)
Theorem send_command_delivery (w : World) (sid cmd : string) :
  wf w ->
  exists (b : bool) (w' : World),
    ServerManager.send_command sid cmd w = (Returns b, w') /\
    _processes w' = _processes w /\
    (b = false <->
       _processes w !! sid = None \/
       (exists sp, handle_of w sid = Some sp /\
                   status (process sp) (now w) <> None) \/
       (exists sp l, handle_of w sid = Some sp /\
                     write_faults (process sp) = true :: true :: l)) /\
    (b = true ->
       exists h sp sp' pre ok post,
         _processes w !! sid = Some h /\
         heap w !! h = Some sp /\
         heap w' !! h = Some sp' /\
         stdin_data (process sp')
         = (stdin_data (process sp) ++ [cmd +:+ PyStr.nl])%list /\
         trace w'
         = (trace w ++ pre
              ++ [Write h (cmd +:+ PyStr.nl) true; Flush h ok] ++ post)%list) /\
    (b = false ->
       forall sp, handle_of w sid = Some sp ->
         exists sp', handle_of w' sid = Some sp' /\
           stdin_data (process sp') = stdin_data (process sp) /\
           exit_at (process sp') = exit_at (process sp)).
Proof.
  intros Hwf. unfold ServerManager.send_command, handle_of.
  rewrite bind_eq. unfold processes_get at 1.
  destruct (_processes w !! sid) as [h|] eqn:Hreg; cbn beta iota.
  - destruct (Hwf _ _ Hreg) as (sp & Hh & Hin).
    destruct (send_command_at w h cmd sp (now w) (files w) [])
      as (b & p' & evs' & Hrun & _ & _ & Hfalse & Htrue & Hkeep).
    rewrite <- (at_start w h sp Hh) in Hrun. rewrite Hrun.
    exists b. eexists. split; [reflexivity|]. split; [reflexivity|].
    cbn [option_bind mbind]. rewrite Hh. cbn [_processes heap at_ trace].
    rewrite Hreg. cbn. rewrite lookup_insert_eq.
    split; [|split].
    + rewrite Hfalse. split.
      * intros [?|[?|[l Hl]]]; [congruence| |]; right; [left|right]; eauto.
      * intros [?|[(sp0 & [= <-] & ?)|(sp0 & l & [= <-] & ?)]]; [done|..]; eauto.
    + intros Hb. destruct (Htrue Hb) as (Hd & pre & ok & post & ->).
      exists h, sp, (set_process p' sp), pre, ok, post.
      autorewrite with handle. rewrite lookup_insert_eq. by repeat split.
    + intros Hb sp0 [= <-]. eexists. split; [reflexivity|].
      autorewrite with handle. by apply Hkeep.
  - do 2 eexists. split; [reflexivity|]. split; [reflexivity|].
    split; [|split]; [| done |].
    + split; [by left|done].
    + intros _ sp. cbn. done.
Qed.

Lemma send_command_delivery_witness :
  let w := Example.one_server (Example.handle Example.flaky [] false) in
  wf w /\
  result (ServerManager.send_command "id1" "say hi") w = Returns true /\
  result (ServerManager.send_command "nobody" "say hi") w = Returns false.
Proof.
  cbn zeta.
  assert (Hwf : wf (Example.one_server (Example.handle Example.flaky [] false))).
  { intros sid h Hs. exists (Example.handle Example.flaky [] false).
    unfold Example.one_server in *. cbn [_processes heap] in *.
    apply lookup_singleton_Some in Hs as [_ <-]. split; [|done].
    apply lookup_singleton_eq. }
  split; [exact Hwf|].
  destruct (send_command_delivery _ "id1" "say hi" Hwf) as (b & w' & H & _).
  split; [|reflexivity].
  unfold result. rewrite H. cbn [fst]. f_equal.
  assert (Hc : ServerManager.send_command "id1" "say hi"
                 (Example.one_server (Example.handle Example.flaky [] false))
               = (Returns true, after (ServerManager.send_command "id1" "say hi")
                   (Example.one_server (Example.handle Example.flaky [] false)))).
  { vm_compute. reflexivity. }
  rewrite Hc in H. congruence.
Defined.

End SendCommand.

(* ===================================================================== *)
(** ** Output capture *)
(* ===================================================================== *)

Section Capture.

Lemma pipe_set_pipe s l p : pipe s (set_pipe s l p) = l.
Proof. by destruct s. Qed.

Lemma reader_loop_at w0 h s cb fs t :
  forall fuel sp evs devs texts ok,
    (length (pipe s (process sp)) < fuel)%nat ->
    drain h s cb (server_id sp) (delivered (trace w0 ++ evs)) (pipe s (process sp))
    = (devs, texts, ok) ->
    exists sp' r,
      ServerProcess._reader_loop fuel h s cb (at_ w0 h sp t fs evs)
      = (r, at_ w0 h sp' t fs (evs ++ devs)%list) /\
      (if ok then r = Returns tt else exists e, r = Raises e) /\
      stdout_lines sp' = (stdout_lines sp ++ texts)%list /\
      server_id sp' = server_id sp /\
      Runtime.name sp' = Runtime.name sp /\
      _stop_requested sp' = _stop_requested sp.
Proof.
  induction fuel as [|fuel IH]; intros sp evs devs texts ok Hlen Hdrain; [lia|].
  cbn [ServerProcess._reader_loop]. run. unfold read. cbn [fst snd].
  destruct (pipe s (process sp)) as [|[l|] rest] eqn:Hpipe; cbn [drain] in Hdrain; run.
  - injection Hdrain as <- <- <-. do 2 eexists. split; [reflexivity|].
    by rewrite app_nil_r.
  - destruct (String.eqb l "") eqn:Hl.
    + apply String.eqb_eq in Hl as ->. injection Hdrain as <- <- <-. run.
      do 2 eexists. split; [reflexivity|]. by rewrite app_nil_r.
    + run. cbn zeta in Hdrain.
      set (text := PyStr.rstrip_nl l) in *.
      rewrite <- !app_assoc. cbn [app].
      rewrite (app_assoc (trace w0)), (delivered_app (trace w0 ++ evs)).
      cbn [delivered omap]. rewrite app_nil_r.
      destruct (cb (delivered (trace w0 ++ evs)) (server_id sp) text) eqn:Hcb; run.
      * injection Hdrain as <- <- <-. do 2 eexists. split; [reflexivity|].
        autorewrite with handle. split; [by eexists|done].
      * destruct (drain h s cb (server_id sp)
                    (delivered (trace w0 ++ evs) ++ [(server_id sp, text)])%list rest)
          as [[devs1 texts1] ok1] eqn:Hd1.
        injection Hdrain as <- <- <-. cbn [negb].
        match goal with |- context [ServerProcess._reader_loop fuel h s cb (at_ w0 h ?sp1 t fs ?evs1)] =>
          destruct (IH sp1 evs1 devs1 texts1 ok1) as (sp' & r & Hrun & Hr & Hlines & Hid & Hname & Hflag) end.
        { autorewrite with handle. rewrite pipe_set_pipe. cbn [tail].
          cbn [length] in Hlen. lia. }
        { autorewrite with handle. rewrite pipe_set_pipe. cbn [tail].
          rewrite <- Hd1. f_equal.
          by rewrite (app_assoc (trace w0)), (delivered_app (trace w0 ++ evs)). }
        rewrite Hrun. autorewrite with handle in *.
        exists sp', r. split; [by lnorm|]. split; [done|].
        rewrite Hlines. by lnorm.
  - injection Hdrain as <- <- <-. do 2 eexists. split; [reflexivity|].
    rewrite app_nil_r. autorewrite with handle. split; [by eexists|done].
Qed.

Lemma reader_at w0 h s cb fs t fuel sp evs devs texts ok :
  (length (pipe s (process sp)) < fuel)%nat ->
  drain h s cb (server_id sp) (delivered (trace w0 ++ evs)) (pipe s (process sp))
  = (devs, texts, ok) ->
  exists sp',
    ServerProcess._reader fuel h s cb (at_ w0 h sp t fs evs)
    = (Returns tt,
       at_ w0 h sp' t fs
           (evs ++ devs
              ++ [if ok then Close h s
                  else Log ERROR ("Reader thread error for " +:+ server_id sp)])%list) /\
    stdout_lines sp' = (stdout_lines sp ++ texts)%list /\
    server_id sp' = server_id sp /\
    Runtime.name sp' = Runtime.name sp /\
    _stop_requested sp' = _stop_requested sp.
Proof.
  intros Hlen Hdrain.
  destruct (reader_loop_at w0 h s cb fs t fuel sp evs devs texts ok Hlen Hdrain)
    as (sp' & r & Hrun & Hr & Hrest).
  exists sp'. split; [|exact Hrest].
  unfold ServerProcess._reader. rewrite try_eq, bind_eq, Hrun.
  destruct Hrest as (_ & Hid & _).
  destruct ok.
  - subst r. run. by lnorm.
  - destruct Hr as [e ->]. run. rewrite Hid. by lnorm.
Qed.


Lemma drain_clean h s cb sid ls :
  Forall (fun l => l <> "") ls ->
  (forall hist text, cb hist sid text = false) ->
  forall hist,
    drain h s cb sid hist (map Line ls)
    = ((flat_map (fun l => line_events h s sid l true) ls
          ++ [ReadLine h s (Line "")])%list,
       map PyStr.rstrip_nl ls, true).
Proof.
  intros Hne Hcb. induction Hne as [|l ls Hl _ IH]; intros hist; [done|].
  cbn [map drain flat_map]. apply String.eqb_neq in Hl. rewrite Hl. cbn zeta.
  rewrite Hcb, IH. done.
Qed.



End Capture.

(* ===================================================================== *)
(** ** Relations every run respects *)
(* ===================================================================== *)

Create HintDb respects.

Section Respects.
Context (R : World -> World -> Prop) `{!Reflexive R, !Transitive R}.

Lemma respects_ret {A} (a : A) : respects R (ret a).
Proof. intros w. apply reflexivity. Qed.
Lemma respects_raise {A} e : respects R (@raise A e).
Proof. intros w. apply reflexivity. Qed.
Lemma respects_halts {A} y : respects R (@halts A y).
Proof. intros w. apply reflexivity. Qed.
Lemma respects_get : respects R get.
Proof. intros w. apply reflexivity. Qed.
Lemma respects_time : respects R time.
Proof. intros w. apply reflexivity. Qed.
Lemma respects_processes_get sid : respects R (processes_get sid).
Proof. intros w. apply reflexivity. Qed.
Lemma respects_deref h : respects R (deref h).
Proof. intros w. unfold after, deref. destruct (heap w !! h); apply reflexivity. Qed.
Lemma respects_bind {A B} (m : M A) (k : A -> M B) :
  respects R m -> (forall a, respects R (k a)) -> respects R (bind m k).
Proof.
  intros Hm Hk w. specialize (Hm w). unfold after, bind in *.
  destruct (m w) as [[a|e|y] w1]; cbn [snd] in *; [|done..].
  etrans; [exact Hm|]. apply Hk.
Qed.
Lemma respects_try {A} (m : M A) handler :
  respects R m -> (forall e, respects R (handler e)) ->
  respects R (try_except m handler).
Proof.
  intros Hm Hk w. specialize (Hm w). unfold after, try_except in *.
  destruct (m w) as [[a|e|y] w1]; cbn [snd] in *; [done| |done].
  etrans; [exact Hm|]. apply Hk.
Qed.
Lemma respects_modify f : (forall w, R w (f w)) -> respects R (modify f).
Proof. intros H w. apply H. Qed.
End Respects.

(** *** The three relations *)

Global Instance evolves_refl : Reflexive evolves.
Proof. intros w. split; [done|]. intros h sp H. eauto 10. Qed.
Global Instance evolves_trans : Transitive evolves.
Proof.
  intros w1 w2 w3 [He1 H1] [He2 H2]. split; [congruence|].
  intros h sp Hh. destruct (H1 _ _ Hh) as (sp2 & Hh2 & ? & ? & ? & ?).
  destruct (H2 _ _ Hh2) as (sp3 & Hh3 & ? & ? & ? & ?).
  exists sp3. repeat split; try congruence. auto.
Qed.

Global Instance emits_refl P : Reflexive (emits P).
Proof. intros w. exists []. by rewrite app_nil_r. Qed.
Global Instance emits_trans P : Transitive (emits P).
Proof.
  intros w1 w2 w3 (e1 & H1 & F1) (e2 & H2 & F2). exists (e1 ++ e2)%list.
  split; [by rewrite H2, H1, app_assoc | by apply Forall_app].
Qed.

Global Instance same_registry_refl : Reflexive same_registry.
Proof. by intros w. Qed.
Global Instance same_registry_trans : Transitive same_registry.
Proof. unfold same_registry. intros w1 w2 w3 H1 H2. congruence. Qed.

Lemma evolves_same_heap w w' : env w' = env w -> heap w' = heap w -> evolves w w'.
Proof. intros He Hh. split; [done|]. intros h sp H. rewrite Hh. eauto 10. Qed.

Lemma evolves_update h f sp w :
  heap w !! h = Some sp ->
  server_id (f sp) = server_id sp -> Runtime.name (f sp) = Runtime.name sp ->
  stdin (process (f sp)) = stdin (process sp) ->
  (_stop_requested sp = true -> _stop_requested (f sp) = true) ->
  evolves w (set_heap (<[h := f sp]> (heap w)) w).
Proof.
  intros Hh ? ? ? ?. split; [done|]. intros h' sp' Hh'. cbn [heap set_heap].
  destruct (decide (h' = h)) as [->|Hne].
  - rewrite lookup_insert_eq. exists (f sp). rewrite Hh in Hh'. by injection Hh' as <-.
  - rewrite lookup_insert_ne by done. exists sp'. by repeat split.
Qed.

Lemma respects_evolves_update h f : keeps f -> respects evolves (update h f).
Proof.
  intros Hf w. unfold after, update, bind, deref, modify.
  destruct (heap w !! h) as [sp|] eqn:Hh; cbn [snd]; [|done].
  destruct (Hf sp) as (?&?&?&?). by apply evolves_update.
Qed.

Lemma respects_evolves_on_process {A} h (f : Z -> Popen -> Popen * A) :
  (forall t p, stdin (f t p).1 = stdin p) -> respects evolves (on_process h f).
Proof.
  intros Hf w. unfold after, on_process.
  destruct (heap w !! h) as [sp|] eqn:Hh; cbn [snd]; [|done].
  specialize (Hf (now w) (process sp)).
  destruct (f (now w) (process sp)) as [p' a]. cbn [fst snd] in *.
  by apply (evolves_update h (set_process p')).
Qed.

Lemma respects_evolves_new sid nm popen : respects evolves (new_ServerProcess sid nm popen).
Proof.
  intros w. unfold after, new_ServerProcess. cbn [snd]. split; [done|].
  intros h sp Hh. cbn [heap set_heap]. exists sp.
  rewrite lookup_insert_ne; [by repeat split|].
  intros <-. apply (is_fresh (dom (heap w))). apply elem_of_dom. eauto.
Qed.

Lemma emits_same_trace P w w' : trace w' = trace w -> emits P w w'.
Proof. intros H. exists []. by rewrite app_nil_r. Qed.
Lemma emits_emit (P : event -> Prop) e w : P e -> emits P w (emit e w).
Proof. intros H. exists [e]. split; [done|]. by constructor. Qed.

Lemma respects_emits_update P h f : respects (emits P) (update h f).
Proof.
  intros w. unfold after, update, bind, deref, modify.
  destruct (heap w !! h); cbn [snd]; by apply emits_same_trace.
Qed.
Lemma respects_emits_on_process {A} P h (f : Z -> Popen -> Popen * A) :
  respects (emits P) (on_process h f).
Proof.
  intros w. unfold after, on_process.
  destruct (heap w !! h) as [sp|]; cbn [snd]; [|by apply emits_same_trace].
  destruct (f (now w) (process sp)). by apply emits_same_trace.
Qed.
Lemma respects_emits_new P sid nm popen : respects (emits P) (new_ServerProcess sid nm popen).
Proof. intros w. by apply emits_same_trace. Qed.

Lemma respects_same_registry_update h f : respects same_registry (update h f).
Proof.
  intros w. unfold after, update, bind, deref, modify.
  by destruct (heap w !! h).
Qed.
Lemma respects_same_registry_on_process {A} h (f : Z -> Popen -> Popen * A) :
  respects same_registry (on_process h f).
Proof.
  intros w. unfold after, on_process.
  destruct (heap w !! h) as [sp|]; cbn [snd]; [|done].
  by destruct (f (now w) (process sp)).
Qed.
Lemma respects_same_registry_new sid nm popen :
  respects same_registry (new_ServerProcess sid nm popen).
Proof. by intros w. Qed.

Lemma keeps_set_stop : keeps (set_stop_requested true).
Proof. by intros sp. Qed.
Lemma keeps_set_lines f : keeps (fun sp => set_stdout_lines (f sp) sp).
Proof. by intros sp. Qed.
Lemma keeps_set_readers f : keeps (fun sp => set_reader_threads (f sp) sp).
Proof. by intros sp. Qed.

Lemma read_stdin s t p : stdin (read s t p).1 = stdin p.
Proof. by destruct s. Qed.

Ltac unfold_prims :=
  unfold ServerManager.request_stop, ServerManager.Popen_,
    ServerManager._resolve_script, ServerProcess.collect_console,
    ServerProcess.start_readers,
    poll, wait, kill, stdin_write, stdin_flush, readline, sleep, call,
    write_file, start_thread, log, tell in *.

Ltac resp_leaf :=
  lazymatch goal with
  | |- respects _ (ret _) => apply respects_ret
  | |- respects _ (raise _) => apply respects_raise
  | |- respects _ (halts _) => apply respects_halts
  | |- respects _ get => apply respects_get
  | |- respects _ time => apply respects_time
  | |- respects _ (processes_get _) => apply respects_processes_get
  | |- respects _ (deref _) => apply respects_deref
  | |- respects evolves (update _ _) =>
      apply respects_evolves_update;
      first [ apply keeps_set_stop | apply keeps_set_lines | apply keeps_set_readers ]
  | |- respects evolves (on_process _ _) =>
      apply respects_evolves_on_process; intros;
      first [ apply killed_stdin | apply written_stdin | apply flushed_stdin
            | apply read_stdin ]
  | |- respects evolves (new_ServerProcess _ _ _) => apply respects_evolves_new
  | |- respects (emits _) (update _ _) => apply respects_emits_update
  | |- respects (emits _) (on_process _ _) => apply respects_emits_on_process
  | |- respects (emits _) (new_ServerProcess _ _ _) => apply respects_emits_new
  | |- respects same_registry (update _ _) => apply respects_same_registry_update
  | |- respects same_registry (on_process _ _) =>
      apply respects_same_registry_on_process
  | |- respects same_registry (new_ServerProcess _ _ _) =>
      apply respects_same_registry_new
  | |- respects _ (modify _) =>
      apply respects_modify; intros;
      first [ by apply evolves_same_heap
            | by apply emits_same_trace
            | apply emits_emit; cbn; by eauto
            | reflexivity
            | solve [auto with respects] ]
  | |- respects _ _ => solve [auto with respects]
  end.

Ltac resp :=
  repeat first
    [ progress intros
    | assumption
    | solve [auto 1]
    | lazymatch goal with
      | |- Reflexive _ => apply _
      | |- Transitive _ => apply _
      | |- respects _ (bind _ _) => apply respects_bind
      | |- respects _ (try_except _ _) => apply respects_try
      | |- respects _ (match ?x with _ => _ end) => destruct x
      end
    | resp_leaf ].

Import ServerManager.

Section Generic.

Context (R : World -> World -> Prop) `{!Reflexive R, !Transitive R}.
Context (Hpoll : forall h, respects R (poll h)).
Context (Htell : forall e, respects R (tell e)).
Context (Hsleep : forall ms, respects R (sleep ms)).
Context (Hkill : forall h, respects R (kill h)).
Context (Hwait : forall h, respects R (wait h)).
Context (Hwrite : forall h text, respects R (stdin_write h text)).
Context (Hflush : forall h, respects R (stdin_flush h)).
Context (Hreadline : forall h s, respects R (readline h s)).
Context (Hcall : forall cb sid line, respects R (call cb sid line)).
Context (Hfile : forall path content, respects R (write_file path content)).
Context (Hthread : forall t, respects R (start_thread t)).
Context (Hstop : forall h, respects R (request_stop h)).
Context (Happend : forall h f,
            respects R (update h (fun sp => set_stdout_lines (f sp) sp))).
Context (Hreaders : forall h f,
            respects R (update h (fun sp => set_reader_threads (f sp) sp))).
Context (Hnew : forall sid nm popen, respects R (new_ServerProcess sid nm popen)).
Context (Hregistry : forall f,
            respects R (modify (fun w => set_processes (f w) w))).

Lemma log_respects l m : respects R (log l m).
Proof. apply Htell. Qed.

Lemma send_command_respects h cmd : respects R (ServerProcess.send_command h cmd).
Proof. pose proof log_respects. unfold ServerProcess.send_command. resp. Qed.

Lemma collect_console_respects h : respects R (ServerProcess.collect_console h).
Proof. unfold ServerProcess.collect_console. resp. Qed.

Lemma reader_loop_respects h s cb fuel :
  respects R (ServerProcess._reader_loop fuel h s cb).
Proof. induction fuel as [|fuel IH]; cbn [ServerProcess._reader_loop]; resp. Qed.

Lemma reader_respects h s cb fuel : respects R (ServerProcess._reader fuel h s cb).
Proof.
  pose proof log_respects. pose proof reader_loop_respects.
  unfold ServerProcess._reader. resp.
Qed.

Lemma start_readers_respects h cb : respects R (ServerProcess.start_readers h cb).
Proof. unfold ServerProcess.start_readers. resp. Qed.

Lemma wait_loop_respects h start timeout fuel :
  respects R (wait_loop fuel h start timeout).
Proof. induction fuel as [|fuel IH]; cbn [wait_loop]; resp. Qed.

Lemma stop_server_respects fuel sid cmd timeout :
  respects R (stop_server fuel sid cmd timeout).
Proof.
  pose proof log_respects.
  pose proof send_command_respects. pose proof wait_loop_respects.
  unfold stop_server. resp.
Qed.

Lemma manager_send_command_respects sid cmd : respects R (send_command sid cmd).
Proof.
  pose proof log_respects. pose proof send_command_respects.
  unfold send_command. resp.
Qed.

Lemma is_running_respects sid : respects R (is_running sid).
Proof. unfold is_running. resp. Qed.

Lemma get_console_respects sid : respects R (get_console sid).
Proof. pose proof collect_console_respects. unfold get_console. resp. Qed.

Lemma watch_process_on_exit_respects sid cb h rc :
  respects R (_watch_process_on_exit sid cb h rc).
Proof.
  pose proof log_respects. pose proof collect_console_respects.
  unfold _watch_process_on_exit. resp.
Qed.

Lemma watch_process_respects sid cb : respects R (_watch_process sid cb).
Proof.
  pose proof watch_process_on_exit_respects.
  unfold _watch_process. resp.
Qed.

Lemma resolve_script_respects p : respects R (_resolve_script p).
Proof. unfold _resolve_script. resp. Qed.

Lemma Popen_respects p cmd cwd e sh : respects R (Popen_ p cmd cwd e sh).
Proof. unfold Popen_. resp. Qed.

Lemma start_server_respects sid nm script cwd env_ cb :
  respects R (start_server sid nm script cwd env_ cb).
Proof.
  pose proof log_respects. pose proof resolve_script_respects.
  pose proof Popen_respects. pose proof start_readers_respects.
  unfold start_server. resp.
Qed.

Lemma restart_server_respects fuel sid nm script cwd env_ cb cfk :
  respects R (restart_server fuel sid nm script cwd env_ cb cfk).
Proof.
  pose proof log_respects. pose proof stop_server_respects.
  pose proof start_server_respects.
  unfold restart_server. resp.
Qed.

End Generic.

Section Evolves.

Lemma poll_evolves h : respects evolves (poll h).
Proof. unfold_prims. resp. Qed.
Lemma tell_evolves e : respects evolves (tell e).
Proof. unfold_prims. resp. Qed.
Lemma sleep_evolves ms : respects evolves (sleep ms).
Proof. unfold_prims. resp. Qed.
Lemma kill_evolves h : respects evolves (kill h).
Proof. unfold_prims. resp. Qed.
Lemma wait_evolves h : respects evolves (wait h).
Proof. unfold_prims. resp. Qed.
Lemma stdin_write_evolves h text : respects evolves (stdin_write h text).
Proof. unfold_prims. resp. Qed.
Lemma stdin_flush_evolves h : respects evolves (stdin_flush h).
Proof. unfold_prims. resp. Qed.
Lemma readline_evolves h s : respects evolves (readline h s).
Proof. unfold_prims. resp. Qed.
Lemma call_evolves cb sid line : respects evolves (call cb sid line).
Proof. unfold_prims. resp. Qed.
Lemma write_file_evolves path content : respects evolves (write_file path content).
Proof. unfold_prims. resp. Qed.
Lemma start_thread_evolves t : respects evolves (start_thread t).
Proof. unfold_prims. resp. Qed.
Lemma request_stop_evolves h : respects evolves (request_stop h).
Proof. unfold_prims. resp. Qed.
Lemma append_evolves h f :
  respects evolves (update h (fun sp => set_stdout_lines (f sp) sp)).
Proof. resp. Qed.
Lemma readers_evolves h f :
  respects evolves (update h (fun sp => set_reader_threads (f sp) sp)).
Proof. resp. Qed.
Lemma registry_evolves f :
  respects evolves (modify (fun w => set_processes (f w) w)).
Proof. resp. Qed.

End Evolves.

Section SameRegistry.

Lemma poll_same_registry h : respects same_registry (poll h).
Proof. unfold_prims. resp. Qed.
Lemma tell_same_registry e : respects same_registry (tell e).
Proof. unfold_prims. resp. Qed.
Lemma sleep_same_registry ms : respects same_registry (sleep ms).
Proof. unfold_prims. resp. Qed.
Lemma kill_same_registry h : respects same_registry (kill h).
Proof. unfold_prims. resp. Qed.
Lemma wait_same_registry h : respects same_registry (wait h).
Proof. unfold_prims. resp. Qed.
Lemma stdin_write_same_registry h text : respects same_registry (stdin_write h text).
Proof. unfold_prims. resp. Qed.
Lemma stdin_flush_same_registry h : respects same_registry (stdin_flush h).
Proof. unfold_prims. resp. Qed.
Lemma readline_same_registry h s : respects same_registry (readline h s).
Proof. unfold_prims. resp. Qed.
Lemma call_same_registry cb sid line : respects same_registry (call cb sid line).
Proof. unfold_prims. resp. Qed.
Lemma write_file_same_registry path content :
  respects same_registry (write_file path content).
Proof. unfold_prims. resp. Qed.
Lemma request_stop_same_registry h : respects same_registry (request_stop h).
Proof. unfold_prims. resp. Qed.
Lemma append_same_registry h f :
  respects same_registry (update h (fun sp => set_stdout_lines (f sp) sp)).
Proof. resp. Qed.

End SameRegistry.

#[local] Hint Resolve poll_evolves tell_evolves sleep_evolves kill_evolves
  wait_evolves stdin_write_evolves stdin_flush_evolves readline_evolves
  call_evolves write_file_evolves start_thread_evolves request_stop_evolves
  append_evolves readers_evolves registry_evolves respects_evolves_new
  poll_same_registry tell_same_registry sleep_same_registry kill_same_registry
  wait_same_registry stdin_write_same_registry stdin_flush_same_registry
  readline_same_registry call_same_registry write_file_same_registry
  request_stop_same_registry append_same_registry : respects.

Lemma stop_server_evolves fuel sid cmd timeout :
  respects evolves (stop_server fuel sid cmd timeout).
Proof. apply stop_server_respects; auto with respects typeclass_instances. Qed.

Lemma start_server_evolves sid nm script cwd env_ cb :
  respects evolves (start_server sid nm script cwd env_ cb).
Proof. apply start_server_respects; auto with respects typeclass_instances. Qed.

Lemma restart_server_evolves fuel sid nm script cwd env_ cb cfk :
  respects evolves (restart_server fuel sid nm script cwd env_ cb cfk).
Proof. apply restart_server_respects; auto with respects typeclass_instances. Qed.

Lemma stop_server_same_registry fuel sid cmd timeout :
  respects same_registry (stop_server fuel sid cmd timeout).
Proof. apply stop_server_respects; auto with respects typeclass_instances. Qed.

Lemma start_server_quiet sid nm script cwd env_ cb :
  respects (emits quiet) (start_server sid nm script cwd env_ cb).
Proof. unfold start_server. unfold_prims. resp. Qed.

(* ===================================================================== *)
(** ** A successful start *)
(* ===================================================================== *)

Section Launch.

Import ServerManager.

Ltac launch_tail Himg :=
  unfold launched;
  destruct (is_win _); cbn beta iota zeta;
  (rewrite bind_eq; unfold Popen_ at 1; rewrite bind_eq; unfold get at 1;
   cbn beta iota; cbn [env now]; rewrite Himg;
   unfold tell, modify, ret, emit; cbn beta iota;
   rewrite bind_eq; unfold new_ServerProcess at 1; cbn beta iota zeta;
   cbn [heap set_heap env now files _processes threads trace];
   destruct (_ : option Callback);
   (unfold ServerProcess.start_readers, start_thread, update, deref, log, tell,
      modify, bind, ret, emit, set_threads, set_heap, set_processes;
    cbn [heap set_heap env now files _processes threads trace];
    rewrite ?lookup_insert_eq; cbn beta iota;
    cbn [heap set_heap env now files _processes threads trace
         set_reader_threads server_id name process stdout_lines
         _stop_requested _reader_threads];
    rewrite ?insert_insert_eq;
    f_equal; f_equal; cbn [app map]; by lnorm)).

Lemma start_server_launches w sid nm script cwd env_ on_output path p :
  (forall h, _processes w !! sid = Some h ->
     exists sp, heap w !! h = Some sp /\ status (process sp) (now w) <> None) ->
  result (_resolve_script script) w = Returns path ->
  image (env w) path (now w) = Some p ->
  exists evs,
    start_server sid nm script cwd env_ on_output w
    = (Returns tt, launched w sid nm path cwd env_ on_output p evs) /\
    Forall (fun e => exists h rc, _processes w !! sid = Some h /\ e = Poll h (Some rc)) evs.
Proof.
  intros Hdead Hres Himg.
  assert (Hres' : forall w1, env w1 = env w -> _resolve_script script w1 = (Returns path, w1)).
  { intros w1 He. rewrite resolve_script_run. f_equal.
    rewrite <- Hres. unfold result. rewrite resolve_script_run. cbn [fst].
    unfold foreign_ext, native_ext, is_win. by rewrite He. }
  unfold start_server.
  destruct (_processes w !! sid) as [h|] eqn:Hreg.
  - destruct (Hdead h eq_refl) as (sp & Hh & Hgone).
    destruct (status (process sp) (now w)) as [rc|] eqn:Hst; [|done].
    exists [Poll h (Some rc)]. split; [|repeat constructor; eauto].
    rewrite bind_eq. unfold processes_get at 1. rewrite Hreg. cbn beta iota.
    rewrite (at_start w h sp Hh) at 1. run. rewrite Hst. run.
    unfold at_. rewrite (insert_id _ _ _ Hh). cbn [app].
    rewrite Hres' by reflexivity. cbn beta iota.
    rewrite bind_eq. unfold get at 1. cbn beta iota.
    match goal with |- context [is_win ?w1] =>
      change (is_win w1) with (is_win w) end.
    launch_tail Himg.
  - exists []. split; [|constructor].
    rewrite bind_eq. unfold processes_get at 1. rewrite Hreg. cbn beta iota.
    unfold ret at 1. rewrite bind_eq. cbn beta iota.
    rewrite bind_eq, try_eq, Hres' by reflexivity. cbn beta iota.
    rewrite bind_eq. unfold get at 1. cbn beta iota.
    launch_tail Himg.
Qed.

End Launch.

(* ===================================================================== *)
(** ** Traces of stop and restart *)
(* ===================================================================== *)

Section Traces.

Lemma signal_not_quiet h e : is_signal h e = true -> ~ quiet e.
Proof. destruct e; cbn; intros ? ?; done. Qed.

Lemma signal_stop_event h h' e : stop_event h e -> is_signal h' e = true -> h' = h.
Proof. destruct e; cbn; try done; intros ->; by intros ?%bool_decide_eq_true. Qed.

Lemma command_stop_event h e : command_event h e -> stop_event h e.
Proof. destruct e; cbn; done. Qed.

Lemma rounds_stop_event h n : Forall (stop_event h) (rounds h n).
Proof. induction n; cbn; by repeat constructor. Qed.

Lemma guarded_quiet evs : Forall quiet evs -> guarded evs.
Proof.
  intros Hq pre e post h -> Hs. exfalso.
  apply Forall_app in Hq as [_ Hq]. apply Forall_cons in Hq as [Hq _].
  by apply (signal_not_quiet h e).
Qed.

Lemma guarded_stop h evs1 evs2 :
  Forall (stop_event h) evs1 -> Forall quiet evs2 ->
  guarded (SetStop h :: evs1 ++ evs2).
Proof.
  intros H1 H2 pre e post h' Heq Hs.
  destruct pre as [|x pre]; cbn in Heq.
  - injection Heq as <- _. done.
  - injection Heq as <- Heq. 
    assert (He : e ∈ (evs1 ++ evs2)%list).
    { rewrite Heq. apply elem_of_app. right. by left. }
    apply elem_of_app in He as [He|He].
    + rewrite Forall_forall in H1. rewrite (signal_stop_event h h' e (H1 _ He) Hs).
      by left.
    + rewrite Forall_forall in H2. by destruct (signal_not_quiet h' e Hs (H2 _ He)).
Qed.

Lemma stop_server_trace w sid h sp fuel cmd timeout :
  _processes w !! sid = Some h ->
  heap w !! h = Some sp ->
  Z.max 0 (1000 * timeout) + 200 <= 200 * Z.of_nat fuel ->
  exists b p t evs,
    stop_server fuel sid cmd timeout w
    = (Returns b, at_ w h (set_process p (set_stop_requested true sp)) t (files w)
                      (SetStop h :: evs)) /\
    Forall (stop_event h) evs.
Proof.
  intros Hreg Hh Hfuel.
  destruct (stop_server_known w sid h sp fuel cmd timeout Hreg Hh Hfuel)
    as (sent & p1 & evs1 & n & _ & _ & Hev & _ & _ & Hstop).
  cbn zeta in Hstop. rewrite Hstop.
  assert (Hev' : Forall (stop_event h) evs1).
  { eapply Forall_impl; [exact Hev|]. apply command_stop_event. }
  destruct (status p1 _).
  - do 4 eexists. split; [reflexivity|].
    apply Forall_app; split; [done|]. apply Forall_app; split.
    + apply rounds_stop_event.
    + by repeat constructor.
  - do 4 eexists. split; [reflexivity|].
    apply Forall_app; split; [done|]. apply Forall_app; split.
    + apply rounds_stop_event.
    + repeat constructor; try done. by destruct (killed _ p1).2.
Qed.

Lemma restart_extra_kill_events w sid h sp t fs evs (stopped : bool) :
  _processes w !! sid = Some h ->
  exists p' evs',
    (if negb stopped then
       log WARNING ("Graceful stop failed for " ++ sid ++ "; will force restart") ;;
       try_except
         (found <- processes_get sid ;;
          match found with
          | Some sp =>
              st <- poll sp ;;
              if is_none st then kill sp else ret tt
          | None => ret tt
          end)
         (fun _ => log ERROR ("Failed to kill during restart for " ++ sid))
     else ret tt) (at_ w h sp t fs evs)
    = (Returns tt, at_ w h (set_process p' sp) t fs (evs ++ evs')%list) /\
    Forall (stop_event h) evs'.
Proof.
  intros Hreg. destruct stopped; cbn [negb].
  - exists (process sp), []. by rewrite set_process_id, app_nil_r.
  - run. rewrite Hreg. run.
    destruct (status (process sp) t) eqn:Hst; run.
    + exists (process sp). eexists. rewrite set_process_id. land.
      split; [reflexivity|]. by repeat constructor.
    + destruct (killed t (process sp)).2; run; land; do 2 eexists;
        (split; [reflexivity|]); by repeat constructor.
Qed.

Lemma start_server_spawn_fails w sid nm script cwd env_ on_output path :
  _processes w !! sid = None ->
  result (_resolve_script script) w = Returns path ->
  image (env w) path (now w) = None ->
  start_server sid nm script cwd env_ on_output w
  = (Raises (Exception "Popen failed"), w).
Proof.
  intros Hreg Hres Himg.
  assert (Hres' : _resolve_script script w = (Returns path, w)).
  { rewrite resolve_script_run. f_equal. rewrite <- Hres. unfold result.
    by rewrite resolve_script_run. }
  unfold start_server.
  rewrite bind_eq. unfold processes_get at 1. rewrite Hreg. cbn beta iota.
  unfold ret at 1. rewrite bind_eq. cbn beta iota.
  rewrite bind_eq, try_eq, Hres'. cbn beta iota.
  rewrite bind_eq. unfold get at 1. cbn beta iota.
  destruct (is_win w); cbn beta iota zeta.
  all: rewrite bind_eq; unfold Popen_ at 1; rewrite bind_eq; unfold get at 1.
  all: cbn beta iota; by rewrite Himg.
Qed.

Lemma start_server_unregistered w sid nm script cwd env_ on_output :
  _processes w !! sid = None ->
  (exists e msg, start_server sid nm script cwd env_ on_output w
                 = (Raises e, emit (Log ERROR msg) w)) \/
  start_server sid nm script cwd env_ on_output w
  = (Raises (Exception "Popen failed"), w) \/
  (exists path p,
     start_server sid nm script cwd env_ on_output w
     = (Returns tt, launched w sid nm path cwd env_ on_output p [])).
Proof.
  intros Hreg.
  destruct (resolve_script_outcome w script) as (r & Hrun & Hcase).
  destruct r as [path|e|]; [|left|done].
  - destruct (image (env w) path (now w)) as [p|] eqn:Himg.
    + right; right. exists path, p.
      destruct (start_server_launches w sid nm script cwd env_ on_output path p)
        as (evs & Hs & Hevs).
      * intros h Hh. congruence.
      * unfold result. by rewrite Hrun.
      * done.
      * rewrite Hs. destruct evs as [|e evs]; [done|].
        apply Forall_cons in Hevs as [(h & rc & Hh & _) _]. congruence.
    + right; left. eapply start_server_spawn_fails; [done| |done].
      unfold result. by rewrite Hrun.
  - destruct (start_server_unresolved w sid nm script cwd env_ on_output e Hreg)
      as (msg & -> & Hs).
    { unfold result. by rewrite Hrun. }
    do 2 eexists. exact Hs.
Qed.

Lemma launched_quiet w sid nm path cwd env_ on_output p :
  exists evs,
    trace (launched w sid nm path cwd env_ on_output p []) = (trace w ++ evs)%list /\
    Forall quiet evs.
Proof.
  unfold launched. cbn [trace]. eexists. split; [reflexivity|].
  cbn [app]. constructor; [done|].
  apply Forall_app; split; [|by repeat constructor].
  destruct on_output; by repeat constructor.
Qed.

Lemma fresh_not_in (hp : gmap loc ServerProcess) h sp :
  hp !! h = Some sp -> fresh (dom hp) <> h.
Proof.
  intros Hh <-. apply (is_fresh (dom hp)). apply elem_of_dom. eauto.
Qed.

(** What a fresh start does to a world where the id is not registered. *)
Lemma start_server_unregistered_effect w sid nm script cwd env_ on_output :
  _processes w !! sid = None ->
  exists r w' evs,
    start_server sid nm script cwd env_ on_output w = (r, w') /\
    (forall y, r <> Halts y) /\
    trace w' = (trace w ++ evs)%list /\ Forall quiet evs /\
    (forall h sp, heap w !! h = Some sp ->
       heap w' !! h = Some sp /\ _processes w' !! sid <> Some h) /\
    (forall sid', sid' <> sid -> _processes w' !! sid' = _processes w !! sid').
Proof.
  intros Hreg.
  destruct (start_server_unregistered w sid nm script cwd env_ on_output Hreg)
    as [(e & msg & ->)|[->|(path & p & ->)]].
  - do 3 eexists. split; [reflexivity|]. split; [done|].
    split; [reflexivity|]. split; [by repeat constructor|].
    cbn [heap _processes emit]. split; [|done].
    intros h sp Hh. split; [done|]. by rewrite Hreg.
  - exists (Raises (Exception "Popen failed")), w, [].
    split; [reflexivity|]. split; [done|].
    split; [by rewrite app_nil_r|]. split; [constructor|]. split; [|done].
    intros h sp Hh. split; [done|]. by rewrite Hreg.
  - destruct (launched_quiet w sid nm path cwd env_ on_output p) as (evs & Htr & Hq).
    do 3 eexists. split; [reflexivity|]. split; [done|].
    split; [exact Htr|]. split; [exact Hq|].
    unfold launched. cbn [heap _processes]. split.
    + intros h sp Hh. pose proof (fresh_not_in _ _ _ Hh) as Hne.
      rewrite lookup_insert_ne by done. split; [done|].
      rewrite lookup_insert_eq. congruence.
    + intros sid' Hne. by rewrite lookup_insert_ne.
Qed.

Lemma restart_server_run w sid nm script cwd env_ on_output cfk fuel :
  wf w -> (76 <= fuel)%nat ->
  exists r w' evs,
    restart_server fuel sid nm script cwd env_ on_output cfk w = (r, w') /\
    (forall y, r <> Halts y) /\
    trace w' = (trace w ++ evs)%list /\
    guarded evs /\
    (forall h, _processes w !! sid = Some h ->
       flag w' h = Some true /\ _processes w' !! sid <> Some h) /\
    (forall sid', sid' <> sid -> _processes w' !! sid' = _processes w !! sid').
Proof.
  intros Hwf Hfuel. unfold restart_server. rewrite bind_eq.
  destruct (_processes w !! sid) as [h|] eqn:Hreg.
  - destruct (Hwf _ _ Hreg) as (sp & Hh & _).
    destruct (stop_server_trace w sid h sp fuel "stop" 15 Hreg Hh)
      as (b & p & t & evs & -> & Hevs); [lia|].
    cbn beta iota. rewrite bind_eq.
    destruct (restart_extra_kill_events w sid h
                (set_process p (set_stop_requested true sp)) t (files w)
                (SetStop h :: evs) b Hreg) as (p' & evs' & -> & Hevs').
    cbn beta iota. rewrite bind_eq. unfold modify at 1. cbn beta iota.
    match goal with |- context [start_server _ _ _ _ _ _ ?w2] =>
      destruct (start_server_unregistered_effect w2 sid nm script cwd env_ on_output)
        as (r & w' & evs_s & -> & Hr & Htr & Hq & Hheap & Hothers) end.
    { apply lookup_delete_eq. }
    exists r, w', ((SetStop h :: evs ++ evs') ++ evs_s)%list.
    split; [reflexivity|]. split; [exact Hr|]. split.
    { rewrite Htr. cbn [trace set_processes at_]. by lnorm. }
    split.
    { rewrite <- app_comm_cons, <- app_assoc.
      rewrite app_assoc. apply guarded_stop; [|done].
      by apply Forall_app. }
    split.
    + intros h' [= <-].
      destruct (Hheap h (set_process p' (set_process p (set_stop_requested true sp))))
        as [Hh' Hne].
      { cbn [heap set_processes at_]. apply lookup_insert_eq. }
      split; [|exact Hne]. unfold flag. by rewrite Hh'.
    + intros sid' Hne. rewrite Hothers by done.
      cbn [_processes set_processes at_]. by rewrite lookup_delete_ne.
  - rewrite (stop_server_unknown w sid "stop" 15 fuel Hreg).
    cbn beta iota. cbn [negb]. rewrite bind_eq. unfold ret at 1. cbn beta iota.
    rewrite bind_eq. unfold modify at 1. cbn beta iota.
    match goal with |- context [start_server _ _ _ _ _ _ ?w2] =>
      destruct (start_server_unregistered_effect w2 sid nm script cwd env_ on_output)
        as (r & w' & evs_s & -> & Hr & Htr & Hq & Hheap & Hothers) end.
    { apply lookup_delete_eq. }
    do 3 eexists. split; [reflexivity|]. split; [exact Hr|]. split.
    { rewrite Htr. cbn [trace set_processes emit]. rewrite <- app_assoc. reflexivity. }
    split.
    { apply guarded_quiet. by constructor. }
    split; [done|].
    intros sid' Hne. rewrite Hothers by done.
    cbn [_processes set_processes emit]. by rewrite lookup_delete_ne.
Qed.

Lemma stop_server_run w sid cmd timeout fuel :
  wf w -> Z.max 0 (1000 * timeout) + 200 <= 200 * Z.of_nat fuel ->
  exists b w' evs,
    stop_server fuel sid cmd timeout w = (Returns b, w') /\
    trace w' = (trace w ++ evs)%list /\
    guarded evs /\
    (forall h, _processes w !! sid = Some h -> flag w' h = Some true).
Proof.
  intros Hwf Hfuel.
  destruct (_processes w !! sid) as [h|] eqn:Hreg.
  - destruct (Hwf _ _ Hreg) as (sp & Hh & _).
    destruct (stop_server_trace w sid h sp fuel cmd timeout Hreg Hh Hfuel)
      as (b & p & t & evs & -> & Hevs).
    do 3 eexists. split; [reflexivity|]. split; [reflexivity|]. split.
    + rewrite <- (app_nil_r evs). apply guarded_stop; [done|constructor].
    + intros h' [= <-]. unfold flag. cbn [heap at_]. by rewrite lookup_insert_eq.
  - rewrite (stop_server_unknown w sid cmd timeout fuel Hreg).
    do 3 eexists. split; [reflexivity|]. split; [reflexivity|].
    split; [|done]. apply guarded_quiet. by repeat constructor.
Qed.

End Traces.

(* ===================================================================== *)
(** ** The stop flag *)
(* ===================================================================== *)

Section StopFlag.

Lemma evolves_flag w w' h : evolves w w' -> flag w h = Some true -> flag w' h = Some true.
Proof.
  intros [_ H] Hf. unfold flag in *.
  destruct (heap w !! h) as [sp|] eqn:Hh; [|done].
  destruct (H _ _ Hh) as (sp' & -> & _ & _ & _ & Hmono).
  cbn in *. injection Hf as Hf. by rewrite Hmono.
Qed.

Lemma new_ServerProcess_flag w sid nm popen :
  exists h w',
    new_ServerProcess sid nm popen w = (Returns h, w') /\
    heap w !! h = None /\ flag w' h = Some false.
Proof.
  do 2 eexists. split; [reflexivity|]. split.
  - apply not_elem_of_dom, is_fresh.
  - unfold flag. cbn [heap set_heap]. by rewrite lookup_insert_eq.
Qed.

Lemma watch_process_on_exit_stopped w sid on_output h sp rc :
  heap w !! h = Some sp -> _stop_requested sp = true ->
  _watch_process_on_exit sid on_output h rc w
  = (Returns tt,
     emit (Log INFO ("Process " +:+ sid +:+ " exited with code " +:+ pretty rc)) w).
Proof.
  intros Hh Hflag. unfold _watch_process_on_exit.
  rewrite bind_eq. unfold log at 1, tell at 1, modify at 1. cbn beta iota.
  rewrite bind_eq. unfold deref at 1. cbn [heap emit]. rewrite Hh. cbn beta iota.
  by rewrite Hflag.
Qed.

Lemma wf_example sp :
  stdin (process sp) = true -> wf (Example.one_server sp).
Proof.
  intros Hin sid h Hs. exists sp.
  unfold Example.one_server in *. cbn [_processes heap] in *.
  apply lookup_singleton_Some in Hs as [_ <-]. split; [|done].
  apply lookup_singleton_eq.
Qed.

(** C6.  The stop flag of a handle starts false (the constructor), and no
    operation of the supervisor and no thread ever sets it back: every
    run [evolves] the world, and [evolves] keeps a true flag true.  In
    every run of [stop_server], and of [restart_server], each signal to a
    child (a line written to its standard input, a kill) comes after the
    stop request on its handle in the trace, and the flag of the handle
    registered for the id is true at the end.  A watcher that resumes
    from [proc.wait()] in a world where the flag of its handle is true
    logs the exit and does nothing else: no marker, no crash log. *)
Theorem stop_flag_discipline :
  (forall w sid nm popen,
     exists h w',
       new_ServerProcess sid nm popen w = (Returns h, w') /\
       heap w !! h = None /\ flag w' h = Some false) /\
  (forall w w' h, evolves w w' -> flag w h = Some true -> flag w' h = Some true) /\
  (forall fuel sid nm script cwd env_ on_output cfk cmd timeout h s cb,
     respects evolves (start_server sid nm script cwd env_ on_output) /\
     respects evolves (stop_server fuel sid cmd timeout) /\
     respects evolves (restart_server fuel sid nm script cwd env_ on_output cfk) /\
     respects evolves (send_command sid cmd) /\
     respects evolves (is_running sid) /\
     respects evolves (get_console sid) /\
     respects evolves (_watch_process sid on_output) /\
     respects evolves (ServerProcess._reader fuel h s cb)) /\
  (forall w sid cmd timeout fuel,
     wf w -> Z.max 0 (1000 * timeout) + 200 <= 200 * Z.of_nat fuel ->
     exists b w' evs,
       stop_server fuel sid cmd timeout w = (Returns b, w') /\
       trace w' = (trace w ++ evs)%list /\
       guarded evs /\
       (forall h, _processes w !! sid = Some h -> flag w' h = Some true)) /\
  (forall w sid nm script cwd env_ on_output cfk fuel,
     wf w -> (76 <= fuel)%nat ->
     exists r w' evs,
       restart_server fuel sid nm script cwd env_ on_output cfk w = (r, w') /\
       trace w' = (trace w ++ evs)%list /\
       guarded evs /\
       (forall h, _processes w !! sid = Some h -> flag w' h = Some true)) /\
  (forall w sid on_output h rc,
     flag w h = Some true ->
     _watch_process_on_exit sid on_output h rc w
     = (Returns tt,
        emit (Log INFO ("Process " +:+ sid +:+ " exited with code " +:+ pretty rc)) w)).
Proof.
  split; [apply new_ServerProcess_flag|]. split; [apply evolves_flag|].
  split.
  { intros.
    split; [apply start_server_evolves|].
    split; [apply stop_server_evolves|].
    split; [apply restart_server_evolves|].
    split; [apply manager_send_command_respects; auto with respects typeclass_instances|].
    split; [apply is_running_respects; auto with respects typeclass_instances|].
    split; [apply get_console_respects; auto with respects typeclass_instances|].
    split; [apply watch_process_respects; auto with respects typeclass_instances|].
    apply reader_respects; auto with respects typeclass_instances. }
  split; [apply stop_server_run|]. split.
  { intros w sid nm script cwd env_ on_output cfk fuel Hwf Hfuel.
    destruct (restart_server_run w sid nm script cwd env_ on_output cfk fuel Hwf Hfuel)
      as (r & w' & evs & Hrun & _ & Htr & Hg & Hflag & _).
    exists r, w', evs. repeat split; try done. intros h Hh. by apply Hflag. }
  intros w sid on_output h rc Hflag. unfold flag in Hflag.
  destruct (heap w !! h) as [sp|] eqn:Hh; [|done].
  apply (watch_process_on_exit_stopped w sid on_output h sp rc Hh).
  by injection Hflag.
Qed.

Lemma stop_flag_discipline_witness :
  let w := Example.one_server (Example.handle Example.hung [] false) in
  wf w /\
  Z.max 0 (1000 * 1) + 200 <= 200 * Z.of_nat 6 /\
  exists w' evs,
    stop_server 6 "id1" "stop" 1 w = (Returns false, w') /\
    trace w' = (trace w ++ evs)%list /\
    guarded evs /\
    flag w 7%positive = Some false /\
    flag w' 7%positive = Some true /\
    SetStop 7%positive ∈ evs /\ Kill 7%positive true ∈ evs.
Proof.
  cbn zeta.
  assert (Hwf : wf (Example.one_server (Example.handle Example.hung [] false)))
    by (by apply wf_example).
  split; [exact Hwf|]. split; [lia|].
  destruct stop_flag_discipline as (_ & _ & _ & Hstop & _).
  destruct (Hstop _ "id1" "stop" 1 6%nat Hwf) as (b & w' & evs & Hrun & Htr & Hg & Hflag);
    [lia|].
  assert (Hc : stop_server 6 "id1" "stop" 1
                 (Example.one_server (Example.handle Example.hung [] false))
               = (Returns false,
                  after (stop_server 6 "id1" "stop" 1)
                    (Example.one_server (Example.handle Example.hung [] false)))).
  { vm_compute. reflexivity. }
  rewrite Hc in Hrun. injection Hrun as <- <-.
  do 2 eexists. split; [exact Hc|]. split; [exact Htr|]. split; [exact Hg|].
  split; [reflexivity|]. split; [by apply Hflag|].
  assert (Hevs : evs = drop 0 (trace (after (stop_server 6 "id1" "stop" 1)
                    (Example.one_server (Example.handle Example.hung [] false))))).
  { rewrite Htr. reflexivity. }
  rewrite Hevs. split; vm_compute; repeat constructor.
Defined.

End StopFlag.

(* ===================================================================== *)
(** ** The console and the registry *)
(* ===================================================================== *)

Global Instance others_same_refl sid : Reflexive (others_same sid).
Proof. by intros w sid'. Qed.
Global Instance others_same_trans sid : Transitive (others_same sid).
Proof. intros w1 w2 w3 H1 H2 sid' Hne. by rewrite H2, H1. Qed.

Lemma others_same_keep sid w w' : _processes w' = _processes w -> others_same sid w w'.
Proof. intros H sid' _. by rewrite H. Qed.
Lemma others_same_insert sid h w :
  others_same sid w (set_processes (<[sid := h]> (_processes w)) w).
Proof. intros sid' Hne. cbn. by rewrite lookup_insert_ne. Qed.
Lemma respects_others_update sid h f : respects (others_same sid) (update h f).
Proof.
  intros w. apply others_same_keep. unfold after, update, bind, deref, modify.
  by destruct (heap w !! h).
Qed.
Lemma respects_others_on_process {A} sid h (f : Z -> Popen -> Popen * A) :
  respects (others_same sid) (on_process h f).
Proof.
  intros w. apply others_same_keep. unfold after, on_process.
  destruct (heap w !! h) as [sp|]; cbn [snd]; [|done].
  by destruct (f (now w) (process sp)).
Qed.
Lemma respects_others_new sid sid' nm popen :
  respects (others_same sid) (new_ServerProcess sid' nm popen).
Proof. intros w. by apply others_same_keep. Qed.

#[local] Hint Resolve others_same_keep others_same_insert respects_others_update
  respects_others_on_process respects_others_new : respects.


Section Registry.

Lemma get_console_run w sid :
  wf w ->
  get_console sid w = (Returns (console <$> handle_of w sid), w) /\
  (handle_of w sid = None <-> _processes w !! sid = None).
Proof.
  intros Hwf. unfold get_console, handle_of. rewrite bind_eq.
  unfold processes_get at 1.
  destruct (_processes w !! sid) as [h|] eqn:Hreg; cbn beta iota.
  - destruct (Hwf _ _ Hreg) as (sp & Hh & _). cbn. rewrite Hh.
    split; [|done]. unfold ServerProcess.collect_console.
    rewrite bind_eq, bind_eq. unfold deref. by rewrite Hh.
  - done.
Qed.




Lemma stop_server_without_handle_witness :
  let w := Example.fresh_world Example.linux in
  _processes w !! "id1" = None /\
  exists w',
    stop_server 0 "id1" "stop" 15 w = (Returns true, w') /\
    _processes w' = _processes w /\ heap w' = heap w.
Proof.
  cbn zeta. split; [reflexivity|].
  destruct (stop_server_without_handle (Example.fresh_world Example.linux)
              "id1" "stop" 15 0) as (w' & Hrun & Hreg & Hheap & _); [reflexivity|].
  by exists w'.
Defined.

End Registry.

(* ===================================================================== *)
(** ** Well-formed worlds *)
(* ===================================================================== *)

Section WellFormed.

Import ServerManager.

Lemma wf_empty w : _processes w = ∅ -> wf w.
Proof. intros He sid h. by rewrite He, lookup_empty. Qed.

Lemma wf_kept w w' : wf w -> evolves w w' -> same_registry w w' -> wf w'.
Proof.
  intros Hwf [_ Hev] Hreg sid h Hs. rewrite Hreg in Hs.
  destruct (Hwf _ _ Hs) as (sp & Hh & Hin).
  destruct (Hev _ _ Hh) as (sp' & Hh' & _ & _ & Hin' & _).
  exists sp'. split; [done|congruence].
Qed.

Lemma wf_launched w sid nm path cwd env_ on_output p evs :
  wf w -> wf (launched w sid nm path cwd env_ on_output p evs).
Proof.
  intros Hwf sid' h. unfold launched. cbn [_processes heap].
  destruct (decide (sid' = sid)) as [->|Hne].
  - rewrite lookup_insert_eq. intros [= <-]. rewrite lookup_insert_eq.
    by eexists.
  - rewrite lookup_insert_ne by done. intros Hs.
    destruct (Hwf _ _ Hs) as (sp & Hh & Hin). exists sp. split; [|done].
    rewrite lookup_insert_ne; [done|]. by apply (fresh_not_in _ _ sp).
Qed.

(** A start that does not launch leaves registry and heap as they were. *)
Lemma start_server_fails w sid nm script cwd env_ on_output :
  wf w ->
  (forall path, result (_resolve_script script) w = Returns path ->
                image (env w) path (now w) = None) ->
  exists r w',
    start_server sid nm script cwd env_ on_output w = (r, w') /\
    _processes w' = _processes w /\ heap w' = heap w.
Proof.
  intros Hwf Himg.
  assert (Hres : forall w1, env w1 = env w -> now w1 = now w ->
            (exists e, _resolve_script script w1 = (Raises e, w1)) \/
            (exists path, _resolve_script script w1 = (Returns path, w1) /\
                          image (env w1) path (now w1) = None)).
  { intros w1 He Hn.
    destruct (resolve_script_outcome w1 script) as (r & Hrun & Hcase).
    destruct r as [path|e|]; [right|left; eauto|done].
    exists path. split; [done|]. rewrite He, Hn. apply Himg.
    rewrite <- (resolve_script_env w1 w) by done. unfold result. by rewrite Hrun. }
  assert (Htail : forall w1, env w1 = env w -> now w1 = now w ->
    exists r w',
      (script_path <- try_except (_resolve_script script)
                       (fun e =>
                          match e with
                          | FileNotFoundError msg =>
                              log ERROR ("Start failed: " ++ msg) ;; raise e
                          | _ => raise e
                          end) ;;
       w <- get ;;
       let '(cmd, shell) := if is_win w then ([PathLib.str script_path], true)
                            else (["/bin/sh"; PathLib.str script_path], false) in
       let cwd' := match cwd with
                   | Some c => if String.eqb c "" then PathLib.parent script_path else c
                   | None => PathLib.parent script_path
                   end in
       let env' := default ∅ env_ ∪ environ (env w) in
       popen <- Popen_ script_path cmd cwd' env' shell ;;
       sp <- new_ServerProcess sid nm popen ;;
       match on_output with
       | Some cb => ServerProcess.start_readers sp cb
       | None => ret tt
       end ;;
       modify (fun w => set_processes (<[sid := sp]> (_processes w)) w) ;;
       start_thread (Watcher sid on_output) ;;
       log INFO ("Started server " ++ nm ++ " (" ++ sid ++ ")")) w1 = (r, w') /\
      _processes w' = _processes w1 /\ heap w' = heap w1).
  { intros w1 He Hn. rewrite bind_eq, try_eq.
    destruct (Hres w1 He Hn) as [(e & ->)|(path & -> & Hnone)].
    - destruct e; cbn beta iota; by do 2 eexists.
    - cbn beta iota. rewrite bind_eq. unfold get at 1. cbn beta iota.
      destruct (is_win w1); cbn beta iota zeta.
      all: rewrite bind_eq; unfold Popen_ at 1; rewrite bind_eq; unfold get at 1.
      all: cbn beta iota; rewrite Hnone; by do 2 eexists. }
  destruct (_processes w !! sid) as [h|] eqn:Hreg.
  - destruct (Hwf _ _ Hreg) as (sp & Hh & _).
    destruct (status (process sp) (now w)) as [rc|] eqn:Hst.
    + destruct (Htail (at_ w h sp (now w) (files w) [Poll h (Some rc)]))
        as (r & w' & Heq & Hr & Hheap); try done.
      exists r, w'. split.
      * rewrite (at_start w h sp Hh) at 1. unfold start_server.
        rewrite bind_eq, processes_get_at, Hreg. cbn beta iota.
        rewrite bind_eq, bind_eq, poll_at, Hst. cbn beta iota.
        exact Heq.
      * rewrite Hr, Hheap. cbn [_processes heap at_]. by rewrite insert_id.
    + exists (Returns tt). eexists.
      split; [by apply (start_server_running w sid nm h sp)|].
      cbn [_processes heap at_]. by rewrite insert_id.
  - destruct (Htail w) as (r & w' & Heq & Hr & Hheap); try done.
    exists r, w'. split; [|done].
    unfold start_server. rewrite bind_eq. unfold processes_get at 1.
    rewrite Hreg. cbn beta iota. exact Heq.
Qed.

Lemma wf_start_server w sid nm script cwd env_ on_output :
  wf w -> wf (after (start_server sid nm script cwd env_ on_output) w).
Proof.
  intros Hwf.
  destruct (result (_resolve_script script) w) as [path| |] eqn:Hres.
  - destruct (image (env w) path (now w)) as [p|] eqn:Himg.
    + destruct (_processes w !! sid) as [h|] eqn:Hreg.
      * destruct (Hwf _ _ Hreg) as (sp & Hh & _).
        destruct (status (process sp) (now w)) as [rc|] eqn:Hst.
        { destruct (start_server_launches w sid nm script cwd env_ on_output path p)
            as (evs & Hs & _); try done.
          - intros h' Hh'. exists sp. rewrite Hreg in Hh'. injection Hh' as <-.
            split; [done|]. by rewrite Hst.
          - unfold after. rewrite Hs. by apply wf_launched. }
        { unfold after.
          rewrite (start_server_running w sid nm h sp script cwd env_ on_output) by done.
          cbn [snd]. intros sid' h'. cbn [_processes heap at_].
          rewrite insert_id by done. apply Hwf. }
      * destruct (start_server_launches w sid nm script cwd env_ on_output path p)
          as (evs & Hs & _); try done.
        { intros h' Hh'. congruence. }
        unfold after. rewrite Hs. by apply wf_launched.
    + destruct (start_server_fails w sid nm script cwd env_ on_output Hwf)
        as (r & w' & Hs & Hr & Hheap).
      { intros path' Hp. congruence. }
      unfold after. rewrite Hs. cbn [snd]. intros sid' h'.
      rewrite Hr, Hheap. apply Hwf.
  - destruct (start_server_fails w sid nm script cwd env_ on_output Hwf)
      as (r & w' & Hs & Hr & Hheap).
    { intros path' Hp. congruence. }
    unfold after. rewrite Hs. cbn [snd]. intros sid' h'.
    rewrite Hr, Hheap. apply Hwf.
  - destruct (start_server_fails w sid nm script cwd env_ on_output Hwf)
      as (r & w' & Hs & Hr & Hheap).
    { intros path' Hp. congruence. }
    unfold after. rewrite Hs. cbn [snd]. intros sid' h'.
    rewrite Hr, Hheap. apply Hwf.
Qed.

Lemma keeps_wf_bind {A B} (m : M A) (k : A -> M B) :
  keeps_wf m -> (forall a, keeps_wf (k a)) -> keeps_wf (bind m k).
Proof.
  intros Hm Hk w Hwf. specialize (Hm w Hwf). unfold after, bind in *.
  destruct (m w) as [[a|e|y] w1]; cbn [snd] in *; [|done..]. by apply Hk.
Qed.

Lemma keeps_wf_respects {A} (m : M A) :
  respects evolves m -> respects same_registry m -> keeps_wf m.
Proof. intros He Hr w Hwf. by apply (wf_kept w). Qed.

Lemma keeps_wf_stop_server fuel sid cmd timeout :
  keeps_wf (stop_server fuel sid cmd timeout).
Proof.
  apply keeps_wf_respects; [apply stop_server_evolves|apply stop_server_same_registry].
Qed.

Lemma keeps_wf_start_server sid nm script cwd env_ cb :
  keeps_wf (start_server sid nm script cwd env_ cb).
Proof. intros w. apply wf_start_server. Qed.

Lemma keeps_wf_delete sid :
  keeps_wf (modify (fun w => set_processes (delete sid (_processes w)) w)).
Proof.
  intros w Hwf sid' h. unfold after, modify. cbn.
  intros Hs. apply lookup_delete_Some in Hs as [_ Hs]. by apply (Hwf sid').
Qed.

Lemma keeps_wf_restart_server fuel sid nm script cwd env_ cb cfk :
  keeps_wf (restart_server fuel sid nm script cwd env_ cb cfk).
Proof.
  unfold restart_server.
  apply keeps_wf_bind; [apply keeps_wf_stop_server|]. intros stopped.
  apply keeps_wf_bind.
  { apply keeps_wf_respects; destruct stopped; cbn [negb]; unfold_prims; resp. }
  intros _. apply keeps_wf_bind; [apply keeps_wf_delete|].
  intros _. apply keeps_wf_start_server.
Qed.

Lemma keeps_wf_perform a w : wf w -> wf (perform a w).
Proof.
  destruct a; cbn [perform].
  - apply keeps_wf_start_server.
  - apply keeps_wf_stop_server.
  - apply keeps_wf_restart_server.
  - apply keeps_wf_respects;
      apply manager_send_command_respects; auto with respects typeclass_instances.
  - apply keeps_wf_respects;
      apply is_running_respects; auto with respects typeclass_instances.
  - apply keeps_wf_respects;
      apply get_console_respects; auto with respects typeclass_instances.
  - apply keeps_wf_respects;
      apply watch_process_respects; auto with respects typeclass_instances.
  - apply keeps_wf_respects;
      apply reader_respects; auto with respects typeclass_instances.
Qed.

(** Every world reached from a fresh supervisor is well formed. *)
Lemma wf_reachable e actions :
  wf (foldl (fun w a => perform a w) (Example.fresh_world e) actions).
Proof.
  assert (H : forall w, wf w -> wf (foldl (fun w a => perform a w) w actions)).
  { induction actions as [|a l IH]; intros w Hwf; [done|].
    cbn. apply IH. by apply keeps_wf_perform. }
  apply H. by apply wf_empty.
Qed.

End WellFormed.

(* ===================================================================== *)
(** ** Stopping, and what runs afterwards *)
(* ===================================================================== *)

Section StopAndRun.

Lemma status_later p t t' rc : status p t = Some rc -> t <= t' -> status p t' = Some rc.
Proof.
  unfold status. destruct (exit_at p) as [[te r]|]; [|done].
  destruct (Z.leb_spec te t); [|done]. intros [= <-] Hle.
  destruct (Z.leb_spec te t'); [done|lia].
Qed.

Lemma is_running_at w h sid sp t fs evs :
  _processes w !! sid = Some h ->
  is_running sid (at_ w h sp t fs evs)
  = (Returns (is_none (status (process sp) t)),
     at_ w h sp t fs (evs ++ [Poll h (status (process sp) t)])).
Proof. intros Hreg. unfold is_running. run. rewrite Hreg. by run. Qed.

(** X1.  The answer of [stop_server] is the negation of what [is_running]
    answers right after it; after the answer [True] the child of the
    handle stays gone. *)
Theorem stop_server_answer_is_not_running (w : World) (sid cmd : string)
        (timeout : Z) (fuel : nat) :
  wf w ->
  Z.max 0 (1000 * timeout) + 200 <= 200 * Z.of_nat fuel ->
  exists (b : bool) (w' : World),
    stop_server fuel sid cmd timeout w = (Returns b, w') /\
    result (is_running sid) w' = Returns (negb b) /\
    (b = true -> forall sp', handle_of w' sid = Some sp' ->
       forall t, now w' <= t -> status (process sp') t <> None).
Proof.
  intros Hwf Hfuel.
  destruct (_processes w !! sid) as [h|] eqn:Hreg.
  - destruct (Hwf _ _ Hreg) as (sp & Hh & _).
    destruct (stop_server_known w sid h sp fuel cmd timeout Hreg Hh Hfuel)
      as (sent & p1 & evs1 & n & _ & _ & _ & _ & _ & Hrun).
    cbn zeta in Hrun. rewrite Hrun.
    destruct (status p1 (now w + 200 * Z.of_nat n)) as [rc|] eqn:Hst.
    + do 2 eexists. split; [reflexivity|]. split.
      * unfold result. rewrite (is_running_at _ _ _ _ _ _ _ Hreg).
        autorewrite with handle. by rewrite Hst.
      * intros _ sp'. unfold handle_of. cbn [_processes heap at_]. rewrite Hreg.
        cbn. rewrite lookup_insert_eq. intros [= <-] t Ht. autorewrite with handle.
        by rewrite (status_later _ _ _ _ Hst Ht).
    + do 2 eexists. split; [reflexivity|]. split.
      * unfold result. rewrite (is_running_at _ _ _ _ _ _ _ Hreg).
        autorewrite with handle. cbn [fst]. by rewrite negb_involutive.
      * intros Hb sp'. unfold handle_of. cbn [_processes heap at_]. rewrite Hreg.
        cbn. rewrite lookup_insert_eq. intros [= <-] t Ht. autorewrite with handle.
        destruct (status (killed _ p1).1 _) as [rc|] eqn:Hk; [|done].
        by rewrite (status_later _ _ _ _ Hk Ht).
  - rewrite (stop_server_unknown w sid cmd timeout fuel Hreg).
    do 2 eexists. split; [reflexivity|]. split.
    + unfold result, is_running. rewrite bind_eq. unfold processes_get at 1.
      cbn [_processes emit]. by rewrite Hreg.
    + intros _ sp'. unfold handle_of. cbn [_processes emit]. by rewrite Hreg.
Qed.

Lemma stop_server_answer_is_not_running_witness :
  let w := Example.one_server (Example.handle Example.hung [] false) in
  wf w /\
  Z.max 0 (1000 * 1) + 200 <= 200 * Z.of_nat 6 /\
  exists b w',
    stop_server 6 "id1" "stop" 1 w = (Returns b, w') /\
    result (is_running "id1") w' = Returns (negb b).
Proof.
  cbn zeta.
  assert (Hwf : wf (Example.one_server (Example.handle Example.hung [] false)))
    by (by apply wf_example).
  split; [exact Hwf|]. split; [lia|].
  destruct (stop_server_answer_is_not_running _ "id1" "stop" 1 6%nat Hwf)
    as (b & w' & Hrun & Hnot & _); [lia|].
  by exists b, w'.
Defined.

End StopAndRun.

Section StopExited.

(** X2.  Stopping a server whose child has already exited: the flag is set,
    nothing is written to the child and no kill is sent, the clock does
    not move, and the answer is [True]. *)
Theorem stop_server_exited_child (w : World) (sid cmd : string) (h : loc)
        (sp : ServerProcess) (rc timeout : Z) (fuel : nat) :
  _processes w !! sid = Some h ->
  heap w !! h = Some sp ->
  stdin (process sp) = true ->
  status (process sp) (now w) = Some rc ->
  (1 <= fuel)%nat ->
  stop_server fuel sid cmd timeout w
  = (Returns true,
     at_ w h (set_stop_requested true sp) (now w) (files w)
         [SetStop h; Poll h (Some rc);
          Log WARNING ("Cannot send command; process not running for " +:+ server_id sp);
          Poll h (Some rc); Poll h (Some rc);
          Log INFO ("Server " +:+ sid +:+ " stopped cleanly")]).
Proof.
  intros Hreg Hh Hin Hst Hfuel.
  destruct fuel as [|fuel]; [lia|].
  unfold stop_server. rewrite bind_eq. unfold processes_get at 1.
  rewrite Hreg. cbn beta iota. rewrite (at_start w h sp Hh) at 1.
  rewrite bind_eq, request_stop_at. cbn beta iota.
  unfold ServerProcess.send_command. run. rewrite Hin. run. rewrite Hst. run.
  cbn [wait_loop]. run. rewrite Hst. run. rewrite Hst. run.
  reflexivity.
Qed.

Lemma stop_server_exited_child_witness :
  let sp := Example.handle Example.crashing ["boot"] false in
  let w := set_now 5000 (Example.one_server sp) in
  _processes w !! "id1" = Some 7%positive /\
  heap w !! 7%positive = Some sp /\
  stdin (process sp) = true /\
  status (process sp) (now w) = Some 3 /\
  (1 <= 1)%nat /\
  result (stop_server 1 "id1" "stop" 15) w = Returns true /\
  now (after (stop_server 1 "id1" "stop" 15) w) = 5000.
Proof.
  cbn zeta. do 4 (split; [reflexivity|]). split; [lia|].
  unfold result, after.
  rewrite (stop_server_exited_child _ "id1" "stop" 7%positive
             (Example.handle Example.crashing ["boot"] false) 3 15 1);
    [split; reflexivity|reflexivity..|lia].
Defined.

End StopExited.

(* ===================================================================== *)
(** ** Starting and restarting *)
(* ===================================================================== *)

Section Started.

Lemma status_set_stdin b p t : status (set_stdin b p) t = status p t.
Proof. reflexivity. Qed.

Lemma launched_handle w sid nm path cwd env_ on_output p evs :
  let w' := launched w sid nm path cwd env_ on_output p evs in
  let h := fresh (dom (heap w)) in
  heap w !! h = None /\
  _processes w' !! sid = Some h /\
  heap w' !! h
  = Some (mkServerProcess sid nm (set_stdin true p) [] false
            (match on_output with Some _ => [OUT; ERR] | None => [] end)) /\
  (forall h' sp', heap w !! h' = Some sp' -> heap w' !! h' = Some sp') /\
  (forall sid', sid' <> sid -> _processes w' !! sid' = _processes w !! sid') /\
  result (get_console sid) w' = Returns (Some "") /\
  result (is_running sid) w' = Returns (is_none (status p (now w))).
Proof.
  cbn zeta.
  assert (Hfresh : heap w !! fresh (dom (heap w)) = None).
  { apply not_elem_of_dom, is_fresh. }
  split; [exact Hfresh|]. unfold launched. cbn [_processes heap].
  split; [apply lookup_insert_eq|]. split; [apply lookup_insert_eq|].
  split.
  { intros h' sp' Hh'. rewrite lookup_insert_ne; [done|]. congruence. }
  split.
  { intros sid' Hne. by rewrite lookup_insert_ne. }
  split.
  - unfold result, get_console, processes_get, ServerProcess.collect_console,
      deref, bind, ret. cbn [_processes heap]. rewrite lookup_insert_eq.
    cbn [heap]. by rewrite lookup_insert_eq.
  - unfold result, is_running, processes_get, poll, deref, bind, ret, get, tell,
      modify. cbn [_processes heap]. rewrite lookup_insert_eq.
    cbn [heap]. rewrite lookup_insert_eq. reflexivity.
Qed.


(** X4.  Starting an id whose registered child has exited registers a new
    handle in its place.  The old handle stays as it was, buffer
    included, but the registry no longer leads to it: [get_console]
    answers the empty console of the new handle. *)
Theorem start_server_replaces_exited (w : World) (sid nm : string) (h0 : loc)
        (sp0 : ServerProcess) (rc : Z)
        (script path : PathLib.Path) (cwd : option string)
        (env_ : option (gmap string string)) (on_output : option Callback)
        (p : Popen) :
  _processes w !! sid = Some h0 ->
  heap w !! h0 = Some sp0 ->
  status (process sp0) (now w) = Some rc ->
  result (_resolve_script script) w = Returns path ->
  image (env w) path (now w) = Some p ->
  exists (w' : World) (h : loc),
    start_server sid nm script cwd env_ on_output w = (Returns tt, w') /\
    h <> h0 /\
    _processes w' !! sid = Some h /\
    heap w' !! h0 = Some sp0 /\
    result (get_console sid) w = Returns (Some (console sp0)) /\
    result (get_console sid) w' = Returns (Some "") /\
    Watcher sid on_output ∈ threads w'.
Proof.
  intros Hreg Hh Hst Hres Himg.
  destruct (start_server_launches w sid nm script cwd env_ on_output path p)
    as (evs & Hs & _); [|done|done|].
  { intros h Hh'. rewrite Hreg in Hh'. injection Hh' as <-.
    exists sp0. split; [done|]. by rewrite Hst. }
  destruct (launched_handle w sid nm path cwd env_ on_output p evs)
    as (H1 & H2 & H3 & H4 & H5 & H6 & H7).
  exists (launched w sid nm path cwd env_ on_output p evs), (fresh (dom (heap w))).
  split; [exact Hs|].
  split; [intros Heq; rewrite Heq in H1; congruence|]. split; [exact H2|]. split; [by apply H4|].
  split.
  { unfold result, get_console, processes_get, ServerProcess.collect_console,
      deref, bind, ret. rewrite Hreg. cbn. by rewrite Hh. }
  split; [exact H6|].
  unfold launched. cbn [threads]. rewrite !elem_of_app. right. right.
  apply list_elem_of_singleton. reflexivity.
Qed.


Lemma start_server_replaces_exited_witness :
  let sp := Example.handle Example.crashing ["boot"; "panic"] false in
  let w := set_now 5000 (Example.one_server sp) in
  _processes w !! "id1" = Some 7%positive /\
  heap w !! 7%positive = Some sp /\
  status (process sp) (now w) = Some 3 /\
  result (_resolve_script Example.run_sh) w = Returns Example.run_sh /\
  image (env w) Example.run_sh (now w) = Some Example.polite /\
  exists w',
    start_server "id1" "My Server" Example.run_sh None None None w = (Returns tt, w') /\
    result (get_console "id1") w = Returns (Some ("boot" +:+ PyStr.nl +:+ "panic")) /\
    result (get_console "id1") w' = Returns (Some "").
Proof.
  cbn zeta. do 3 (split; [reflexivity|]).
  assert (Hres : result (_resolve_script Example.run_sh)
                   (set_now 5000 (Example.one_server
                      (Example.handle Example.crashing ["boot"; "panic"] false)))
                 = Returns Example.run_sh) by (vm_compute; reflexivity).
  split; [exact Hres|]. split; [reflexivity|].
  destruct (start_server_replaces_exited
              (set_now 5000 (Example.one_server
                 (Example.handle Example.crashing ["boot"; "panic"] false)))
              "id1" "My Server" 7%positive
              (Example.handle Example.crashing ["boot"; "panic"] false) 3
              Example.run_sh Example.run_sh None None None Example.polite
              eq_refl eq_refl eq_refl Hres eq_refl)
    as (w' & h & Hrun & _ & _ & _ & Hold & Hnew & _).
  exists w'. split; [exact Hrun|]. split; [exact Hold|exact Hnew].
Defined.

End Started.

Section Queries.

Lemma is_running_run w sid :
  wf w ->
  exists w',
    is_running sid w
    = (Returns (match handle_of w sid with
                | Some sp => is_none (status (process sp) (now w))
                | None => false
                end), w') /\
    _processes w' = _processes w /\ heap w' = heap w.
Proof.
  intros Hwf. unfold is_running, handle_of. rewrite bind_eq. unfold processes_get at 1.
  destruct (_processes w !! sid) as [h|] eqn:Hreg; cbn beta iota.
  - destruct (Hwf _ _ Hreg) as (sp & Hh & _).
    assert (Heq : (st <- poll h ;; ret (is_none st)) w
                  = (Returns (is_none (status (process sp) (now w))),
                     at_ w h sp (now w) (files w) [Poll h (status (process sp) (now w))])).
    { rewrite (at_start w h sp Hh) at 1. by run. }
    rewrite Heq. eexists. split.
    + cbn. by rewrite Hh.
    + cbn [_processes heap at_]. by rewrite insert_id.
  - by eexists.
Qed.

Lemma manager_send_command_returns w sid cmd :
  wf w -> exists b, result (send_command sid cmd) w = Returns b.
Proof.
  intros Hwf. unfold result, send_command. rewrite bind_eq. unfold processes_get at 1.
  destruct (_processes w !! sid) as [h|] eqn:Hreg; cbn beta iota.
  - destruct (Hwf _ _ Hreg) as (sp & Hh & _).
    destruct (send_command_at w h cmd sp (now w) (files w) [])
      as (b & p' & evs' & Hrun & _).
    rewrite <- (at_start w h sp Hh) in Hrun. rewrite Hrun. by exists b.
  - by exists false.
Qed.

(** X8.  Whatever calls were made on a fresh supervisor and whatever its
    threads did, the queries and [stop_server] return: [is_running],
    [get_console] and [send_command] always, [stop_server] when the loop
    bound covers the grace period.  None of them raises. *)
Theorem supervisor_calls_return (e : Env) (actions : list action) (sid cmd : string) :
  let w := foldl (fun w a => perform a w) (Example.fresh_world e) actions in
  (exists b, result (is_running sid) w = Returns b) /\
  (exists r, result (get_console sid) w = Returns r) /\
  (exists b, result (send_command sid cmd) w = Returns b) /\
  (forall fuel timeout,
     Z.max 0 (1000 * timeout) + 200 <= 200 * Z.of_nat fuel ->
     exists b, result (stop_server fuel sid cmd timeout) w = Returns b).
Proof.
  cbn zeta. pose proof (wf_reachable e actions) as Hwf.
  set (w := foldl _ _ actions) in *.
  split.
  { destruct (is_running_run w sid Hwf) as (w' & Hrun & _).
    eexists. unfold result. by rewrite Hrun. }
  split.
  { destruct (get_console_run w sid Hwf) as [Hrun _].
    eexists. unfold result. by rewrite Hrun. }
  split; [by apply manager_send_command_returns|].
  intros fuel timeout Hfuel.
  destruct (stop_server_run w sid cmd timeout fuel Hwf Hfuel) as (b & w' & evs & Hrun & _).
  exists b. unfold result. by rewrite Hrun.
Qed.

End Queries.

Section Resolver.

Import PathLib.

(** X9.  What the resolver answers exists, and resolving it again answers it
    unchanged. *)
Theorem resolve_script_idempotent (w : World) (p q : Path) :
  result (_resolve_script p) w = Returns q ->
  path_exists (env w) q = true /\
  result (_resolve_script q) w = Returns q.
Proof.
  unfold result. rewrite !resolve_script_run. cbn [fst].
  destruct (path_exists (env w) p) eqn:Hp.
  - intros [= <-]. by rewrite Hp.
  - destruct (String.eqb _ _ && path_exists _ _) eqn:Hq; [|done].
    intros [= <-]. apply andb_true_iff in Hq as [_ Hq]. by rewrite Hq.
Qed.

Lemma resolve_script_idempotent_witness :
  let w := Example.fresh_world Example.linux in
  result (_resolve_script Example.run_bat) w = Returns Example.run_sh /\
  path_exists (env w) Example.run_sh = true /\
  result (_resolve_script Example.run_sh) w = Returns Example.run_sh.
Proof.
  cbn zeta.
  assert (H : result (_resolve_script Example.run_bat) (Example.fresh_world Example.linux)
              = Returns Example.run_sh) by (vm_compute; reflexivity).
  split; [exact H|].
  exact (resolve_script_idempotent _ _ _ H).
Defined.

End Resolver.

Section FailedStart.

(** [start_server] from the resolution of the script on. *)
Local Abbreviation start_tail sid nm script cwd env_ on_output :=
  (script_path <- try_except (_resolve_script script)
                    (fun e =>
                       match e with
                       | FileNotFoundError msg =>
                           log ERROR ("Start failed: " ++ msg) ;; raise e
                       | _ => raise e
                       end) ;;
   w <- get ;;
   let '(cmd, shell) := if is_win w then ([PathLib.str script_path], true)
                        else (["/bin/sh"; PathLib.str script_path], false) in
   let cwd' := match cwd with
               | Some c => if String.eqb c "" then PathLib.parent script_path else c
               | None => PathLib.parent script_path
               end in
   let env' := default ∅ env_ ∪ environ (env w) in
   popen <- Popen_ script_path cmd cwd' env' shell ;;
   sp <- new_ServerProcess sid nm popen ;;
   match on_output with
   | Some cb => ServerProcess.start_readers sp cb
   | None => ret tt
   end ;;
   modify (fun w => set_processes (<[sid := sp]> (_processes w)) w) ;;
   start_thread (Watcher sid on_output) ;;
   log INFO ("Started server " ++ nm ++ " (" ++ sid ++ ")"))%string.




End FailedStart.

Section Restarted.

(** X6.  A restart whose script resolves and whose spawn succeeds: the id
    leads to a new handle with an empty buffer and the flag false; the
    handle registered before, if any, had its flag set and is no longer
    registered; the other ids are untouched. *)
Theorem restart_server_fresh_handle (w : World) (sid nm : string)
        (script path : PathLib.Path) (cwd : option string)
        (env_ : option (gmap string string)) (on_output : option Callback)
        (config_force_kill : bool) (fuel : nat) :
  wf w ->
  (76 <= fuel)%nat ->
  result (_resolve_script script) w = Returns path ->
  (forall t, image (env w) path t <> None) ->
  exists (w' : World) (h : loc) (p : Popen),
    restart_server fuel sid nm script cwd env_ on_output config_force_kill w
    = (Returns tt, w') /\
    image (env w) path (now w') = Some p /\
    heap w !! h = None /\
    _processes w' !! sid = Some h /\
    heap w' !! h
    = Some (mkServerProcess sid nm (set_stdin true p) [] false
              (match on_output with Some _ => [OUT; ERR] | None => [] end)) /\
    result (get_console sid) w' = Returns (Some "") /\
    (forall h0, _processes w !! sid = Some h0 -> flag w' h0 = Some true) /\
    (forall sid', sid' <> sid -> _processes w' !! sid' = _processes w !! sid').
Proof.
  intros Hwf Hfuel Hres Himg. unfold restart_server. rewrite bind_eq.
  destruct (_processes w !! sid) as [h0|] eqn:Hreg.
  - destruct (Hwf _ _ Hreg) as (sp & Hh & _).
    destruct (stop_server_trace w sid h0 sp fuel "stop" 15 Hreg Hh)
      as (b & p1 & t & evs & -> & Hevs); [lia|].
    cbn beta iota. rewrite bind_eq.
    destruct (restart_extra_kill_events w sid h0
                (set_process p1 (set_stop_requested true sp)) t (files w)
                (SetStop h0 :: evs) b Hreg) as (p' & evs' & -> & Hevs').
    cbn beta iota. rewrite bind_eq. unfold modify at 1. cbn beta iota.
    set (sp2 := set_process p' (set_process p1 (set_stop_requested true sp))).
    set (w2 := set_processes _ _).
    destruct (image (env w) path t) as [p|] eqn:Hp; [|by destruct (Himg t)].
    destruct (start_server_launches w2 sid nm script cwd env_ on_output path p)
      as (evs2 & Hs & _).
    { intros h Hh'. subst w2. cbn [_processes set_processes at_] in Hh'.
      by rewrite lookup_delete_eq in Hh'. }
    { rewrite <- Hres. by apply resolve_script_env. }
    { exact Hp. }
    destruct (launched_handle w2 sid nm path cwd env_ on_output p evs2)
      as (H1 & H2 & H3 & H4 & H5 & H6 & H7).
    exists (launched w2 sid nm path cwd env_ on_output p evs2),
           (fresh (dom (heap w2))), p.
    split; [exact Hs|]. split; [exact Hp|].
    assert (Hne : fresh (dom (heap w2)) <> h0).
    { intros Heq. rewrite Heq in H1. subst w2. cbn [heap set_processes at_] in H1.
      by rewrite lookup_insert_eq in H1. }
    split.
    { subst w2. cbn [heap set_processes at_] in H1.
      by rewrite lookup_insert_ne in H1. }
    split; [exact H2|]. split; [exact H3|]. split; [exact H6|]. split.
    + intros h' [= <-]. unfold flag. rewrite (H4 h0 sp2); [done|].
      subst w2. cbn [heap set_processes at_]. apply lookup_insert_eq.
    + intros sid' Hne'. rewrite H5 by done. subst w2.
      cbn [_processes set_processes at_]. by rewrite lookup_delete_ne.
  - rewrite (stop_server_unknown w sid "stop" 15 fuel Hreg).
    cbn beta iota. cbn [negb]. rewrite bind_eq. unfold ret at 1. cbn beta iota.
    rewrite bind_eq. unfold modify at 1. cbn beta iota.
    set (w2 := set_processes _ _).
    destruct (image (env w) path (now w)) as [p|] eqn:Hp; [|by destruct (Himg (now w))].
    destruct (start_server_launches w2 sid nm script cwd env_ on_output path p)
      as (evs2 & Hs & _).
    { intros h Hh'. subst w2. cbn [_processes set_processes emit] in Hh'.
      by rewrite lookup_delete_eq in Hh'. }
    { rewrite <- Hres. by apply resolve_script_env. }
    { exact Hp. }
    destruct (launched_handle w2 sid nm path cwd env_ on_output p evs2)
      as (H1 & H2 & H3 & H4 & H5 & H6 & H7).
    exists (launched w2 sid nm path cwd env_ on_output p evs2),
           (fresh (dom (heap w2))), p.
    split; [exact Hs|]. split; [exact Hp|].
    split; [exact H1|].
    split; [exact H2|]. split; [exact H3|]. split; [exact H6|]. split; [done|].
    intros sid' Hne'. rewrite H5 by done. subst w2.
    cbn [_processes set_processes emit]. by rewrite lookup_delete_ne.
Qed.

Lemma restart_server_fresh_handle_witness :
  let w := Example.one_server (Example.handle Example.polite ["a"] false) in
  wf w /\ (76 <= 80)%nat /\
  result (_resolve_script Example.run_sh) w = Returns Example.run_sh /\
  (forall t, image (env w) Example.run_sh t <> None) /\
  exists w' h,
    restart_server 80 "id1" "My Server" Example.run_sh None None None false w
    = (Returns tt, w') /\
    _processes w' !! "id1" = Some h /\
    heap w !! h = None /\
    result (get_console "id1") w' = Returns (Some "") /\
    flag w' 7%positive = Some true.
Proof.
  cbn zeta.
  assert (Hwf : wf (Example.one_server (Example.handle Example.polite ["a"] false)))
    by (by apply wf_example).
  assert (Hres : result (_resolve_script Example.run_sh)
                   (Example.one_server (Example.handle Example.polite ["a"] false))
                 = Returns Example.run_sh) by (vm_compute; reflexivity).
  split; [exact Hwf|]. split; [lia|]. split; [exact Hres|].
  split; [intros t; discriminate|].
  destruct (restart_server_fresh_handle _ "id1" "My Server" Example.run_sh Example.run_sh
              None None None false 80 Hwf) as (w' & h & p & Hrun & _ & Hn & Hreg & _ & Hc & Hf & _);
    [lia|exact Hres|intros t; discriminate|].
  exists w', h. split; [exact Hrun|]. split; [exact Hreg|]. split; [exact Hn|].
  split; [exact Hc|]. by apply Hf.
Defined.

End Restarted.

Section Captured.

(** X10.  What a capture task reads from a stream is what [get_console] answers
    afterwards: the lines that were in the buffer, then the lines of the
    stream without their line feeds, joined by line feeds. *)
Theorem captured_output_is_the_console (w : World) (sid : string) (h : loc)
        (sp : ServerProcess) (s : stream) (cb : Callback) (fuel : nat)
        (ls : list string) :
  _processes w !! sid = Some h ->
  heap w !! h = Some sp ->
  pipe s (process sp) = map Line ls ->
  Forall (fun l => l <> "") ls ->
  (forall hist text, cb hist (server_id sp) text = false) ->
  (length ls < fuel)%nat ->
  result (get_console sid) (after (ServerProcess._reader fuel h s cb) w)
  = Returns (Some (PyStr.join PyStr.nl
                     (stdout_lines sp ++ map PyStr.rstrip_nl ls)%list)).
Proof.
  intros Hreg Hh Hpipe Hls Hcb Hfuel.
  destruct (reader_at w h s cb (files w) (now w) fuel sp []
              (flat_map (fun l => line_events h s (server_id sp) l true) ls
                 ++ [ReadLine h s (Line "")])%list
              (map PyStr.rstrip_nl ls) true)
    as (sp' & Hrun & Hlines & _).
  { rewrite Hpipe. by rewrite length_map. }
  { rewrite Hpipe. by apply drain_clean. }
  rewrite <- (at_start w h sp Hh) in Hrun.
  unfold after. rewrite Hrun. cbn [snd].
  unfold result, get_console. rewrite bind_eq, processes_get_at, Hreg.
  cbn beta iota. rewrite bind_eq, collect_console_at. cbn beta iota.
  unfold ret, console. cbn [fst]. by rewrite Hlines.
Qed.

Lemma captured_output_is_the_console_witness :
  let sp := Example.handle Example.polite ["up"] false in
  let w := Example.one_server sp in
  let ls := ["a" +:+ PyStr.nl; "b" +:+ PyStr.nl; "c" +:+ PyStr.nl] in
  _processes w !! "id1" = Some 7%positive /\
  heap w !! 7%positive = Some sp /\
  pipe OUT (process sp) = map Line ls /\
  Forall (fun l => l <> "") ls /\
  (forall hist text, Example.patient hist (server_id sp) text = false) /\
  (length ls < 4)%nat /\
  result (get_console "id1") (after (ServerProcess._reader 4 7%positive OUT Example.patient) w)
  = Returns (Some ("up" +:+ PyStr.nl +:+ "a" +:+ PyStr.nl +:+ "b" +:+ PyStr.nl +:+ "c")).
Proof.
  cbn zeta. do 3 (split; [reflexivity|]).
  assert (Hls : Forall (fun l : string => l <> "")
                  ["a" +:+ PyStr.nl; "b" +:+ PyStr.nl; "c" +:+ PyStr.nl])
    by (repeat constructor; discriminate).
  split; [exact Hls|]. split; [reflexivity|]. split; [cbn; lia|].
  rewrite (captured_output_is_the_console
             (Example.one_server (Example.handle Example.polite ["up"] false))
             "id1" 7%positive
             (Example.handle Example.polite ["up"] false) OUT Example.patient 4
             ["a" +:+ PyStr.nl; "b" +:+ PyStr.nl; "c" +:+ PyStr.nl]
             eq_refl eq_refl eq_refl Hls (fun _ _ => eq_refl));
    [reflexivity|cbn; lia].
Defined.

End Captured.

(* ===================================================================== *)
(** ** A child that cannot be stopped *)
(* ===================================================================== *)

Global Instance outlives_refl : Reflexive outlives.
Proof. intros w h sp Hh Hs. eauto. Qed.
Global Instance outlives_trans : Transitive outlives.
Proof.
  intros w1 w2 w3 H1 H2 h sp Hh Hs.
  destruct (H1 _ _ Hh Hs) as (sp2 & Hh2 & Hs2). eauto.
Qed.

Section Stubborn.

Lemma stubborn_status p t : stubborn p -> status p t = None.
Proof. intros (He & _). unfold status. by rewrite He. Qed.

Lemma outlives_same_heap w w' : heap w' = heap w -> outlives w w'.
Proof. intros Hh h sp H Hs. rewrite Hh. eauto. Qed.

Lemma respects_outlives_update h f :
  (forall sp, process (f sp) = process sp) -> respects outlives (update h f).
Proof.
  intros Hf w. unfold after, update, bind, deref, modify.
  destruct (heap w !! h) as [sp|] eqn:Hh; cbn [snd]; [|done].
  intros h' sp' Hh' Hs. cbn [heap set_heap].
  destruct (decide (h' = h)) as [->|Hne].
  - rewrite lookup_insert_eq. eexists. split; [done|].
    rewrite Hf. congruence.
  - rewrite lookup_insert_ne by done. eauto.
Qed.

Lemma respects_outlives_on_process {A} h (f : Z -> Popen -> Popen * A) :
  (forall t p, stubborn p -> stubborn (f t p).1) ->
  respects outlives (on_process h f).
Proof.
  intros Hf w. unfold after, on_process.
  destruct (heap w !! h) as [sp|] eqn:Hh; cbn [snd]; [|done].
  specialize (Hf (now w) (process sp)).
  destruct (f (now w) (process sp)) as [p' a]. cbn [fst snd] in *.
  intros h' sp' Hh' Hs. cbn [heap set_heap].
  destruct (decide (h' = h)) as [->|Hne].
  - rewrite lookup_insert_eq. eexists. split; [done|].
    cbn. apply Hf. congruence.
  - rewrite lookup_insert_ne by done. eauto.
Qed.

Lemma respects_outlives_new sid nm popen :
  respects outlives (new_ServerProcess sid nm popen).
Proof.
  intros w h sp Hh Hs. unfold after, new_ServerProcess. cbn [snd heap set_heap].
  exists sp. split; [|done]. rewrite lookup_insert_ne; [done|].
  intros <-. apply (is_fresh (dom (heap w))). apply elem_of_dom. eauto.
Qed.

Lemma stubborn_killed t p : stubborn p -> stubborn (killed t p).1.
Proof.
  intros Hs. unfold killed. rewrite (stubborn_status _ _ Hs).
  destruct Hs as (He & Hk & Hr). by rewrite Hk.
Qed.

Lemma stubborn_written text t p : stubborn p -> stubborn (written text t p).1.
Proof.
  intros (He & Hk & Hr). unfold written, receive.
  destruct p as [ex re ka si wf ff sd so se]. cbn in He, Hk, Hr. subst ex ka.
  destruct wf as [|[] l]; cbn; rewrite ?Hr; by repeat split.
Qed.

Lemma stubborn_flushed t p : stubborn p -> stubborn (flushed t p).1.
Proof. by intros (He & Hk & Hr). Qed.

Lemma stubborn_read s t p : stubborn p -> stubborn (read s t p).1.
Proof. intros (He & Hk & Hr). by destruct s. Qed.

Lemma outlives_modify f :
  (forall w, heap (f w) = heap w) -> respects outlives (modify f).
Proof. intros H w. apply outlives_same_heap, H. Qed.

Lemma poll_outlives h : respects outlives (poll h).
Proof.
  unfold poll, tell.
  repeat first [ apply respects_bind; [apply _..| |intros]
               | apply respects_deref; apply _ | apply respects_get; apply _
               | apply respects_ret; apply _
               | by apply outlives_modify ].
Qed.
Lemma tell_outlives e : respects outlives (tell e).
Proof. by apply outlives_modify. Qed.
Lemma sleep_outlives ms : respects outlives (sleep ms).
Proof.
  unfold sleep. apply respects_bind; [apply _..| |intros];
    [by apply outlives_modify|apply tell_outlives].
Qed.
Lemma kill_outlives h : respects outlives (kill h).
Proof.
  unfold kill. apply respects_bind; [apply _..| |intros ok].
  - apply respects_outlives_on_process. intros. by apply stubborn_killed.
  - apply respects_bind; [apply _..|apply tell_outlives|intros].
    destruct ok; [apply respects_ret|apply respects_raise]; apply _.
Qed.
Lemma wait_outlives h : respects outlives (wait h).
Proof.
  unfold wait. apply respects_bind; [apply _..|apply respects_deref; apply _|intros sp].
  destruct (exit_at (process sp)) as [[te rc]|]; [|apply respects_halts; apply _].
  apply respects_bind; [apply _..|by apply outlives_modify|intros].
  apply respects_bind; [apply _..|apply tell_outlives|intros].
  apply respects_ret; apply _.
Qed.
Lemma stdin_write_outlives h text : respects outlives (stdin_write h text).
Proof.
  unfold stdin_write. apply respects_bind; [apply _..| |intros ok].
  - apply respects_outlives_on_process. intros. by apply stubborn_written.
  - apply respects_bind; [apply _..|apply tell_outlives|intros].
    destruct ok; [apply respects_ret|apply respects_raise]; apply _.
Qed.
Lemma stdin_flush_outlives h : respects outlives (stdin_flush h).
Proof.
  unfold stdin_flush. apply respects_bind; [apply _..| |intros ok].
  - apply respects_outlives_on_process. intros. by apply stubborn_flushed.
  - apply respects_bind; [apply _..|apply tell_outlives|intros].
    destruct ok; [apply respects_ret|apply respects_raise]; apply _.
Qed.
Lemma readline_outlives h s : respects outlives (readline h s).
Proof.
  unfold readline. apply respects_bind; [apply _..| |intros c].
  - apply respects_outlives_on_process. intros. by apply stubborn_read.
  - apply respects_bind; [apply _..|apply tell_outlives|intros].
    destruct c; [apply respects_ret|apply respects_raise]; apply _.
Qed.
Lemma call_outlives cb sid line : respects outlives (call cb sid line).
Proof.
  unfold call. apply respects_bind; [apply _..|apply respects_get; apply _|intros w].
  destruct (cb _ _ _); [|apply tell_outlives].
  apply respects_bind; [apply _..|apply tell_outlives|intros].
  apply respects_raise; apply _.
Qed.
Lemma write_file_outlives path content : respects outlives (write_file path content).
Proof.
  unfold write_file. apply respects_bind; [apply _..|apply respects_get; apply _|intros w].
  destruct (file_fault _ _).
  - apply respects_bind; [apply _..|by apply outlives_modify|intros; apply tell_outlives].
  - apply respects_bind; [apply _..|apply tell_outlives|intros; apply respects_raise; apply _].
  - apply respects_bind; [apply _..|by apply outlives_modify|intros].
    apply respects_bind; [apply _..|apply tell_outlives|intros; apply respects_raise; apply _].
Qed.
Lemma start_thread_outlives t : respects outlives (start_thread t).
Proof.
  unfold start_thread. apply respects_bind; [apply _..| |intros];
    [by apply outlives_modify|apply tell_outlives].
Qed.
Lemma request_stop_outlives h : respects outlives (request_stop h).
Proof.
  unfold request_stop. apply respects_bind; [apply _..| |intros; apply tell_outlives].
  by apply respects_outlives_update.
Qed.
Lemma append_outlives h f :
  respects outlives (update h (fun sp => set_stdout_lines (f sp) sp)).
Proof. by apply respects_outlives_update. Qed.
Lemma readers_outlives h f :
  respects outlives (update h (fun sp => set_reader_threads (f sp) sp)).
Proof. by apply respects_outlives_update. Qed.
Lemma registry_outlives f :
  respects outlives (modify (fun w => set_processes (f w) w)).
Proof. by apply outlives_modify. Qed.

#[local] Hint Resolve poll_outlives tell_outlives sleep_outlives kill_outlives
  wait_outlives stdin_write_outlives stdin_flush_outlives readline_outlives
  call_outlives write_file_outlives start_thread_outlives request_stop_outlives
  append_outlives readers_outlives registry_outlives respects_outlives_new : respects.

Lemma perform_outlives a w : outlives w (perform a w).
Proof.
  destruct a; cbn [perform].
  - apply start_server_respects; auto with respects typeclass_instances.
  - apply stop_server_respects; auto with respects typeclass_instances.
  - apply restart_server_respects; auto with respects typeclass_instances.
  - apply manager_send_command_respects; auto with respects typeclass_instances.
  - apply is_running_respects; auto with respects typeclass_instances.
  - apply get_console_respects; auto with respects typeclass_instances.
  - apply watch_process_respects; auto with respects typeclass_instances.
  - apply reader_respects; auto with respects typeclass_instances.
Qed.

(** X7.  A child that reacts to no input and cannot be killed outlives the
    supervisor: whatever is called and whatever the threads do, its
    handle stays in the heap and the child never exits. *)
Theorem stubborn_child_is_never_stopped (w : World) (h : loc) (sp : ServerProcess)
        (actions : list action) :
  heap w !! h = Some sp ->
  stubborn (process sp) ->
  exists sp',
    heap (foldl (fun w a => perform a w) w actions) !! h = Some sp' /\
    forall t, status (process sp') t = None.
Proof.
  revert w sp. induction actions as [|a l IH]; intros w sp Hh Hs.
  - exists sp. split; [done|]. intros t. by apply stubborn_status.
  - cbn [foldl]. destruct (perform_outlives a w h sp Hh Hs) as (sp1 & Hh1 & Hs1).
    by apply (IH _ sp1).
Qed.

Lemma stubborn_child_is_never_stopped_witness :
  let sp := Example.handle Sample.immortal [] false in
  let w := Example.one_server sp in
  heap w !! 7%positive = Some sp /\
  stubborn (process sp) /\
  exists sp',
    heap (foldl (fun w a => perform a w) w
            [StopServer 80 "id1" "stop" 15;
             RestartServer 80 "id1" "My Server" Example.run_sh None None None false])
      !! 7%positive = Some sp' /\
    status (process sp') 1000000 = None.
Proof.
  cbn zeta. split; [reflexivity|].
  assert (Hs : stubborn (process (Example.handle Sample.immortal [] false)))
    by (by repeat split).
  split; [exact Hs|].
  destruct (stubborn_child_is_never_stopped
              (Example.one_server (Example.handle Sample.immortal [] false))
              7%positive _
              [StopServer 80 "id1" "stop" 15;
               RestartServer 80 "id1" "My Server" Example.run_sh None None None false]
              eq_refl Hs) as (sp' & Hh & Hst).
  exists sp'. split; [exact Hh|apply Hst].
Defined.

End Stubborn.

(* ===================================================================== *)
(** ** The configuration file *)
(* ===================================================================== *)

Section Configuration.

Import Json Config ConfigSpec.
Local Open Scope cfg_scope.

Implicit Types (st : Store) (self : ConfigManager) (servers : list ServerConfig).

Lemma cbind_eq {A B} (m : C A) (k : A -> C B) st :
  Config.bind m k st = match m st with
                       | (Ok a, st') => k a st'
                       | (Err e, st') => (Err e, st')
                       | (Beyond, st') => (Beyond, st')
                       end.
Proof. reflexivity. Qed.

Lemma ctry_eq {A} (m : C A) handler st :
  Config.try_except m handler st = match m st with
                                   | (Err e, st') => handler e st'
                                   | r => r
                                   end.
Proof. reflexivity. Qed.

Lemma parse_to_dict s : parse (to_dict s) = Some s.
Proof. by destruct s. Qed.

Lemma decode_dump servers : decode (JList (map to_dict servers)) = Some servers.
Proof.
  unfold decode. cbn [items_of]. cbn. apply mapM_fmap_Some, parse_to_dict.
Qed.

Lemma for_each_parse items st :
  for_each new_ServerConfig items st
  = (match mapM parse items with Some l => Ok l | None => Err TypeError end, st).
Proof.
  induction items as [|x l IH]; [done|].
  cbn [for_each mapM]. rewrite cbind_eq. unfold new_ServerConfig at 1.
  destruct (parse x) as [s|]; [|done]. cbn. rewrite cbind_eq, IH.
  by destruct (mapM parse l).
Qed.

Lemma config_load_run p st :
  load p st
  = (match disk st !! p with
     | None => Err OSError
     | Some c =>
         if unreadable st p then Err OSError
         else match c with Doc v => Ok v | Junk => Err JSONDecodeError end
     end, st).
Proof.
  unfold load. rewrite cbind_eq. unfold state at 1.
  destruct (disk st !! p) as [[v|]|]; [|by destruct (unreadable st p)|done].
  by destruct (unreadable st p).
Qed.

Lemma config_load_all_run self st :
  load_all self st
  = match document st (path self) with
    | Some v => (match decode v with Some l => Ok l | None => Err TypeError end, st)
    | None => (Ok [], noted ERROR "Failed to load config: %s" st)
    end.
Proof.
  unfold load_all, document. rewrite cbind_eq, ctry_eq, cbind_eq, config_load_run.
  destruct (disk st !! path self) as [[v|]|]; [|by destruct (unreadable st _)|done].
  destruct (unreadable st (path self)); [done|].
  cbn. rewrite cbind_eq. unfold iterate, decode.
  destruct (items_of v) as [items|]; [|done].
  cbn. by rewrite for_each_parse.
Qed.

Lemma config_save_all_run self servers st :
  save_all self servers st = (Ok tt, saved st self servers).
Proof.
  unfold save_all, saved. rewrite ctry_eq, cbind_eq. unfold dump at 1.
  rewrite cbind_eq. unfold state at 1.
  by destruct (write_fault st (path self)).
Qed.

Lemma document_noted l f st p : document (noted l f st) p = document st p.
Proof. reflexivity. Qed.

Lemma listing_noted l f st self : listing (noted l f st) self = listing st self.
Proof. reflexivity. Qed.

Lemma document_saved st self servers :
  write_fault st (path self) = NoFault ->
  unreadable st (path self) = false ->
  document (saved st self servers) (path self) = Some (JList (map to_dict servers)).
Proof.
  intros Hw Hr. unfold saved, document. rewrite Hw. cbn.
  by rewrite lookup_insert_eq, Hr.
Qed.

Lemma listing_saved st self servers :
  write_fault st (path self) = NoFault ->
  unreadable st (path self) = false ->
  listing (saved st self servers) self = Some servers.
Proof.
  intros Hw Hr. unfold listing. rewrite document_saved by done. apply decode_dump.
Qed.

(** X11.  What [save_all] wrote is what [load_all] reads back, whatever the
    file held before. *)
Theorem save_all_load_all (self : ConfigManager) (servers : list ServerConfig)
        (st : Store) :
  write_fault st (path self) = NoFault ->
  unreadable st (path self) = false ->
  exists st1,
    save_all self servers st = (Ok tt, st1) /\
    disk st1 = <[path self := Doc (JList (map to_dict servers))]> (disk st) /\
    load_all self st1 = (Ok servers, st1).
Proof.
  intros Hw Hr. rewrite config_save_all_run. eexists. split; [reflexivity|]. split.
  - unfold saved. by rewrite Hw.
  - rewrite config_load_all_run, document_saved by done. by rewrite decode_dump.
Qed.

Lemma config_load_all_at self st :
  load_all self st
  = (match listing st self with Some l => Ok l | None => Err TypeError end,
     loaded st self).
Proof.
  rewrite config_load_all_run. unfold listing, loaded.
  by destruct (document st (path self)).
Qed.

Lemma listing_loaded st self : listing (loaded st self) self = listing st self.
Proof. unfold loaded. by destruct (document st (path self)). Qed.

Lemma disk_loaded st self : disk (loaded st self) = disk st.
Proof. unfold loaded. by destruct (document st (path self)). Qed.

Lemma drawn_loaded st self : drawn (loaded st self) = drawn st.
Proof. unfold loaded. by destruct (document st (path self)). Qed.

Lemma uuid4_loaded st self : uuid4 (loaded st self) = uuid4 st.
Proof. unfold loaded. by destruct (document st (path self)). Qed.

Lemma write_fault_loaded st self : write_fault (loaded st self) = write_fault st.
Proof. unfold loaded. by destruct (document st (path self)). Qed.

Lemma unreadable_loaded st self : unreadable (loaded st self) = unreadable st.
Proof. unfold loaded. by destruct (document st (path self)). Qed.

Lemma other_attribute_loaded st self : other_attribute (loaded st self) = other_attribute st.
Proof. unfold loaded. by destruct (document st (path self)). Qed.

Lemma config_get_at self sid st :
  Config.get self sid st
  = (match listing st self with
     | Some l => Ok (List.find (has_id sid) l)
     | None => Err TypeError
     end, loaded st self).
Proof.
  unfold Config.get. rewrite cbind_eq, config_load_all_at.
  by destruct (listing st self).
Qed.

Lemma filter_length_all {A} (f : A -> bool) l :
  (length (List.filter f l) =? length l)%nat = forallb f l.
Proof.
  induction l as [|x l IH]; [done|]. cbn [List.filter forallb].
  destruct (f x); cbn [andb length].
  - exact IH.
  - apply Nat.eqb_neq. pose proof (List.filter_length_le f l). lia.
Qed.

Lemma config_remove_at self sid st :
  remove self sid st
  = match listing st self with
    | None => (Err TypeError, loaded st self)
    | Some l =>
        if forallb (fun s => negb (has_id sid s)) l
        then (Ok false,
              noted WARNING "Attempted to remove unknown server id %s" (loaded st self))
        else (Ok true,
              noted INFO "Removed server %s"
                (saved (loaded st self) self
                   (List.filter (fun s => negb (has_id sid s)) l)))
    end.
Proof.
  unfold remove. rewrite cbind_eq, config_load_all_at.
  destruct (listing st self) as [l|]; [|done]. cbn zeta.
  fold (has_id sid). rewrite filter_length_all.
  destruct (forallb _ l); [done|].
  by rewrite cbind_eq, config_save_all_run.
Qed.

Lemma set_fields_plain s upd st :
  plain st upd -> set_fields s upd st = (Ok (assigned s upd), st).
Proof.
  revert s. induction upd as [|[k v] upd IH]; intros s Hp; [done|].
  apply Forall_cons in Hp as [Hk Hp]. cbn [set_fields assigned foldl].
  rewrite cbind_eq. unfold state at 1. cbn [fst snd] in *.
  destruct (is_field k) eqn:Hf.
  - by apply IH.
  - rewrite (Hk eq_refl).
    assert (Hs : setattr s k v = s).
    { unfold setattr. unfold is_field, fields in Hf.
      apply bool_decide_eq_false in Hf.
      repeat match goal with
      | |- context [String.eqb k ?x] =>
          destruct (String.eqb_spec k x) as [->|_];
          [exfalso; apply Hf; set_solver|]
      end. done. }
    rewrite Hs. by apply IH.
Qed.

Lemma update_from_miss self sid upd seen rest st :
  forallb (fun s => negb (has_id sid s)) rest = true ->
  update_from self sid upd seen rest st
  = (Ok None, noted WARNING "Attempted update for unknown server id %s" st).
Proof.
  revert seen. induction rest as [|s rest IH]; intros seen H; [done|].
  cbn [forallb] in H. apply andb_true_iff in H as [Hs H].
  cbn [update_from]. unfold has_id in Hs. apply negb_true_iff in Hs.
  rewrite Hs. by apply IH.
Qed.

Lemma update_from_hit self sid upd seen before s rest st :
  forallb (fun s => negb (has_id sid s)) before = true ->
  has_id sid s = true ->
  plain st upd ->
  update_from self sid upd seen (before ++ s :: rest) st
  = (Ok (Some (assigned s upd)),
     noted INFO "Updated server %s"
       (saved st self ((seen ++ before) ++ assigned s upd :: rest))).
Proof.
  revert seen. induction before as [|x before IH]; intros seen Hb Hs Hp.
  - cbn [app update_from]. unfold has_id in Hs. rewrite Hs.
    rewrite cbind_eq, (set_fields_plain s upd st Hp).
    rewrite cbind_eq, config_save_all_run. by rewrite app_nil_r.
  - cbn [forallb] in Hb. apply andb_true_iff in Hb as [Hx Hb].
    rewrite <- app_comm_cons. cbn [update_from].
    unfold has_id in Hx. apply negb_true_iff in Hx. rewrite Hx.
    rewrite IH by done. by rewrite <- (app_assoc seen [x] before).
Qed.

Lemma document_None st p :
  document st p = None <->
  disk st !! p = None \/ disk st !! p = Some Junk \/ unreadable st p = true.
Proof.
  unfold document. destruct (disk st !! p) as [[v|]|].
  - destruct (unreadable st p); split; try done; [by right; right|].
    intros [|[|]]; done.
  - split; [by right; left|done].
  - split; [by left|done].
Qed.

Lemma config_update_at self sid upd st :
  update self sid upd st
  = match listing st self with
    | Some l => update_from self sid upd [] l (loaded st self)
    | None => (Err TypeError, loaded st self)
    end.
Proof.
  unfold update. rewrite cbind_eq, config_load_all_at. by destruct (listing st self).
Qed.

(** X12.  A configuration file that is missing, unreadable or not JSON reads
    as the empty list: [load_all] answers [[]], [get] and [update]
    answer [None], [remove] answers [False].  The failure is logged, no
    exception leaves the manager, and the file is not touched. *)
Theorem unloadable_file_reads_as_empty (self : ConfigManager) (st : Store)
        (sid : string) (upd : list (string * json)) :
  disk st !! path self = None \/ disk st !! path self = Some Junk \/
    unreadable st (path self) = true ->
  let st' := noted ERROR "Failed to load config: %s" st in
  load_all self st = (Ok [], st') /\
  Config.get self sid st = (Ok None, st') /\
  update self sid upd st
  = (Ok None, noted WARNING "Attempted update for unknown server id %s" st') /\
  remove self sid st
  = (Ok false, noted WARNING "Attempted to remove unknown server id %s" st') /\
  disk st' = disk st.
Proof.
  intros H%document_None. cbn zeta.
  assert (Hl : listing st self = Some []) by (unfold listing; by rewrite H).
  assert (Hst : loaded st self = noted ERROR "Failed to load config: %s" st)
    by (unfold loaded; by rewrite H).
  split; [by rewrite config_load_all_at, Hl, Hst|].
  split; [by rewrite config_get_at, Hl, Hst|].
  split; [by rewrite config_update_at, Hl, Hst|].
  split; [by rewrite config_remove_at, Hl, Hst|done].
Qed.

Lemma unloadable_file_reads_as_empty_witness :
  let self := mkConfigManager "servers.json" in
  let st := mkStore {[ "servers.json" := Junk ]} (fun _ => false) (fun _ => NoFault)
                    (fun _ => false) (fun _ => "u") 0 [] in
  (disk st !! path self = None \/ disk st !! path self = Some Junk \/
     unreadable st (path self) = true) /\
  fst (load_all self st) = Ok [] /\
  fst (remove self "u" st) = Ok false.
Proof.
  cbn zeta. split; [right; left; reflexivity|].
  destruct (unloadable_file_reads_as_empty (mkConfigManager "servers.json")
              (mkStore {[ "servers.json" := Junk ]} (fun _ => false) (fun _ => NoFault)
                       (fun _ => false) (fun _ => "u") 0 []) "u" [])
    as (H1 & _ & _ & H4 & _); [right; left; reflexivity|].
  by rewrite H1, H4.
Defined.

(** X13.  A file that is JSON but not a sequence of configurations (a number,
    an entry with a key that is no field, an entry without [id]) makes
    every operation raise [TypeError]: only the load itself is guarded.
    Nothing is written and no UUID is drawn. *)
Theorem malformed_document_raises (self : ConfigManager) (st : Store) (v : json)
        (sid : string) (upd partial : list (string * json)) :
  document st (path self) = Some v ->
  decode v = None ->
  load_all self st = (Err TypeError, st) /\
  Config.get self sid st = (Err TypeError, st) /\
  add self partial st = (Err TypeError, st) /\
  update self sid upd st = (Err TypeError, st) /\
  remove self sid st = (Err TypeError, st).
Proof.
  intros Hd Hv.
  assert (Hl : listing st self = None) by (unfold listing; by rewrite Hd).
  assert (Hst : loaded st self = st) by (unfold loaded; by rewrite Hd).
  split; [by rewrite config_load_all_at, Hl, Hst|].
  split; [by rewrite config_get_at, Hl, Hst|].
  split; [unfold add; by rewrite cbind_eq, config_load_all_at, Hl, Hst|].
  split; [by rewrite config_update_at, Hl, Hst|by rewrite config_remove_at, Hl, Hst].
Qed.

Lemma malformed_document_raises_witness :
  let self := mkConfigManager "servers.json" in
  let v := JList [JObj [("name", JStr "a"); ("start_script", JStr "run.sh")]] in
  let st := mkStore {[ "servers.json" := Doc v ]} (fun _ => false) (fun _ => NoFault)
                    (fun _ => false) (fun _ => "u") 0 [] in
  document st (path self) = Some v /\ decode v = None /\
  Config.get self "u" st = (Err TypeError, st).
Proof.
  cbn zeta. split; [reflexivity|]. split; [reflexivity|].
  eapply proj1, proj2,
    (malformed_document_raises (mkConfigManager "servers.json") _ _ "u" [] []);
    reflexivity.
Defined.

Lemma config_add_at self partial st :
  add self partial st
  = match listing st self with
    | None => (Err TypeError, loaded st self)
    | Some l =>
        let st1 := set_drawn (S (drawn st)) (loaded st self) in
        match dict_get "name" partial, dict_get "start_script" partial with
        | None, _ => (Err (KeyError "name"), st1)
        | Some _, None => (Err (KeyError "start_script"), st1)
        | Some nm, Some script =>
            let sc := made (uuid4 st (drawn st)) nm script partial in
            (Ok sc, noted INFO "Added server %s (%s)" (saved st1 self (l ++ [sc])))
        end
    end.
Proof.
  unfold add. rewrite cbind_eq, config_load_all_at.
  destruct (listing st self) as [l|]; [|done]. cbn zeta.
  rewrite cbind_eq. unfold new_uuid at 1. rewrite cbind_eq. unfold state at 1.
  cbn beta iota. rewrite cbind_eq. unfold modify at 1. cbn beta iota.
  unfold Config.ret at 1. cbn beta iota. rewrite drawn_loaded, uuid4_loaded.
  rewrite cbind_eq. unfold getitem at 1.
  destruct (dict_get "name" partial) as [nm|]; [|done].
  unfold Config.ret at 1. cbn beta iota.
  rewrite cbind_eq. unfold getitem at 1.
  destruct (dict_get "start_script" partial) as [script|]; [|done].
  unfold Config.ret at 1. cbn beta iota.
  by rewrite cbind_eq, config_save_all_run.
Qed.

Lemma find_app_miss {A} (f : A -> bool) l x :
  forallb (fun y => negb (f y)) l = true ->
  List.find f (l ++ [x]) = if f x then Some x else None.
Proof.
  induction l as [|y l IH]; intros H; [done|].
  cbn [forallb] in H. apply andb_true_iff in H as [Hy H].
  apply negb_true_iff in Hy. cbn. rewrite Hy. by apply IH.
Qed.

Lemma find_app_keep {A} (f : A -> bool) l x :
  f x = false -> List.find f (l ++ [x]) = List.find f l.
Proof.
  intros Hx. induction l as [|y l IH]; cbn; [by rewrite Hx|].
  by destruct (f y).
Qed.

(** X14.  [add] gives the new configuration the next UUID as its id, takes
    [name] and [start_script] from the caller, [None] for a missing
    [cwd] or [env] and the truth value of [force_kill_on_stop], and
    stores it after the configurations it loaded (none, when the file
    could not be loaded).  Afterwards [get] finds it under its id unless
    an older entry has that id, and finds every other id as before. *)
Theorem add_appends (self : ConfigManager) (partial : list (string * json))
        (st : Store) (servers : list ServerConfig) (nm script : json) :
  listing st self = Some servers ->
  dict_get "name" partial = Some nm ->
  dict_get "start_script" partial = Some script ->
  write_fault st (path self) = NoFault ->
  unreadable st (path self) = false ->
  let sid := uuid4 st (drawn st) in
  let sc := made sid nm script partial in
  exists st',
    add self partial st = (Ok sc, st') /\
    drawn st' = S (drawn st) /\
    listing st' self = Some (servers ++ [sc])%list /\
    (forallb (fun s => negb (has_id sid s)) servers = true ->
     fst (Config.get self sid st') = Ok (Some sc)) /\
    (forall sid', sid' <> sid ->
       fst (Config.get self sid' st') = fst (Config.get self sid' st)).
Proof.
  intros Hl Hn Hs Hw Hr. cbn zeta. rewrite config_add_at, Hl, Hn, Hs. cbn zeta.
  eexists. split; [reflexivity|].
  set (st1 := set_drawn _ _).
  assert (Hw1 : write_fault st1 (path self) = NoFault)
    by (subst st1; cbn; by rewrite write_fault_loaded).
  assert (Hr1 : unreadable st1 (path self) = false)
    by (subst st1; cbn; by rewrite unreadable_loaded).
  assert (Hafter : listing (noted INFO "Added server %s (%s)"
                      (saved st1 self
                         (servers ++ [made (uuid4 st (drawn st)) nm script partial])%list))
                     self
                   = Some (servers ++ [made (uuid4 st (drawn st)) nm script partial])%list).
  { rewrite listing_noted. by apply listing_saved. }
  split.
  { unfold saved. rewrite Hw1. reflexivity. }
  split; [exact Hafter|]. split.
  - intros Hfresh. rewrite config_get_at, Hafter. cbn [fst].
    rewrite find_app_miss by done. unfold has_id, made. cbn.
    by rewrite String.eqb_refl.
  - intros sid' Hne. rewrite !config_get_at, Hafter, Hl. cbn [fst]. f_equal.
    apply find_app_keep. unfold has_id, made. cbn.
    apply String.eqb_neq. congruence.
Qed.

(** X15.  Without [name] or [start_script] in its argument, [add] raises
    [KeyError] for the first of the two that is missing; the file is
    not written, but a UUID has been drawn. *)
Theorem add_requires_name_and_script (self : ConfigManager)
        (partial : list (string * json)) (st : Store)
        (servers : list ServerConfig) :
  listing st self = Some servers ->
  dict_get "name" partial = None \/ dict_get "start_script" partial = None ->
  exists k st',
    add self partial st = (Err (KeyError k), st') /\
    k = (if dict_has "name" partial then "start_script" else "name") /\
    disk st' = disk st /\
    drawn st' = S (drawn st).
Proof.
  intros Hl Hk. rewrite config_add_at, Hl. cbn zeta. unfold dict_has.
  destruct (dict_get "name" partial) as [nm|].
  - destruct Hk as [Hk|Hk]; [done|]. rewrite Hk.
    do 2 eexists. split; [reflexivity|]. split; [done|].
    cbn. by rewrite disk_loaded.
  - do 2 eexists. split; [reflexivity|]. split; [done|].
    cbn. by rewrite disk_loaded.
Qed.

Lemma plain_loaded st self upd : plain st upd -> plain (loaded st self) upd.
Proof. unfold plain. by rewrite other_attribute_loaded. Qed.

Lemma setattr_other s k v : is_field k = false -> setattr s k v = s.
Proof.
  intros Hf. unfold setattr. unfold is_field, fields in Hf.
  apply bool_decide_eq_false in Hf.
  repeat match goal with
  | |- context [String.eqb k ?x] =>
      destruct (String.eqb_spec k x) as [->|_];
      [exfalso; apply Hf; set_solver|]
  end. done.
Qed.

Lemma getattr_setattr s k v k' :
  is_field k = true ->
  getattr (setattr s k v) k' = if String.eqb k k' then Some v else getattr s k'.
Proof.
  intros Hf. unfold is_field, fields in Hf. apply bool_decide_eq_true in Hf.
  repeat (apply elem_of_cons in Hf as [->|Hf]); [..|by apply elem_of_nil in Hf].
  all: unfold getattr, to_dict; cbn [dict_get].
  all: repeat match goal with
       | |- context [String.eqb ?x ?y] => is_var y; destruct (String.eqb_spec x y)
       end; first [reflexivity | congruence].
Qed.

Lemma getattr_assigned_other s upd k :
  dict_has k upd = false -> getattr (assigned s upd) k = getattr s k.
Proof.
  unfold dict_has. revert s. induction upd as [|[k0 v] upd IH]; intros s H; [done|].
  cbn [dict_get] in H. destruct (String.eqb_spec k0 k) as [->|Hne]; [done|].
  unfold assigned. cbn [foldl]. fold (assigned (setattr s k0 v) upd).
  rewrite IH by done. cbn [fst snd].
  destruct (is_field k0) eqn:Hf.
  - rewrite getattr_setattr by done. by apply String.eqb_neq in Hne as ->.
  - by rewrite setattr_other.
Qed.

Lemma getattr_assigned s upd k v :
  NoDup upd.*1 -> is_field k = true -> dict_get k upd = Some v ->
  getattr (assigned s upd) k = Some v.
Proof.
  revert s. induction upd as [|[k0 v0] upd IH]; intros s Hnd Hf H; [done|].
  cbn [fmap list_fmap fst] in Hnd. apply NoDup_cons in Hnd as [Hnotin Hnd].
  cbn [dict_get] in H. unfold assigned. cbn [foldl fst snd].
  fold (assigned (setattr s k0 v0) upd).
  destruct (String.eqb_spec k0 k) as [->|Hne].
  - injection H as ->. rewrite getattr_assigned_other.
    + rewrite getattr_setattr by done. by rewrite String.eqb_refl.
    + unfold dict_has. destruct (dict_get k upd) as [x|] eqn:Hx; [|done].
      exfalso. apply Hnotin. clear -Hx.
      induction upd as [|[k1 v1] upd IH]; [done|]. cbn [dict_get] in Hx.
      cbn. destruct (String.eqb_spec k1 k) as [->|?]; [left|right; auto].
  - by apply IH.
Qed.

(** X16.  [update] changes the first configuration that has the id, and only
    that one: each field named in the update takes the given value (the
    id itself included), the other fields keep theirs, keys that name no
    attribute are skipped, and the list is saved with the entry at its
    old place.  The changed configuration is what [update] answers. *)
Theorem update_changes_first_match (self : ConfigManager) (sid : string)
        (upd : list (string * json)) (st : Store)
        (before : list ServerConfig) (s : ServerConfig) (rest : list ServerConfig) :
  listing st self = Some (before ++ s :: rest)%list ->
  forallb (fun x => negb (has_id sid x)) before = true ->
  has_id sid s = true ->
  plain st upd ->
  NoDup upd.*1 ->
  exists s' st',
    update self sid upd st = (Ok (Some s'), st') /\
    (forall k v, is_field k = true -> dict_get k upd = Some v -> getattr s' k = Some v) /\
    (forall k, dict_has k upd = false -> getattr s' k = getattr s k) /\
    (write_fault st (path self) = NoFault -> unreadable st (path self) = false ->
     listing st' self = Some (before ++ s' :: rest)%list).
Proof.
  intros Hl Hb Hs Hp Hnd. rewrite config_update_at, Hl.
  rewrite (update_from_hit self sid upd [] before s rest) by (done || by apply plain_loaded).
  exists (assigned s upd). eexists. split; [reflexivity|]. split.
  { intros k v Hf Hk. by apply getattr_assigned. }
  split.
  { intros k Hk. by apply getattr_assigned_other. }
  intros Hw Hr. rewrite listing_noted. cbn [app].
  apply listing_saved; by rewrite ?write_fault_loaded, ?unreadable_loaded.
Qed.

(** X17.  An id that no configuration has: [get] and [update] answer [None],
    [remove] answers [False], and the file is not written. *)
Theorem unknown_id_changes_nothing (self : ConfigManager) (sid : string)
        (upd : list (string * json)) (st : Store) (servers : list ServerConfig) :
  listing st self = Some servers ->
  forallb (fun s => negb (has_id sid s)) servers = true ->
  fst (Config.get self sid st) = Ok None /\
  (exists st', update self sid upd st = (Ok None, st') /\ disk st' = disk st) /\
  (exists st', remove self sid st = (Ok false, st') /\ disk st' = disk st).
Proof.
  intros Hl Hmiss. split; [|split].
  - rewrite config_get_at, Hl. cbn [fst]. f_equal.
    clear Hl. induction servers as [|s l IH]; [done|].
    cbn [forallb] in Hmiss. apply andb_true_iff in Hmiss as [Hs Hmiss].
    apply negb_true_iff in Hs. cbn. rewrite Hs. by apply IH.
  - rewrite config_update_at, Hl, update_from_miss by done.
    eexists. split; [reflexivity|]. cbn. by rewrite disk_loaded.
  - rewrite config_remove_at, Hl, Hmiss.
    eexists. split; [reflexivity|]. cbn. by rewrite disk_loaded.
Qed.

Lemma find_filter_gone sid l :
  List.find (has_id sid) (List.filter (fun s => negb (has_id sid s)) l) = None.
Proof.
  induction l as [|s l IH]; [done|]. cbn [List.filter].
  destruct (has_id sid s) eqn:Hs; cbn [negb]; [done|]. cbn. by rewrite Hs.
Qed.

Lemma find_filter_other sid sid' l :
  sid' <> sid ->
  List.find (has_id sid') (List.filter (fun s => negb (has_id sid s)) l)
  = List.find (has_id sid') l.
Proof.
  intros Hne. induction l as [|s l IH]; [done|]. cbn [List.filter].
  destruct (has_id sid s) eqn:Hs; cbn [negb].
  - cbn. assert (has_id sid' s = false) as ->; [|done].
    unfold has_id, eq_str in *. destruct (id s); try done.
    apply String.eqb_eq in Hs as ->. by apply String.eqb_neq.
  - cbn. by rewrite IH.
Qed.

(** X18.  [remove] drops every configuration that has the id, keeps the
    others in their order, and answers [True] exactly when it dropped
    one; afterwards [get] no longer finds the id and finds the other
    ids as before. *)
Theorem remove_drops_every_match (self : ConfigManager) (sid : string)
        (st : Store) (servers : list ServerConfig) :
  listing st self = Some servers ->
  write_fault st (path self) = NoFault ->
  unreadable st (path self) = false ->
  exists (b : bool) st',
    remove self sid st = (Ok b, st') /\
    b = existsb (has_id sid) servers /\
    listing st' self = Some (List.filter (fun s => negb (has_id sid s)) servers) /\
    fst (Config.get self sid st') = Ok None /\
    (forall sid', sid' <> sid ->
       fst (Config.get self sid' st') = fst (Config.get self sid' st)).
Proof.
  intros Hl Hw Hr. rewrite config_remove_at, Hl.
  assert (Hex : existsb (has_id sid) servers
                = negb (forallb (fun s => negb (has_id sid s)) servers)).
  { clear. induction servers as [|s l IH]; [done|]. cbn.
    rewrite IH. by destruct (has_id sid s). }
  assert (Hsame : forallb (fun s => negb (has_id sid s)) servers = true ->
                  List.filter (fun s => negb (has_id sid s)) servers = servers).
  { clear. induction servers as [|s l IH]; [done|]. cbn.
    intros [Hs H]%andb_true_iff. rewrite Hs. f_equal. by apply IH. }
  destruct (forallb _ servers) eqn:Hall.
  - do 2 eexists. split; [reflexivity|]. split; [by rewrite Hex|].
    assert (Hl' : listing (noted WARNING "Attempted to remove unknown server id %s"
                             (loaded st self)) self
                  = Some (List.filter (fun s => negb (has_id sid s)) servers)).
    { rewrite listing_noted, listing_loaded, Hl. f_equal. symmetry. by apply Hsame. }
    split; [exact Hl'|]. split.
    + rewrite config_get_at, Hl'. cbn [fst]. by rewrite find_filter_gone.
    + intros sid' Hne. rewrite !config_get_at, Hl', Hl. cbn [fst].
      by rewrite find_filter_other.
  - do 2 eexists. split; [reflexivity|]. split; [by rewrite Hex|].
    assert (Hl' : listing (noted INFO "Removed server %s"
                             (saved (loaded st self) self
                                (List.filter (fun s => negb (has_id sid s)) servers)))
                          self
                  = Some (List.filter (fun s => negb (has_id sid s)) servers)).
    { rewrite listing_noted.
      apply listing_saved; by rewrite ?write_fault_loaded, ?unreadable_loaded. }
    split; [exact Hl'|]. split.
    + rewrite config_get_at, Hl'. cbn [fst]. by rewrite find_filter_gone.
    + intros sid' Hne. rewrite !config_get_at, Hl', Hl. cbn [fst].
      by rewrite find_filter_other.
Qed.


(** X20.  A save that fails is not reported to the caller.  [add] still answers
    the new configuration and [remove] still answers [True]; but when the
    file could not be opened it holds what it held, so the new entry is
    not there and the removed one still is, and when the dump broke off
    the file no longer loads and every configuration is gone. *)
Theorem failed_save_is_silent (self : ConfigManager) (partial : list (string * json))
        (sid : string) (st : Store) (servers : list ServerConfig) (nm script : json) :
  listing st self = Some servers ->
  dict_get "name" partial = Some nm ->
  dict_get "start_script" partial = Some script ->
  existsb (has_id sid) servers = true ->
  write_fault st (path self) <> NoFault ->
  (exists sc st',
     add self partial st = (Ok sc, st') /\
     mkEntry ERROR "Failed to save configs" ∈ logged st' /\
     listing st' self
     = Some (match write_fault st (path self) with OpenFails => servers | _ => [] end)) /\
  (exists st',
     remove self sid st = (Ok true, st') /\
     mkEntry ERROR "Failed to save configs" ∈ logged st' /\
     listing st' self
     = Some (match write_fault st (path self) with OpenFails => servers | _ => [] end)).
Proof.
  intros Hl Hn Hs Hex Hw.
  assert (Hsaved : forall st1 l,
            disk st1 = disk st -> unreadable st1 = unreadable st ->
            write_fault st1 = write_fault st ->
            mkEntry ERROR "Failed to save configs" ∈ logged (saved st1 self l) /\
            listing (saved st1 self l) self
            = Some (match write_fault st (path self) with
                    | OpenFails => servers | _ => [] end)).
  { intros st1 l Hd Hu Hf. unfold saved. rewrite Hf.
    destruct (write_fault st (path self)) eqn:Hwf; [done|..].
    - split; [cbn; apply elem_of_app; right; by apply list_elem_of_singleton|].
      rewrite listing_noted. rewrite <- Hl. unfold listing, document.
      by rewrite Hd, Hu.
    - split; [cbn; apply elem_of_app; right; by apply list_elem_of_singleton|].
      rewrite listing_noted. unfold listing, document. cbn.
      by rewrite lookup_insert_eq. }
  split.
  - rewrite config_add_at, Hl, Hn, Hs. cbn zeta. do 2 eexists. split; [reflexivity|].
    destruct (Hsaved (set_drawn (S (drawn st)) (loaded st self))
                (servers ++ [made (uuid4 st (drawn st)) nm script partial])%list)
      as [H1 H2].
    { cbn. apply disk_loaded. }
    { cbn. apply unreadable_loaded. }
    { cbn. apply write_fault_loaded. }
    split.
    + cbn [noted logged set_logged]. apply elem_of_app. by left.
    + by rewrite listing_noted.
  - rewrite config_remove_at, Hl.
    assert (Hall : forallb (fun s => negb (has_id sid s)) servers = false).
    { clear -Hex. induction servers as [|s l IH]; [done|]. cbn in *.
      destruct (has_id sid s); [done|]. cbn in *. by apply IH. }
    rewrite Hall. eexists. split; [reflexivity|].
    destruct (Hsaved (loaded st self)
                (List.filter (fun s => negb (has_id sid s)) servers))
      as [H1 H2].
    { apply disk_loaded. }
    { apply unreadable_loaded. }
    { apply write_fault_loaded. }
    split.
    + cbn [noted logged set_logged]. apply elem_of_app. by left.
    + by rewrite listing_noted.
Qed.

End Configuration.

Section ConfigurationSamples.

Import Json Config ConfigSpec Main Sample.
Local Open Scope cfg_scope.

Lemma save_all_load_all_witness :
  write_fault host (path cfg) = NoFault /\
  unreadable host (path cfg) = false /\
  exists st1,
    save_all cfg [alpha; beta] host = (Ok tt, st1) /\
    load_all cfg st1 = (Ok [alpha; beta], st1).
Proof.
  do 2 (split; [reflexivity|]).
  destruct (save_all_load_all cfg [alpha; beta] host eq_refl eq_refl)
    as (st1 & Hs & _ & Hl).
  by exists st1.
Defined.

Lemma add_appends_witness :
  let partial := [("name", JStr "Gamma"); ("start_script", JStr "g/run.sh");
                  ("force_kill_on_stop", JInt 1)] in
  let st := holding [alpha; beta] in
  listing st cfg = Some [alpha; beta] /\
  dict_get "name" partial = Some (JStr "Gamma") /\
  dict_get "start_script" partial = Some (JStr "g/run.sh") /\
  write_fault st (path cfg) = NoFault /\
  unreadable st (path cfg) = false /\
  exists sc st',
    add cfg partial st = (Ok sc, st') /\
    sc = mkServerConfig (JStr "uuid-0") (JStr "Gamma") (JStr "g/run.sh")
                        JNull JNull (JBool true) /\
    listing st' cfg = Some [alpha; beta; sc] /\
    fst (Config.get cfg "uuid-0" st') = Ok (Some sc).
Proof.
  cbn zeta. do 5 (split; [reflexivity|]).
  destruct (add_appends cfg
              [("name", JStr "Gamma"); ("start_script", JStr "g/run.sh");
               ("force_kill_on_stop", JInt 1)]
              (holding [alpha; beta]) [alpha; beta] (JStr "Gamma") (JStr "g/run.sh")
              eq_refl eq_refl eq_refl eq_refl eq_refl)
    as (st' & Hadd & _ & Hl & Hget & _).
  do 2 eexists. split; [exact Hadd|]. split; [reflexivity|].
  split; [exact Hl|]. by apply Hget.
Defined.

Lemma add_requires_name_and_script_witness :
  let st := holding [alpha] in
  listing st cfg = Some [alpha] /\
  (dict_get "name" [("name", JStr "Gamma")] = None \/
   dict_get "start_script" [("name", JStr "Gamma")] = None) /\
  exists st',
    add cfg [("name", JStr "Gamma")] st = (Err (KeyError "start_script"), st') /\
    disk st' = disk st.
Proof.
  cbn zeta. split; [reflexivity|]. split; [right; reflexivity|].
  destruct (add_requires_name_and_script cfg [("name", JStr "Gamma")]
              (holding [alpha]) [alpha] eq_refl (or_intror eq_refl))
    as (k & st' & Hadd & -> & Hd & _).
  by exists st'.
Defined.

Lemma update_changes_first_match_witness :
  let upd := [("name", JStr "Beta 2"); ("id", JStr "b2"); ("colour", JStr "red")] in
  let st := holding [alpha; beta] in
  listing st cfg = Some ([alpha] ++ beta :: [])%list /\
  forallb (fun x => negb (has_id "b" x)) [alpha] = true /\
  has_id "b" beta = true /\
  plain st upd /\
  NoDup upd.*1 /\
  exists s' st',
    update cfg "b" upd st = (Ok (Some s'), st') /\
    getattr s' "name" = Some (JStr "Beta 2") /\
    getattr s' "id" = Some (JStr "b2") /\
    getattr s' "start_script" = Some (JStr "beta/run.sh") /\
    listing st' cfg = Some [alpha; s'].
Proof.
  cbn zeta. do 3 (split; [reflexivity|]).
  assert (Hp : plain (holding [alpha; beta])
                 [("name", JStr "Beta 2"); ("id", JStr "b2"); ("colour", JStr "red")])
    by (by repeat constructor).
  assert (Hnd : NoDup [("name", JStr "Beta 2"); ("id", JStr "b2");
                       ("colour", JStr "red")].*1).
  { cbn. repeat (apply NoDup_cons; split;
                   [rewrite ?elem_of_cons, elem_of_nil; intros H;
                    repeat destruct H as [H|H]; done|]).
    apply NoDup_nil_2. }
  split; [exact Hp|]. split; [exact Hnd|].
  destruct (update_changes_first_match cfg "b"
              [("name", JStr "Beta 2"); ("id", JStr "b2"); ("colour", JStr "red")]
              (holding [alpha; beta]) [alpha] beta [] eq_refl eq_refl eq_refl Hp Hnd)
    as (s' & st' & Hup & Hset & Hkeep & Hl).
  exists s', st'. split; [exact Hup|].
  split; [by apply Hset|]. split; [by apply Hset|].
  split; [by rewrite Hkeep|]. by apply Hl.
Defined.

Lemma unknown_id_changes_nothing_witness :
  let st := holding [alpha; beta] in
  listing st cfg = Some [alpha; beta] /\
  forallb (fun s => negb (has_id "z" s)) [alpha; beta] = true /\
  fst (Config.get cfg "z" st) = Ok None /\
  fst (remove cfg "z" st) = Ok false.
Proof.
  cbn zeta. do 2 (split; [reflexivity|]).
  destruct (unknown_id_changes_nothing cfg "z" [] (holding [alpha; beta]) [alpha; beta]
              eq_refl eq_refl) as (Hg & _ & (st' & Hr & _)).
  split; [exact Hg|]. by rewrite Hr.
Defined.

Lemma remove_drops_every_match_witness :
  let st := holding [alpha; beta; alpha] in
  listing st cfg = Some [alpha; beta; alpha] /\
  write_fault st (path cfg) = NoFault /\
  unreadable st (path cfg) = false /\
  exists st',
    remove cfg "a" st = (Ok true, st') /\
    listing st' cfg = Some [beta].
Proof.
  cbn zeta. do 3 (split; [reflexivity|]).
  destruct (remove_drops_every_match cfg "a" (holding [alpha; beta; alpha])
              [alpha; beta; alpha] eq_refl eq_refl eq_refl)
    as (b & st' & Hr & -> & Hl & _).
  by exists st'.
Defined.

Lemma failed_save_is_silent_witness :
  let partial := [("name", JStr "Gamma"); ("start_script", JStr "g/run.sh")] in
  let st := read_only (holding [alpha]) in
  listing st cfg = Some [alpha] /\
  dict_get "name" partial = Some (JStr "Gamma") /\
  dict_get "start_script" partial = Some (JStr "g/run.sh") /\
  existsb (has_id "a") [alpha] = true /\
  write_fault st (path cfg) <> NoFault /\
  (exists sc st', add cfg partial st = (Ok sc, st') /\ listing st' cfg = Some [alpha]) /\
  (exists st', remove cfg "a" st = (Ok true, st') /\ listing st' cfg = Some [alpha]).
Proof.
  cbn zeta. do 4 (split; [reflexivity|]). split; [discriminate|].
  destruct (failed_save_is_silent cfg
              [("name", JStr "Gamma"); ("start_script", JStr "g/run.sh")] "a"
              (read_only (holding [alpha])) [alpha] (JStr "Gamma") (JStr "g/run.sh")
              eq_refl eq_refl eq_refl eq_refl)
    as ((sc & st1 & Hadd & _ & Hl1) & (st2 & Hrem & _ & Hl2)); [discriminate|].
  split; [by exists sc, st1|by exists st2].
Defined.

End ConfigurationSamples.

(* ===================================================================== *)
(** ** main.py: what the page can do *)
(* ===================================================================== *)

Section PageApi.

Import Json Config ConfigSpec Main Sample.
Local Open Scope cfg_scope.

Implicit Types (st : Store) (servers : list ServerConfig).

Lemma find_split sid servers s :
  List.find (has_id sid) servers = Some s ->
  exists before rest,
    servers = (before ++ s :: rest)%list /\
    forallb (fun x => negb (has_id sid x)) before = true /\
    has_id sid s = true.
Proof.
  induction servers as [|x l IH]; [done|]. cbn [List.find].
  destruct (has_id sid x) eqn:Hx.
  - intros [= ->]. by exists [], l.
  - intros (before & rest & -> & Hb & Hs)%IH.
    exists (x :: before), rest. cbn. by rewrite Hx.
Qed.

Lemma find_none sid servers :
  List.find (has_id sid) servers = None ->
  forallb (fun x => negb (has_id sid x)) servers = true.
Proof.
  induction servers as [|x l IH]; [done|]. cbn.
  destruct (has_id sid x); [done|]. exact IH.
Qed.

(** X21.  [add_server] checks its argument before it touches the
    configuration: without [name] or [start_script] it raises
    [ValueError] and nothing has happened, so the [KeyError] of [add]
    never reaches the page.  With both it answers the dict of the new
    configuration, which [list_servers] then lists last. *)
Theorem add_server_validates_first (data : list (string * json)) (st : Store) :
  (dict_has "name" data = false \/ dict_has "start_script" data = false ->
   add_server data st = (Err (ValueError "name and start_script are required"), st)) /\
  (forall k, fst (add_server data st) <> Err (KeyError k)) /\
  (forall servers,
     dict_has "name" data = true -> dict_has "start_script" data = true ->
     listing st cfg = Some servers ->
     write_fault st CONFIG_PATH = NoFault -> unreadable st CONFIG_PATH = false ->
     exists sc st',
       add_server data st = (Ok (to_dict sc), st') /\
       id sc = JStr (uuid4 st (drawn st)) /\
       fst (list_servers st') = Ok (map to_dict servers ++ [to_dict sc])%list).
Proof.
  unfold add_server, dict_has.
  destruct (dict_get "name" data) as [nm|] eqn:Hn;
    destruct (dict_get "start_script" data) as [script|] eqn:Hs; cbn [negb orb].
  2-4: split; [done|]; split; [done|]; by intros.
  split; [by intros [|]|]. split.
  - intros k. rewrite cbind_eq, config_add_at, Hn, Hs.
    destruct (listing st cfg); cbn; congruence.
  - intros servers _ _ Hl Hw Hr.
    rewrite cbind_eq, config_add_at, Hl, Hn, Hs. cbn zeta.
    do 2 eexists. split; [reflexivity|]. split; [done|].
    unfold list_servers. rewrite cbind_eq, config_load_all_at, listing_noted.
    rewrite listing_saved;
      [|cbn; by rewrite write_fault_loaded|cbn; by rewrite unreadable_loaded].
    cbn. by rewrite map_app.
Qed.

(** X22.  [edit_server] answers the dict of the configuration that [update]
    changed, and raises [ValueError] when no configuration has the id;
    nothing is written then. *)
Theorem edit_server_reports_unknown_id (sid : string) (data : list (string * json))
        (st : Store) (servers : list ServerConfig) :
  listing st cfg = Some servers ->
  plain st data ->
  exists st',
    edit_server sid data st
    = (match List.find (has_id sid) servers with
       | Some s => Ok (to_dict (assigned s data))
       | None => Err (ValueError "server not found")
       end, st') /\
    (List.find (has_id sid) servers = None -> disk st' = disk st).
Proof.
  intros Hl Hp. unfold edit_server. rewrite cbind_eq, config_update_at, Hl.
  destruct (List.find (has_id sid) servers) as [s|] eqn:Hf.
  - destruct (find_split sid servers s Hf) as (before & rest & -> & Hb & Hs).
    rewrite (update_from_hit cfg sid data [] before s rest)
      by (done || by apply plain_loaded).
    eexists. split; [reflexivity|done].
  - rewrite update_from_miss by (by apply find_none).
    eexists. split; [reflexivity|]. intros _. cbn. by rewrite disk_loaded.
Qed.

Lemma edit_server_reports_unknown_id_witness :
  let st := holding [alpha; beta] in
  listing st cfg = Some [alpha; beta] /\
  plain st [("name", JStr "A")] /\
  fst (edit_server "z" [("name", JStr "A")] st) = Err (ValueError "server not found") /\
  fst (edit_server "a" [("name", JStr "A")] st)
  = Ok (to_dict (mkServerConfig (JStr "a") (JStr "A") (JStr "alpha/run.sh")
                                JNull JNull (JBool false))).
Proof.
  cbn zeta. split; [reflexivity|].
  assert (Hp : plain (holding [alpha; beta]) [("name", JStr "A")])
    by (by repeat constructor).
  split; [exact Hp|]. split.
  - destruct (edit_server_reports_unknown_id "z" [("name", JStr "A")]
                (holding [alpha; beta]) [alpha; beta] eq_refl Hp) as (st' & -> & _).
    reflexivity.
  - destruct (edit_server_reports_unknown_id "a" [("name", JStr "A")]
                (holding [alpha; beta]) [alpha; beta] eq_refl Hp) as (st' & -> & _).
    reflexivity.
Defined.

End PageApi.

Section Page.

Import Json Config ConfigSpec Main Sample.

Lemma stop_server_no_grace w sid cmd fuel :
  wf w -> (1 <= fuel)%nat ->
  exists b w',
    ServerManager.stop_server fuel sid cmd 0 w = (Returns b, w') /\
    now w' = now w /\
    Forall (fun e => forall ms, e <> Sleep ms) (drop (length (trace w)) (trace w')).
Proof.
  intros Hwf Hfuel.
  destruct (_processes w !! sid) as [h|] eqn:Hreg.
  - destruct (Hwf _ _ Hreg) as (sp & Hh & _).
    destruct (stop_server_known w sid h sp fuel cmd 0 Hreg Hh)
      as (sent & p1 & evs1 & n & _ & _ & Hevs & Hn & _ & Hrun); [lia|].
    assert (n = O) as ->.
    { destruct n as [|n]; [done|]. destruct (Hn O) as [_ ?]; lia. }
    cbn zeta in Hrun. rewrite Z.mul_0_r, Z.add_0_r in Hrun. rewrite Hrun.
    assert (Hq : Forall (fun e => forall ms, e <> Sleep ms) evs1).
    { eapply Forall_impl; [exact Hevs|]. intros e He ms ->. exact He. }
    destruct (status p1 (now w)) as [rc|] eqn:Hst.
    all: do 2 eexists; split; [reflexivity|]; split; [reflexivity|].
    all: cbn [trace at_]; rewrite drop_app_length.
    all: apply Forall_cons; split; [done|].
    all: apply Forall_app; split; [exact Hq|].
    all: cbn [rounds app]; repeat (apply Forall_cons; split; [try done|]);
         try (by apply Forall_nil).
    by destruct (killed (now w) p1).2.
  - rewrite (stop_server_unknown w sid cmd 0 fuel Hreg).
    do 2 eexists. split; [reflexivity|]. split; [reflexivity|].
    cbn [trace emit]. rewrite drop_app_length. by repeat constructor.
Qed.

(** X23.  The page cannot stop a server that has no configuration: [stop_server]
    of [main.py] shows an error and never calls the manager, so a child
    that runs under that id keeps running. *)
Theorem page_stop_needs_configuration (fuel : nat) (sid : string) (a : App)
        (servers : list ServerConfig) :
  listing (store a) cfg = Some servers ->
  forallb (fun s => negb (has_id sid s)) servers = true ->
  exists a',
    stop_server fuel sid a
    = (if js_raises a (page a) (show_error "Server not found")
       then Failed (PageError (show_error "Server not found")) else Done tt, a') /\
    world a' = world a /\
    page a' = (page a ++ [show_error "Server not found"])%list /\
    disk (store a') = disk (store a).
Proof.
  intros Hl Hmiss. unfold stop_server, then_, on_cfg.
  rewrite config_get_at, Hl.
  assert (List.find (has_id sid) servers = None) as ->.
  { clear -Hmiss. induction servers as [|s l IH]; [done|].
    cbn in *. apply andb_true_iff in Hmiss as [Hs Hmiss].
    apply negb_true_iff in Hs. rewrite Hs. by apply IH. }
  unfold eel. cbn [js_raises set_store page store world set_page].
  eexists. split; [reflexivity|]. cbn. by rewrite disk_loaded.
Qed.

Lemma page_stop_needs_configuration_witness :
  let w := Example.one_server (Example.handle Example.polite [] false) in
  let a := app (holding [alpha; beta]) w in
  listing (store a) cfg = Some [alpha; beta] /\
  forallb (fun s => negb (has_id "id1" s)) [alpha; beta] = true /\
  exists a',
    stop_server 80 "id1" a = (Done tt, a') /\
    world a' = w /\
    page a' = [show_error "Server not found"].
Proof.
  cbn zeta. do 2 (split; [reflexivity|]).
  destruct (page_stop_needs_configuration 80 "id1"
              (app (holding [alpha; beta])
                   (Example.one_server (Example.handle Example.polite [] false)))
              [alpha; beta] eq_refl eq_refl) as (a' & Hrun & Hw & Hp & _).
  exists a'. split; [exact Hrun|]. split; [exact Hw|exact Hp].
Defined.

(** X24.  With a configuration, [stop_server] of [main.py] stops the server
    through the manager and tells the page the manager's answer, once.
    When [force_kill_on_stop] is true of the configuration the manager
    is given no grace period: it never sleeps and the clock does not
    move; otherwise the grace period is 15 seconds. *)
Theorem page_stop_honours_force_kill (fuel : nat) (sid : string) (a : App)
        (servers : list ServerConfig) (s : ServerConfig) :
  listing (store a) cfg = Some servers ->
  List.find (has_id sid) servers = Some s ->
  wf (world a) ->
  (76 <= fuel)%nat ->
  let timeout := if truthy (force_kill_on_stop s) then 0 else 15 in
  exists (b : bool) a',
    ServerManager.stop_server fuel sid "stop" timeout (world a) = (Returns b, world a') /\
    stop_server fuel sid a
    = (if js_raises a (page a) (notify_server_stopped sid b)
       then Failed (PageError (notify_server_stopped sid b)) else Done tt, a') /\
    page a' = (page a ++ [notify_server_stopped sid b])%list /\
    (truthy (force_kill_on_stop s) = true ->
     now (world a') = now (world a) /\
     Forall (fun e => forall ms, e <> Sleep ms)
            (drop (length (trace (world a))) (trace (world a')))).
Proof.
  intros Hl Hf Hwf Hfuel. cbn zeta. unfold stop_server, then_, on_cfg.
  rewrite config_get_at, Hl, Hf.
  destruct (truthy (force_kill_on_stop s)) eqn:Ht.
  - destruct (stop_server_no_grace (world a) sid "stop" fuel Hwf) as (b & w' & Hrun & Hn & Hq);
      [lia|].
    unfold on_mgr. cbn [world set_store]. rewrite Hrun.
    unfold eel. cbn [js_raises set_world page store world set_page].
    exists b. eexists. split; [|split; [reflexivity|]].
    + cbn [world]. reflexivity.
    + split; [reflexivity|]. intros _. cbn [world]. by split.
  - destruct (stop_server_run (world a) sid "stop" 15 fuel Hwf) as (b & w' & evs & Hrun & _);
      [lia|].
    unfold on_mgr. cbn [world set_store]. rewrite Hrun.
    unfold eel. cbn [js_raises set_world page store world set_page].
    exists b. eexists. split; [|split; [reflexivity|]].
    + cbn [world]. reflexivity.
    + split; [reflexivity|]. intros [=].
Qed.

Lemma page_stop_honours_force_kill_witness :
  let w := Example.one_server (Example.handle Example.hung [] false) in
  let a := app (holding [alpha; beta]) w in
  listing (store a) cfg = Some [alpha; beta] /\
  List.find (has_id "b") [alpha; beta] = Some beta /\
  wf (world a) /\
  (76 <= 80)%nat /\
  exists b a',
    stop_server 80 "b" a = (Done tt, a') /\
    page a' = [notify_server_stopped "b" b] /\
    now (world a') = now w.
Proof.
  cbn zeta. do 2 (split; [reflexivity|]).
  assert (Hwf : wf (Example.one_server (Example.handle Example.hung [] false)))
    by (by apply wf_example).
  split; [exact Hwf|]. split; [lia|].
  destruct (page_stop_honours_force_kill 80 "b"
              (app (holding [alpha; beta])
                   (Example.one_server (Example.handle Example.hung [] false)))
              [alpha; beta] beta eq_refl eq_refl Hwf)
    as (b & a' & _ & Hrun & Hp & Hforce); [lia|].
  exists b, a'. split; [exact Hrun|]. split; [exact Hp|].
  by apply Hforce.
Defined.

(** X25.  [send_command] of [main.py] shows an error exactly when the manager
    answers [False]; the command has then not reached any child. *)
Theorem page_send_command_reports_failure (sid cmd : string) (a : App) :
  wf (world a) ->
  let failed := show_error "Failed to send command (server not running?)" in
  exists (b : bool) a',
    ServerManager.send_command sid cmd (world a) = (Returns b, world a') /\
    send_command sid cmd a
    = (if b then Done tt
       else if js_raises a (page a) failed then Failed (PageError failed) else Done tt,
       a') /\
    page a' = (page a ++ if b then [] else [failed])%list /\
    store a' = store a.
Proof.
  intros Hwf. cbn zeta.
  destruct (manager_send_command_returns (world a) sid cmd Hwf) as (b & Hb).
  unfold result in Hb.
  destruct (ServerManager.send_command sid cmd (world a)) as [r w'] eqn:Hrun.
  cbn [fst] in Hb. subst r.
  unfold send_command, then_, on_mgr. rewrite Hrun.
  destruct b; cbn [negb].
  - exists true, (set_world w' a). split; [reflexivity|]. split; [reflexivity|].
    cbn. by rewrite app_nil_r.
  - unfold eel. cbn [js_raises set_world page store world set_page].
    exists false. eexists. split; [|split; [reflexivity|]].
    + reflexivity.
    + done.
Qed.

Lemma page_send_command_reports_failure_witness :
  let w := Example.one_server (Example.handle Example.polite [] false) in
  let a := app (holding [alpha]) w in
  wf (world a) /\
  exists a',
    send_command "nobody" "say hi" a = (Done tt, a') /\
    page a' = [show_error "Failed to send command (server not running?)"].
Proof.
  cbn zeta.
  assert (Hwf : wf (Example.one_server (Example.handle Example.polite [] false)))
    by (by apply wf_example).
  split; [exact Hwf|].
  destruct (page_send_command_reports_failure "nobody" "say hi"
              (app (holding [alpha])
                   (Example.one_server (Example.handle Example.polite [] false))) Hwf)
    as (b & a' & Hm & Hrun & Hp & _).
  assert (b = false) as ->.
  { cbn [world app] in Hm.
    assert (Hc : fst (ServerManager.send_command "nobody" "say hi"
                        (Example.one_server (Example.handle Example.polite [] false)))
                 = Returns false) by (vm_compute; reflexivity).
    rewrite Hm in Hc. by injection Hc. }
  exists a'. split; [exact Hrun|exact Hp].
Defined.

End Page.

(* ===================================================================== *)
(** ** logger.py *)
(* ===================================================================== *)

Section LoggerFacts.

Import Logger.

Lemma getLogger_put name l lg : getLogger name (put name l lg) = l.
Proof. unfold getLogger, put. cbn. by rewrite lookup_insert_eq. Qed.

Lemma getLogger_put_ne name other l lg :
  other <> name -> getLogger other (put name l lg) = getLogger other lg.
Proof. intros Hne. unfold getLogger, put. cbn. by rewrite lookup_insert_ne. Qed.

(** X26.  [get_logger] configures a logger once.  A logger without handlers
    gets the level [DEBUG], a console handler at [INFO] and a rotating
    file handler at [DEBUG] (5 MiB, 3 backups); a later call for the same
    name answers that logger and adds nothing.  When the log file cannot
    be opened the call raises with the console handler already attached,
    and later calls answer the logger as it is, without a file handler.
    Loggers of other names are not touched. *)
Theorem get_logger_configures_once (name : string) (lg : Logging) :
  handlers (getLogger name lg) = [] ->
  let console := StreamHandler INFO "%(asctime)s - %(levelname)s - %(message)s" in
  let file := RotatingFileHandler LOG_FILE 5242880 3 DEBUG
                "%(asctime)s - %(levelname)s - %(name)s - %(message)s" in
  exists r lg1,
    get_logger name lg = (r, lg1) /\
    r = (if openable lg LOG_FILE
         then Some (mkLogger (Some DEBUG) [console; file]) else None) /\
    getLogger name lg1
    = mkLogger (Some DEBUG) (if openable lg LOG_FILE then [console; file] else [console]) /\
    get_logger name lg1 = (Some (getLogger name lg1), lg1) /\
    (forall other, other <> name -> getLogger other lg1 = getLogger other lg).
Proof.
  intros Hh. cbn zeta. unfold get_logger at 1. cbn zeta. rewrite Hh.
  cbn [threshold handlers app openable put].
  destruct (openable lg LOG_FILE) eqn:Ho.
  - do 2 eexists. split; [reflexivity|]. split; [reflexivity|].
    split; [by rewrite getLogger_put|]. split.
    + unfold get_logger. cbn zeta. rewrite getLogger_put. cbn [handlers].
      f_equal. unfold put. cbn. f_equal. by rewrite !insert_insert_eq.
    + intros other Hne. by rewrite !getLogger_put_ne.
  - do 2 eexists. split; [reflexivity|]. split; [reflexivity|].
    split; [by rewrite getLogger_put|]. split.
    + unfold get_logger. cbn zeta. rewrite getLogger_put. cbn [handlers].
      f_equal. unfold put. cbn. f_equal. by rewrite !insert_insert_eq.
    + intros other Hne. by rewrite !getLogger_put_ne.
Qed.

Lemma get_logger_configures_once_witness :
  let lg := mkLogging ∅ (fun _ => true) in
  handlers (getLogger "config_manager" lg) = [] /\
  exists l lg1,
    get_logger "config_manager" lg = (Some l, lg1) /\
    length (handlers l) = 2%nat /\
    get_logger "config_manager" lg1 = (Some l, lg1).
Proof.
  cbn zeta.
  assert (Hh : handlers
                 (getLogger "config_manager" (mkLogging ∅ (fun _ => true)))
               = []) by reflexivity.
  split; [exact Hh|].
  destruct (get_logger_configures_once "config_manager"
              (mkLogging ∅ (fun _ => true)) Hh)
    as (r & lg1 & Hrun & -> & Hl & Hagain & _).
  cbn in Hl. do 2 eexists. split; [exact Hrun|]. split; [reflexivity|].
  rewrite Hagain, Hl. reflexivity.
Defined.

End LoggerFacts.
